(** * xr-native-sensor-access: acquisition and lifecycle engine

    A shallow embedding of the native sensor layer
    ([app/src/main/cpp]): the camera classification heuristic, the
    per-camera stream state machine, the inertial engine and the
    single-producer/single-consumer ring buffer, followed by the
    properties established about them.  The embedding also covers the
    camera enumeration, the sensor enumeration and metadata, the
    callback handler, the registry of camera streams behind the JNI
    entry points, and the camera list as the native side writes it and
    the Kotlin side ([CameraBridge.kt]) reads it.

    Conventions.
    - Fixed-width integers are [Z] with the wrap-around of the machine
      type written out ([Int.int32], [Int.int64], [RingBuffer.size_t]).
    - [float] and [double] are IEEE-754 binary32 and binary64 values,
      computed with the reference operations of [SpecFloat]
      (round to nearest, ties to even).
    - Native handles are numbers, [0] being [nullptr].
    - Calls into the platform camera service are recorded in a trace of
      [NativeCall]s; what the service answers is a parameter.
    - Clock readings ([getBootTimeNs]) are parameters named [now].
    - [std::unordered_map] is a [gmap]; where the code iterates over it,
      the order is that of [map_to_list]. *)

From Stdlib Require Import ZArith Lia List Bool String Ascii SpecFloat Sorted DecimalString DecimalPos.
From stdpp Require Import base list strings gmap.
Import ListNotations.

(** ** Machine integers *)

Module Int.
Local Open Scope Z_scope.

Definition wrap (bits z : Z) : Z :=
  (z + 2 ^ (bits - 1)) mod 2 ^ bits - 2 ^ (bits - 1).

Definition int32 (z : Z) : Z := wrap 32 z.
Definition int64 (z : Z) : Z := wrap 64 z.

Definition in_int32 (z : Z) : Prop := - 2 ^ 31 <= z < 2 ^ 31.
Definition in_int64 (z : Z) : Prop := - 2 ^ 63 <= z < 2 ^ 63.

Definition INT64_MAX : Z := 2 ^ 63 - 1.

End Int.

(** ** IEEE-754 arithmetic of the statistics code *)

Module IEEE.
Local Open Scope Z_scope.

Definition double : Type := spec_float.
Definition float : Type := spec_float.

(** [static_cast<double>(n)] for an integer [n]. *)
Definition double_of_int (z : Z) : double := binary_normalize 53 1024 z 0 false.

(** [x / y] on [double]. *)
Definition double_div (x y : double) : double := SFdiv 53 1024 x y.

(** [x > y] on [double]. *)
Definition double_gt (x y : double) : bool := SFltb y x.

(** [static_cast<float>(x)] for a [double] [x]. *)
Definition float_of_double (x : double) : float :=
  match x with
  | S754_finite s m e => binary_round 24 128 s m e
  | _ => x
  end.

(** [0.0] and [0.0f]. *)
Definition zero : spec_float := S754_zero false.

(** [kNsPerSecond = 1'000'000'000LL], [kNsToMs = 1'000'000.0]. *)
Definition kNsPerSecond : Z := 1000000000.
Definition kNsToMs : double := double_of_int 1000000.


(** [static_cast<float>(n)] for an integer [n], and [x / y] on [float]. *)
Definition float_of_int (z : Z) : float := binary_normalize 24 128 z 0 false.
Definition float_div (x y : float) : float := SFdiv 24 128 x y.

End IEEE.

(** ** camera_data.h *)

Module CameraClusterType.
Inductive t : Type := Unknown | Passthrough | Avatar | EyeTracking | Depth.
End CameraClusterType.

Module CameraFacing.
Inductive t : Type := Unknown | Front | Back | External.
End CameraFacing.

Record CameraInfo : Type := {
  id : string;
  facing : CameraFacing.t;
  clusterType : CameraClusterType.t;
  width : Z;
  height : Z;
  maxFps : Z;
  isPhysicalCamera : bool;
  physicalCameraIds : string
}.

Record CameraStats : Type := {
  frameRateHz : IEEE.float;
  latencyMs : IEEE.float;
  frameCount : Z;
  droppedFrames : Z
}.

(** ** camera_manager.cpp: classification *)

Module CameraManager.
Local Open Scope Z_scope.

Record t : Type := { cameraManager_ : N }.

Definition isValid (m : t) : bool := negb (N.eqb (cameraManager_ m) 0).
Definition getNativeManager (m : t) : N := cameraManager_ m.

Definition kHighResThreshold : Z := 1920 * 1080.

(** [std::tolower] in the "C" locale. *)
Definition tolower (c : ascii) : ascii :=
  let n := nat_of_ascii c in
  if (Nat.leb 65 n && Nat.leb n 90)%bool then ascii_of_nat (n + 32) else c.

Fixpoint toLower (str : string) : string :=
  match str with
  | EmptyString => EmptyString
  | String c rest => String (tolower c) (toLower rest)
  end.

(** [std::string::find]: position of the first occurrence, [None] for [npos]. *)
Fixpoint find (needle hay : string) : option nat :=
  if String.prefix needle hay then Some 0%nat
  else match hay with
       | EmptyString => None
       | String _ rest => option_map S (find needle rest)
       end.

Definition found (needle hay : string) : bool :=
  match find needle hay with Some _ => true | None => false end.

Definition facing_eqb (a b : CameraFacing.t) : bool :=
  match a, b with
  | CameraFacing.Unknown, CameraFacing.Unknown
  | CameraFacing.Front, CameraFacing.Front
  | CameraFacing.Back, CameraFacing.Back
  | CameraFacing.External, CameraFacing.External => true
  | _, _ => false
  end.

Definition classifyCamera (info : CameraInfo) (id : string) : CameraClusterType.t :=
  let lowerId := toLower id in
  if (found "eye" lowerId || found "gaze" lowerId || found "ir" lowerId)%bool
  then CameraClusterType.EyeTracking
  else if (found "depth" lowerId || found "tof" lowerId)%bool
  then CameraClusterType.Depth
  else if (found "track" lowerId || found "slam" lowerId)%bool
  then CameraClusterType.Avatar
  else
    let resolution := Int.int32 (width info * height info) in
    if resolution >=? kHighResThreshold then CameraClusterType.Passthrough
    else if (facing_eqb (facing info) CameraFacing.Front && (resolution >? 0))%bool
    then CameraClusterType.Avatar
    else if facing_eqb (facing info) CameraFacing.External
    then CameraClusterType.Avatar
    else if ((resolution >? 0) && (resolution <? kHighResThreshold))%bool
    then CameraClusterType.Avatar
    else CameraClusterType.Unknown.

(** The decision list as the specification words it: keyword match on the
    identifier, then the resolution threshold, then "front-facing or
    external facing with nonzero resolution", then "any other nonzero
    resolution", otherwise Unknown. *)
Definition classifyCamera_spec (info : CameraInfo) (id : string) : CameraClusterType.t :=
  let lowerId := toLower id in
  let resolution := width info * height info in
  if (found "eye" lowerId || found "gaze" lowerId || found "ir" lowerId)%bool
  then CameraClusterType.EyeTracking
  else if (found "depth" lowerId || found "tof" lowerId)%bool
  then CameraClusterType.Depth
  else if (found "track" lowerId || found "slam" lowerId)%bool
  then CameraClusterType.Avatar
  else if resolution >=? 1920 * 1080 then CameraClusterType.Passthrough
  else if ((facing_eqb (facing info) CameraFacing.Front
            || facing_eqb (facing info) CameraFacing.External)
           && negb (resolution =? 0))%bool
  then CameraClusterType.Avatar
  else if negb (resolution =? 0) then CameraClusterType.Avatar
  else CameraClusterType.Unknown.


(** *** Camera characteristics and enumeration *)

Definition ACAMERA_OK : Z := 0.

(** [ACAMERA_LENS_FACING_FRONT], [_BACK] and [_EXTERNAL] of the NDK. *)
Definition ACAMERA_LENS_FACING_FRONT : Z := 0.
Definition ACAMERA_LENS_FACING_BACK : Z := 1.
Definition ACAMERA_LENS_FACING_EXTERNAL : Z := 2.

(** The entries of an [ACameraMetadata] that [queryCharacteristics] reads;
    [None] is an entry that [ACameraMetadata_getConstEntry] does not find.
    The stream configurations are [(format, width, height, input)] tuples
    and the frame-rate ranges [(min, max)] pairs, the entry counts being
    multiples of 4 and 2.  For the physical camera ids the entry is
    represented by the string that the parsing loop leaves in [ids]: the
    loop indexes [ptr[j]] after moving [ptr] forward, which reads past the
    entry, so its result is not defined by the bytes of the entry alone. *)
Record ACameraMetadata : Type := {
  lensFacing : option Z;
  streamConfigurations : option (list (Z * Z * Z * Z));
  targetFpsRanges : option (list (Z * Z));
  physicalIds : option string
}.

(** The answers of the platform camera manager: a status with the value
    left in the out-parameter ([None] for a null pointer). *)
Record CameraCatalog : Type := {
  ACameraManager_getCameraIdList : Z * option (list string);
  ACameraManager_getCameraCharacteristics : string -> Z * option ACameraMetadata
}.

Definition facingOf (value : Z) : CameraFacing.t :=
  if value =? ACAMERA_LENS_FACING_FRONT then CameraFacing.Front
  else if value =? ACAMERA_LENS_FACING_BACK then CameraFacing.Back
  else if value =? ACAMERA_LENS_FACING_EXTERNAL then CameraFacing.External
  else CameraFacing.Unknown.

(** Output configurations in YUV_420_888 or IMPLEMENTATION_DEFINED. *)
Definition isCandidate (config : Z * Z * Z * Z) : bool :=
  let '(format, _, _, isInput) := config in
  ((isInput =? 0) && ((format =? 0x23) || (format =? 0x22)))%bool.

(** One iteration of the stream-configuration loop on [(maxWidth, maxHeight)]. *)
Definition largerOutput (best : Z * Z) (config : Z * Z * Z * Z) : Z * Z :=
  let '(maxWidth, maxHeight) := best in
  let '(_, width, height, _) := config in
  if isCandidate config then
    if Int.int32 (width * height) >? Int.int32 (maxWidth * maxHeight)
    then (width, height) else (maxWidth, maxHeight)
  else (maxWidth, maxHeight).

Definition largestOutput (configs : list (Z * Z * Z * Z)) : Z * Z :=
  fold_left largerOutput configs (0, 0).

Definition highestFps (ranges : list (Z * Z)) : Z :=
  fold_left (fun maxFps range => Z.max maxFps (snd range)) ranges 0.

Definition queryCharacteristics (catalog : CameraCatalog) (cameraId : string)
    (outInfo : CameraInfo) : bool * CameraInfo :=
  match ACameraManager_getCameraCharacteristics catalog cameraId with
  | (status, Some metadata) =>
      if negb (status =? ACAMERA_OK) then (false, outInfo)
      else
        let facing' :=
          match lensFacing metadata with
          | Some value => facingOf value
          | None => facing outInfo
          end in
        let '(width', height') :=
          match streamConfigurations metadata with
          | Some configs => largestOutput configs
          | None => (width outInfo, height outInfo)
          end in
        let maxFps' :=
          match targetFpsRanges metadata with
          | Some ranges => highestFps ranges
          | None => maxFps outInfo
          end in
        let '(isPhysicalCamera', physicalCameraIds') :=
          match physicalIds metadata with
          | Some ids =>
              (false, match ids with
                      | EmptyString => physicalCameraIds outInfo
                      | _ => ids
                      end)
          | None => (true, physicalCameraIds outInfo)
          end in
        (((width' >? 0) && (height' >? 0))%bool,
         {| id := id outInfo; facing := facing'; clusterType := clusterType outInfo;
            width := width'; height := height'; maxFps := maxFps';
            isPhysicalCamera := isPhysicalCamera';
            physicalCameraIds := physicalCameraIds' |})
  | (_, None) => (false, outInfo)
  end.

(** [CameraInfo info; info.id = id;] *)
Definition newCameraInfo (cameraId : string) : CameraInfo :=
  {| id := cameraId; facing := CameraFacing.Unknown;
     clusterType := CameraClusterType.Unknown; width := 0; height := 0; maxFps := 0;
     isPhysicalCamera := false; physicalCameraIds := EmptyString |}.

(** The body of the loop of [enumerateCameras] for one camera id: what it
    appends to [cameras]. *)
Definition enumerateCamera (catalog : CameraCatalog) (cameraId : string)
  : list CameraInfo :=
  let '(ok, info) := queryCharacteristics catalog cameraId (newCameraInfo cameraId) in
  if (ok && (width info >? 0) && (height info >? 0))%bool
  then [{| id := id info; facing := facing info;
           clusterType := classifyCamera info cameraId;
           width := width info; height := height info; maxFps := maxFps info;
           isPhysicalCamera := isPhysicalCamera info;
           physicalCameraIds := physicalCameraIds info |}]
  else [].

Definition enumerateCameras (catalog : CameraCatalog) (m : t) : list CameraInfo :=
  if negb (isValid m) then []
  else
    match ACameraManager_getCameraIdList catalog with
    | (status, Some cameraIds) =>
        if negb (status =? ACAMERA_OK) then []
        else flat_map (enumerateCamera catalog) cameraIds
    | (_, None) => []
    end.

End CameraManager.

(** ** camera_stream.h / camera_stream.cpp: one camera stream *)

Module CameraStream.
Local Open Scope Z_scope.

(** A native handle; [nullptr] is [0]. *)
Definition ptr : Type := N.
Definition nullptr : ptr := 0%N.
Definition is_null (p : ptr) : bool := N.eqb p 0.

Definition camera_status_t : Type := Z.
Definition ACAMERA_OK : camera_status_t := 0.
Definition failed (status : camera_status_t) : bool := negb (status =? ACAMERA_OK).

(** [CameraStatsCallback]: an empty [std::function] is [None]. *)
Definition CameraStatsCallback : Type := option nat.

(** Calls into the platform, with the values they returned. *)
Inductive NativeCall : Type :=
| ANativeWindow_acquire (window : ptr)
| ANativeWindow_release (window : ptr)
| ACameraManager_openCamera (manager : N) (cameraId : string)
    (status : camera_status_t) (device : ptr)
| ACameraDevice_close (device : ptr)
| ACameraOutputTarget_create (window : ptr) (status : camera_status_t) (target : ptr)
| ACameraOutputTarget_free (target : ptr)
| ACameraDevice_createCaptureRequest (device : ptr)
    (status : camera_status_t) (request : ptr)
| ACaptureRequest_free (request : ptr)
| ACaptureRequest_addTarget (request target : ptr) (status : camera_status_t)
| ACaptureSessionOutputContainer_create (status : camera_status_t) (container : ptr)
| ACaptureSessionOutputContainer_free (container : ptr)
| ACaptureSessionOutput_create (window : ptr) (status : camera_status_t) (output : ptr)
| ACaptureSessionOutput_free (output : ptr)
| ACaptureSessionOutputContainer_add (container output : ptr) (status : camera_status_t)
| ACameraDevice_createCaptureSession (device container : ptr)
    (status : camera_status_t) (session : ptr)
| ACameraCaptureSession_stopRepeating (session : ptr)
| ACameraCaptureSession_close (session : ptr)
| ACameraCaptureSession_setRepeatingRequest (session request : ptr)
    (status : camera_status_t).

(** What the platform camera service answers to the calls of one
    [startPreview]: a status and, for the creating calls, the value left in
    the out-parameter. *)
Record CameraService : Type := {
  openCamera : camera_status_t * ptr;
  outputTarget_create : camera_status_t * ptr;
  createCaptureRequest : camera_status_t * ptr;
  addTarget : camera_status_t;
  outputContainer_create : camera_status_t * ptr;
  sessionOutput_create : camera_status_t * ptr;
  outputContainer_add : camera_status_t;
  createCaptureSession : camera_status_t * ptr;
  setRepeatingRequest : camera_status_t
}.

(** The data members of [class CameraStream] (the callback structs, which
    only carry [this] and function pointers, are left out). *)
Record t : Type := mk {
  streaming_ : bool;
  currentCameraId_ : string;
  cameraDevice_ : ptr;
  captureSession_ : ptr;
  outputContainer_ : ptr;
  sessionOutput_ : ptr;
  outputTarget_ : ptr;
  captureRequest_ : ptr;
  surface_ : ptr;
  statsCallback_ : CameraStatsCallback;
  frameCount_ : Z;
  droppedFrames_ : Z;
  prevFrameTimestampNs_ : Z;
  lastFrameRateHz_ : IEEE.float;
  lastLatencyMs_ : IEEE.float;
  lastCallbackTimeNs_ : Z
}.

(** A freshly constructed stream. *)
Definition init : t :=
  {| streaming_ := false; currentCameraId_ := EmptyString;
     cameraDevice_ := nullptr; captureSession_ := nullptr;
     outputContainer_ := nullptr; sessionOutput_ := nullptr;
     outputTarget_ := nullptr; captureRequest_ := nullptr; surface_ := nullptr;
     statsCallback_ := None; frameCount_ := 0; droppedFrames_ := 0;
     prevFrameTimestampNs_ := 0; lastFrameRateHz_ := IEEE.zero;
     lastLatencyMs_ := IEEE.zero; lastCallbackTimeNs_ := 0 |}.

Definition set_streaming (b : bool) (s : t) : t :=
  mk b (currentCameraId_ s) (cameraDevice_ s) (captureSession_ s)
     (outputContainer_ s) (sessionOutput_ s) (outputTarget_ s) (captureRequest_ s)
     (surface_ s) (statsCallback_ s) (frameCount_ s) (droppedFrames_ s)
     (prevFrameTimestampNs_ s) (lastFrameRateHz_ s) (lastLatencyMs_ s)
     (lastCallbackTimeNs_ s).

Definition set_cameraDevice (p : ptr) (s : t) : t :=
  mk (streaming_ s) (currentCameraId_ s) p (captureSession_ s)
     (outputContainer_ s) (sessionOutput_ s) (outputTarget_ s) (captureRequest_ s)
     (surface_ s) (statsCallback_ s) (frameCount_ s) (droppedFrames_ s)
     (prevFrameTimestampNs_ s) (lastFrameRateHz_ s) (lastLatencyMs_ s)
     (lastCallbackTimeNs_ s).

Definition set_captureSession (p : ptr) (s : t) : t :=
  mk (streaming_ s) (currentCameraId_ s) (cameraDevice_ s) p
     (outputContainer_ s) (sessionOutput_ s) (outputTarget_ s) (captureRequest_ s)
     (surface_ s) (statsCallback_ s) (frameCount_ s) (droppedFrames_ s)
     (prevFrameTimestampNs_ s) (lastFrameRateHz_ s) (lastLatencyMs_ s)
     (lastCallbackTimeNs_ s).

Definition set_outputContainer (p : ptr) (s : t) : t :=
  mk (streaming_ s) (currentCameraId_ s) (cameraDevice_ s) (captureSession_ s)
     p (sessionOutput_ s) (outputTarget_ s) (captureRequest_ s)
     (surface_ s) (statsCallback_ s) (frameCount_ s) (droppedFrames_ s)
     (prevFrameTimestampNs_ s) (lastFrameRateHz_ s) (lastLatencyMs_ s)
     (lastCallbackTimeNs_ s).

Definition set_sessionOutput (p : ptr) (s : t) : t :=
  mk (streaming_ s) (currentCameraId_ s) (cameraDevice_ s) (captureSession_ s)
     (outputContainer_ s) p (outputTarget_ s) (captureRequest_ s)
     (surface_ s) (statsCallback_ s) (frameCount_ s) (droppedFrames_ s)
     (prevFrameTimestampNs_ s) (lastFrameRateHz_ s) (lastLatencyMs_ s)
     (lastCallbackTimeNs_ s).

Definition set_outputTarget (p : ptr) (s : t) : t :=
  mk (streaming_ s) (currentCameraId_ s) (cameraDevice_ s) (captureSession_ s)
     (outputContainer_ s) (sessionOutput_ s) p (captureRequest_ s)
     (surface_ s) (statsCallback_ s) (frameCount_ s) (droppedFrames_ s)
     (prevFrameTimestampNs_ s) (lastFrameRateHz_ s) (lastLatencyMs_ s)
     (lastCallbackTimeNs_ s).

Definition set_captureRequest (p : ptr) (s : t) : t :=
  mk (streaming_ s) (currentCameraId_ s) (cameraDevice_ s) (captureSession_ s)
     (outputContainer_ s) (sessionOutput_ s) (outputTarget_ s) p
     (surface_ s) (statsCallback_ s) (frameCount_ s) (droppedFrames_ s)
     (prevFrameTimestampNs_ s) (lastFrameRateHz_ s) (lastLatencyMs_ s)
     (lastCallbackTimeNs_ s).

(** [surface_ = surface; statsCallback_ = ...; currentCameraId_ = cameraId]
    and the statistics reset that follows them in [startPreview]. *)
Definition begin_start (cameraId : string) (surface : ptr)
    (statsCallback : CameraStatsCallback) (s : t) : t :=
  mk (streaming_ s) cameraId (cameraDevice_ s) (captureSession_ s)
     (outputContainer_ s) (sessionOutput_ s) (outputTarget_ s) (captureRequest_ s)
     surface statsCallback 0 0 0 IEEE.zero IEEE.zero 0.

(** [if (h) { release(h); h = nullptr; }] *)
Definition released (p : ptr) (calls : list NativeCall) : list NativeCall :=
  if is_null p then [] else calls.

Definition cleared (p : ptr) : ptr := if is_null p then p else nullptr.

Definition cleanup (s : t) : t * list NativeCall :=
  (mk false EmptyString
      (cleared (cameraDevice_ s)) (cleared (captureSession_ s))
      (cleared (outputContainer_ s)) (cleared (sessionOutput_ s))
      (cleared (outputTarget_ s)) (cleared (captureRequest_ s))
      (cleared (surface_ s)) None
      (frameCount_ s) (droppedFrames_ s) (prevFrameTimestampNs_ s)
      (lastFrameRateHz_ s) (lastLatencyMs_ s) (lastCallbackTimeNs_ s),
   released (captureSession_ s)
     [ACameraCaptureSession_stopRepeating (captureSession_ s);
      ACameraCaptureSession_close (captureSession_ s)]
   ++ released (cameraDevice_ s) [ACameraDevice_close (cameraDevice_ s)]
   ++ released (captureRequest_ s) [ACaptureRequest_free (captureRequest_ s)]
   ++ released (outputTarget_ s) [ACameraOutputTarget_free (outputTarget_ s)]
   ++ released (sessionOutput_ s) [ACaptureSessionOutput_free (sessionOutput_ s)]
   ++ released (outputContainer_ s)
        [ACaptureSessionOutputContainer_free (outputContainer_ s)]
   ++ released (surface_ s) [ANativeWindow_release (surface_ s)]).

(** [cleanup(); return false;] after the calls [tr] made so far. *)
Definition abort (s : t) (tr : list NativeCall) : bool * t * list NativeCall :=
  (false, fst (cleanup s), tr ++ snd (cleanup s)).

Definition startPreview (manager : CameraManager.t) (cameraId : string)
    (surface : ptr) (statsCallback : CameraStatsCallback)
    (svc : CameraService) (s : t) : bool * t * list NativeCall :=
  if (streaming_ s && String.eqb (currentCameraId_ s) cameraId)%bool
  then (true, s, [])
  else
    let '(s, tr) := if streaming_ s then cleanup s else (s, []) in
    if negb (CameraManager.isValid manager) then (false, s, tr)
    else if is_null surface then (false, s, tr)
    else
      let s := begin_start cameraId surface statsCallback s in
      let tr := tr ++ [ANativeWindow_acquire surface] in
      (* open camera device *)
      let '(status, device) := openCamera svc in
      let s := set_cameraDevice device s in
      let tr := tr ++ [ACameraManager_openCamera
                         (CameraManager.getNativeManager manager)
                         cameraId status device] in
      if (failed status || is_null (cameraDevice_ s))%bool then abort s tr
      else
      (* create output target from surface *)
      let '(status, target) := outputTarget_create svc in
      let tr := tr ++ [ACameraOutputTarget_create (surface_ s) status target] in
      let s := set_outputTarget target s in
      if failed status then abort s tr
      else
      (* create capture request *)
      let '(status, request) := createCaptureRequest svc in
      let tr := tr ++ [ACameraDevice_createCaptureRequest
                         (cameraDevice_ s) status request] in
      let s := set_captureRequest request s in
      if failed status then abort s tr
      else
      (* add target to request *)
      let status := addTarget svc in
      let tr := tr ++ [ACaptureRequest_addTarget
                         (captureRequest_ s) (outputTarget_ s) status] in
      if failed status then abort s tr
      else
      (* create session output container *)
      let '(status, container) := outputContainer_create svc in
      let tr := tr ++ [ACaptureSessionOutputContainer_create status container] in
      let s := set_outputContainer container s in
      if failed status then abort s tr
      else
      (* create session output *)
      let '(status, output) := sessionOutput_create svc in
      let tr := tr ++ [ACaptureSessionOutput_create (surface_ s) status output] in
      let s := set_sessionOutput output s in
      if failed status then abort s tr
      else
      (* add output to container *)
      let status := outputContainer_add svc in
      let tr := tr ++ [ACaptureSessionOutputContainer_add
                         (outputContainer_ s) (sessionOutput_ s) status] in
      if failed status then abort s tr
      else
      (* create capture session *)
      let '(status, session) := createCaptureSession svc in
      let tr := tr ++ [ACameraDevice_createCaptureSession
                         (cameraDevice_ s) (outputContainer_ s) status session] in
      let s := set_captureSession session s in
      if (failed status || is_null (captureSession_ s))%bool then abort s tr
      else
      (* start repeating capture request *)
      let status := setRepeatingRequest svc in
      let tr := tr ++ [ACameraCaptureSession_setRepeatingRequest
                         (captureSession_ s) (captureRequest_ s) status] in
      if failed status then abort s tr
      else (true, set_streaming true s, tr).

Definition stopPreview (s : t) : t * list NativeCall :=
  if negb (streaming_ s) then (s, []) else cleanup s.

Definition isStreaming (s : t) : bool := streaming_ s.

Definition getCurrentCameraId (s : t) : string := currentCameraId_ s.

Definition getStats (s : t) : CameraStats :=
  {| frameRateHz := lastFrameRateHz_ s;
     latencyMs := lastLatencyMs_ s;
     frameCount := frameCount_ s;
     droppedFrames := droppedFrames_ s |}.

(** [updateStats(timestampNs)], the clock reading being [now]; the second
    component lists the snapshots handed to the statistics callback. *)
Definition updateStats (now timestampNs : Z) (s : t) : t * list CameraStats :=
  let frameCount' := Int.int64 (frameCount_ s + 1) in
  let rate' :=
    if ((prevFrameTimestampNs_ s >? 0)
        && (timestampNs >? prevFrameTimestampNs_ s))%bool
    then
      let intervalSec :=
        IEEE.double_div
          (IEEE.double_of_int (Int.int64 (timestampNs - prevFrameTimestampNs_ s)))
          (IEEE.double_of_int IEEE.kNsPerSecond) in
      IEEE.float_of_double (IEEE.double_div (IEEE.double_of_int 1) intervalSec)
    else lastFrameRateHz_ s in
  let latency' :=
    if ((timestampNs >? 0) && (now >? timestampNs))%bool
    then IEEE.float_of_double
           (IEEE.double_div (IEEE.double_of_int (Int.int64 (now - timestampNs)))
                            IEEE.kNsToMs)
    else lastLatencyMs_ s in
  let notify :=
    match statsCallback_ s with
    | Some _ => Int.int64 (now - lastCallbackTimeNs_ s) >=? IEEE.kNsPerSecond
    | None => false
    end in
  (mk (streaming_ s) (currentCameraId_ s) (cameraDevice_ s) (captureSession_ s)
      (outputContainer_ s) (sessionOutput_ s) (outputTarget_ s) (captureRequest_ s)
      (surface_ s) (statsCallback_ s) frameCount' (droppedFrames_ s)
      timestampNs rate' latency'
      (if notify then now else lastCallbackTimeNs_ s),
   if notify
   then [{| frameRateHz := rate'; latencyMs := latency';
            frameCount := frameCount'; droppedFrames := droppedFrames_ s |}]
   else []).

(** Notifications from the camera service. *)
Definition onDeviceDisconnected (s : t) : t := set_streaming false s.
Definition onDeviceError (error : Z) (s : t) : t := set_streaming false s.
Definition onCaptureStarted (now timestamp : Z) (s : t) : t * list CameraStats :=
  updateStats now timestamp s.

(** *** Resource accounting over a trace *)

Inductive Resource : Type :=
| Window (p : ptr) | Device (p : ptr) | OutputTarget (p : ptr)
| CaptureRequest (p : ptr) | OutputContainer (p : ptr)
| SessionOutput (p : ptr) | CaptureSession (p : ptr).

Definition held (r : Resource) : list Resource :=
  match r with
  | Window p | Device p | OutputTarget p | CaptureRequest p
  | OutputContainer p | SessionOutput p | CaptureSession p =>
      if is_null p then [] else [r]
  end.

(** Resources a call hands to the stream (a non-null handle left in the
    out-parameter, or a reference taken on the window). *)
Definition acquires (c : NativeCall) : list Resource :=
  match c with
  | ANativeWindow_acquire w => held (Window w)
  | ACameraManager_openCamera _ _ _ d => held (Device d)
  | ACameraOutputTarget_create _ _ t => held (OutputTarget t)
  | ACameraDevice_createCaptureRequest _ _ r => held (CaptureRequest r)
  | ACaptureSessionOutputContainer_create _ c => held (OutputContainer c)
  | ACaptureSessionOutput_create _ _ o => held (SessionOutput o)
  | ACameraDevice_createCaptureSession _ _ _ x => held (CaptureSession x)
  | _ => []
  end.

Definition releases (c : NativeCall) : list Resource :=
  match c with
  | ANativeWindow_release w => [Window w]
  | ACameraDevice_close d => [Device d]
  | ACameraOutputTarget_free t => [OutputTarget t]
  | ACaptureRequest_free r => [CaptureRequest r]
  | ACaptureSessionOutputContainer_free c => [OutputContainer c]
  | ACaptureSessionOutput_free o => [SessionOutput o]
  | ACameraCaptureSession_close x => [CaptureSession x]
  | _ => []
  end.

Definition acquired (tr : list NativeCall) : list Resource := flat_map acquires tr.
Definition freed (tr : list NativeCall) : list Resource := flat_map releases tr.

(** The handles a stream holds. *)
Definition holdings (s : t) : list Resource :=
  held (CaptureSession (captureSession_ s)) ++ held (Device (cameraDevice_ s))
  ++ held (CaptureRequest (captureRequest_ s))
  ++ held (OutputTarget (outputTarget_ s))
  ++ held (SessionOutput (sessionOutput_ s))
  ++ held (OutputContainer (outputContainer_ s))
  ++ held (Window (surface_ s)).

(** All seven handles are null and no camera id is recorded. *)
Definition idle (s : t) : Prop :=
  cameraDevice_ s = nullptr /\ captureSession_ s = nullptr /\
  captureRequest_ s = nullptr /\ outputTarget_ s = nullptr /\
  sessionOutput_ s = nullptr /\ outputContainer_ s = nullptr /\
  surface_ s = nullptr /\ currentCameraId_ s = EmptyString.

(** Some acquisition step of [startPreview] fails. *)
Definition step_fails (manager : CameraManager.t) (surface : ptr)
    (svc : CameraService) : Prop :=
  CameraManager.isValid manager = false \/ surface = nullptr \/
  fst (openCamera svc) <> ACAMERA_OK \/ snd (openCamera svc) = nullptr \/
  fst (outputTarget_create svc) <> ACAMERA_OK \/
  fst (createCaptureRequest svc) <> ACAMERA_OK \/
  addTarget svc <> ACAMERA_OK \/
  fst (outputContainer_create svc) <> ACAMERA_OK \/
  fst (sessionOutput_create svc) <> ACAMERA_OK \/
  outputContainer_add svc <> ACAMERA_OK \/
  fst (createCaptureSession svc) <> ACAMERA_OK \/
  snd (createCaptureSession svc) = nullptr \/
  setRepeatingRequest svc <> ACAMERA_OK.


(** [~CameraStream()]: the calls the destructor makes. *)
Definition destroy (s : t) : list NativeCall := snd (stopPreview s).

End CameraStream.

(** ** imu_data.h / imu_manager.h / imu_manager.cpp: the inertial engine *)

Module ImuManager.
Local Open Scope Z_scope.

Definition ptr : Type := N.
Definition nullptr : ptr := 0%N.
Definition is_null (p : ptr) : bool := N.eqb p 0.

Definition ASENSOR_TYPE_ACCELEROMETER : Z := 1.
Definition ASENSOR_TYPE_GYROSCOPE : Z := 4.

(** What the platform reports about one sensor of its catalog. *)
Record ASensor : Type := {
  ASensor_getType : Z;
  ASensor_getName : string;
  ASensor_getVendor : string;
  ASensor_getMinDelay : Z;
  ASensor_getFifoReservedEventCount : Z
}.

(** The platform sensor service as the worker thread sees it. *)
Record Platform : Type := {
  ALooper_prepare : ptr;
  ASensorManager_createEventQueue : ptr;
  ASensorManager_getSensorList : list ASensor;
  ASensorManager_getDefaultSensor : Z -> option ASensor
}.

Record ASensorEvent : Type := {
  event_type : Z;
  event_timestamp : Z;
  event_x : IEEE.float;
  event_y : IEEE.float;
  event_z : IEEE.float
}.

Record ImuSample : Type := {
  x : IEEE.float;
  y : IEEE.float;
  z : IEEE.float;
  timestampNs : Z;
  sensorType : Z
}.

Record ImuStats : Type := {
  accelFrequencyHz : IEEE.float;
  accelLatencyMs : IEEE.float;
  gyroFrequencyHz : IEEE.float;
  gyroLatencyMs : IEEE.float
}.

(** [ImuCallback]: an empty [std::function] is [None]. *)
Definition ImuCallback : Type := option nat.

(** The worker thread object: not started (or joined), started but not yet
    through its set-up, polling, or returned without having been joined. *)
Inductive Thread : Type := NotJoinable | Spawned | Polling | Returned.

(** The members guarded by [statsMutex_]. *)
Record StatsWindow : Type := {
  statsWindowStart_ : Z;
  accelCount_ : Z;
  gyroCount_ : Z;
  accelLatencyTotal_ : Z;
  gyroLatencyTotal_ : Z
}.

(** The sensor metadata atomics. *)
Record Metadata : Type := {
  accelMinDelay_ : Z;
  accelFifo_ : Z;
  gyroMinDelay_ : Z;
  gyroFifo_ : Z
}.

Record t : Type := mk {
  running_ : bool;
  sensorThread_ : Thread;
  callback_ : ImuCallback;
  targetAccelHandle_ : Z;
  targetGyroHandle_ : Z;
  needsSensorSwitch_ : bool;
  sensorManager_ : ptr;
  looper_ : ptr;
  eventQueue_ : ptr;
  currentAccel_ : option ASensor;
  currentGyro_ : option ASensor;
  latestAccel_ : ImuSample;
  latestGyro_ : ImuSample;
  stats_ : StatsWindow;
  metadata_ : Metadata
}.

Definition zeroSample : ImuSample :=
  {| x := IEEE.zero; y := IEEE.zero; z := IEEE.zero; timestampNs := 0; sensorType := 0 |}.

(** A freshly constructed manager, [sensorManager] being what
    [ASensorManager_getInstanceForPackage] returned. *)
Definition init (sensorManager : ptr) : t :=
  {| running_ := false; sensorThread_ := NotJoinable; callback_ := None;
     targetAccelHandle_ := -1; targetGyroHandle_ := -1; needsSensorSwitch_ := false;
     sensorManager_ := sensorManager; looper_ := nullptr; eventQueue_ := nullptr;
     currentAccel_ := None; currentGyro_ := None;
     latestAccel_ := zeroSample; latestGyro_ := zeroSample;
     stats_ := {| statsWindowStart_ := 0; accelCount_ := 0; gyroCount_ := 0;
                  accelLatencyTotal_ := 0; gyroLatencyTotal_ := 0 |};
     metadata_ := {| accelMinDelay_ := 0; accelFifo_ := 0;
                     gyroMinDelay_ := 0; gyroFifo_ := 0 |} |}.

Definition resetWindow (now : Z) : StatsWindow :=
  {| statsWindowStart_ := now; accelCount_ := 0; gyroCount_ := 0;
     accelLatencyTotal_ := 0; gyroLatencyTotal_ := 0 |}.

Definition with_stats (w : StatsWindow) (s : t) : t :=
  mk (running_ s) (sensorThread_ s) (callback_ s) (targetAccelHandle_ s)
     (targetGyroHandle_ s) (needsSensorSwitch_ s) (sensorManager_ s) (looper_ s)
     (eventQueue_ s) (currentAccel_ s) (currentGyro_ s) (latestAccel_ s)
     (latestGyro_ s) w (metadata_ s).

Definition isRunning (s : t) : bool := running_ s.

(** [start(callback)], the clock reading taken for the window being [now]. *)
Definition start (now : Z) (callback : ImuCallback) (s : t) : t :=
  if running_ s then s
  else if is_null (sensorManager_ s) then s
  else
    mk true Spawned callback (targetAccelHandle_ s) (targetGyroHandle_ s)
       (needsSensorSwitch_ s) (sensorManager_ s) (looper_ s) (eventQueue_ s)
       (currentAccel_ s) (currentGyro_ s) (latestAccel_ s) (latestGyro_ s)
       (resetWindow now) (metadata_ s).

(** Sensor selection of the worker: the catalog entry at [handle] when the
    handle indexes the catalog, the platform default of [type] otherwise. *)
Definition selectSensor (p : Platform) (handle type : Z) : option ASensor :=
  let sensorList := ASensorManager_getSensorList p in
  let sensorCount := Z.of_nat (length sensorList) in
  if ((handle >=? 0) && (handle <? sensorCount))%bool
  then nth_error sensorList (Z.to_nat handle)
  else ASensorManager_getDefaultSensor p type.

Definition minDelayOf (sensor : option ASensor) : Z :=
  match sensor with Some a => ASensor_getMinDelay a | None => 0 end.

Definition fifoOf (sensor : option ASensor) : Z :=
  match sensor with Some a => ASensor_getFifoReservedEventCount a | None => 0 end.

(** [sensorThreadLoop] up to its event loop. *)
Definition sensorThreadLoop_setup (p : Platform) (s : t) : t :=
  let looper := ALooper_prepare p in
  if is_null looper then
    mk (running_ s) Returned (callback_ s) (targetAccelHandle_ s)
       (targetGyroHandle_ s) (needsSensorSwitch_ s) (sensorManager_ s) looper
       (eventQueue_ s) (currentAccel_ s) (currentGyro_ s) (latestAccel_ s)
       (latestGyro_ s) (stats_ s) (metadata_ s)
  else
    let eventQueue := ASensorManager_createEventQueue p in
    if is_null eventQueue then
      mk (running_ s) Returned (callback_ s) (targetAccelHandle_ s)
         (targetGyroHandle_ s) (needsSensorSwitch_ s) (sensorManager_ s) looper
         eventQueue (currentAccel_ s) (currentGyro_ s) (latestAccel_ s)
         (latestGyro_ s) (stats_ s) (metadata_ s)
    else
      let accel := selectSensor p (targetAccelHandle_ s) ASENSOR_TYPE_ACCELEROMETER in
      let gyro := selectSensor p (targetGyroHandle_ s) ASENSOR_TYPE_GYROSCOPE in
      mk (running_ s) Polling (callback_ s) (targetAccelHandle_ s)
         (targetGyroHandle_ s) (needsSensorSwitch_ s) (sensorManager_ s) looper
         eventQueue accel gyro (latestAccel_ s) (latestGyro_ s) (stats_ s)
         {| accelMinDelay_ := minDelayOf accel; accelFifo_ := fifoOf accel;
            gyroMinDelay_ := minDelayOf gyro; gyroFifo_ := fifoOf gyro |}.

(** [sensorThreadLoop] after its event loop. *)
Definition sensorThreadLoop_teardown (s : t) : t :=
  mk (running_ s) Returned (callback_ s) (targetAccelHandle_ s)
     (targetGyroHandle_ s) (needsSensorSwitch_ s) (sensorManager_ s) nullptr
     nullptr None None (latestAccel_ s) (latestGyro_ s) (stats_ s) (metadata_ s).

Definition hasType (sensor : option ASensor) (type : Z) : bool :=
  match sensor with Some a => type =? ASensor_getType a | None => false end.

(** One iteration of the loop body of [drainEvents]; the second component is
    the sample handed to the callback, if any. *)
Definition drainEvent (now : Z) (event : ASensorEvent) (s : t) : t * list ImuSample :=
  let isAccel := hasType (currentAccel_ s) (event_type event) in
  let isGyro := hasType (currentGyro_ s) (event_type event) in
  let w := stats_ s in
  if isAccel then
    let sample := {| x := event_x event; y := event_y event; z := event_z event;
                     timestampNs := event_timestamp event;
                     sensorType := ASENSOR_TYPE_ACCELEROMETER |} in
    (mk (running_ s) (sensorThread_ s) (callback_ s) (targetAccelHandle_ s)
        (targetGyroHandle_ s) (needsSensorSwitch_ s) (sensorManager_ s) (looper_ s)
        (eventQueue_ s) (currentAccel_ s) (currentGyro_ s) sample (latestGyro_ s)
        {| statsWindowStart_ := statsWindowStart_ w;
           accelCount_ := Int.int32 (accelCount_ w + 1);
           gyroCount_ := gyroCount_ w;
           accelLatencyTotal_ :=
             Int.int64 (accelLatencyTotal_ w + Int.int64 (now - event_timestamp event));
           gyroLatencyTotal_ := gyroLatencyTotal_ w |}
        (metadata_ s),
     match callback_ s with Some _ => [sample] | None => [] end)
  else if isGyro then
    let sample := {| x := event_x event; y := event_y event; z := event_z event;
                     timestampNs := event_timestamp event;
                     sensorType := ASENSOR_TYPE_GYROSCOPE |} in
    (mk (running_ s) (sensorThread_ s) (callback_ s) (targetAccelHandle_ s)
        (targetGyroHandle_ s) (needsSensorSwitch_ s) (sensorManager_ s) (looper_ s)
        (eventQueue_ s) (currentAccel_ s) (currentGyro_ s) (latestAccel_ s) sample
        {| statsWindowStart_ := statsWindowStart_ w;
           accelCount_ := accelCount_ w;
           gyroCount_ := Int.int32 (gyroCount_ w + 1);
           accelLatencyTotal_ := accelLatencyTotal_ w;
           gyroLatencyTotal_ :=
             Int.int64 (gyroLatencyTotal_ w + Int.int64 (now - event_timestamp event)) |}
        (metadata_ s),
     match callback_ s with Some _ => [sample] | None => [] end)
  else (s, []).

(** [drainEvents()] over the events pending in the queue. *)
Fixpoint drainEvents (now : Z) (events : list ASensorEvent) (s : t)
  : t * list ImuSample :=
  match events with
  | [] => (s, [])
  | event :: rest =>
      let '(s1, out1) := drainEvent now event s in
      let '(s2, out2) := drainEvents now rest s1 in
      (s2, out1 ++ out2)
  end.

(** [stop()]: the flag is cleared and the worker joined, which lets it run
    to its end (through its set-up first if it had not got that far). *)
Definition stop (p : Platform) (s : t) : t :=
  if negb (running_ s) then s
  else
    let s := mk false (sensorThread_ s) (callback_ s) (targetAccelHandle_ s)
               (targetGyroHandle_ s) (needsSensorSwitch_ s) (sensorManager_ s)
               (looper_ s) (eventQueue_ s) (currentAccel_ s) (currentGyro_ s)
               (latestAccel_ s) (latestGyro_ s) (stats_ s) (metadata_ s) in
    let s :=
      match sensorThread_ s with
      | Spawned =>
          let s := sensorThreadLoop_setup p s in
          match sensorThread_ s with
          | Polling => sensorThreadLoop_teardown s
          | _ => s
          end
      | Polling => sensorThreadLoop_teardown s
      | _ => s
      end in
    mk (running_ s) NotJoinable (callback_ s) (targetAccelHandle_ s)
       (targetGyroHandle_ s) (needsSensorSwitch_ s) (sensorManager_ s)
       (looper_ s) (eventQueue_ s) (currentAccel_ s) (currentGyro_ s)
       (latestAccel_ s) (latestGyro_ s) (stats_ s) (metadata_ s).

(** [switchSensors(accelHandle, gyroHandle)]; [now] is the clock reading of
    the restart, when there is one. *)
Definition switchSensors (p : Platform) (now : Z) (accelHandle gyroHandle : Z)
    (s : t) : t :=
  let s := mk (running_ s) (sensorThread_ s) (callback_ s) accelHandle gyroHandle
              true (sensorManager_ s) (looper_ s) (eventQueue_ s) (currentAccel_ s)
              (currentGyro_ s) (latestAccel_ s) (latestGyro_ s) (stats_ s)
              (metadata_ s) in
  if running_ s then
    let cb := callback_ s in
    start now cb (stop p s)
  else s.

Definition getLatestAccel (s : t) : ImuSample := latestAccel_ s.
Definition getLatestGyro (s : t) : ImuSample := latestGyro_ s.

(** [getStats()], the clock reading being [now]. *)
Definition getStats (now : Z) (s : t) : ImuStats * t :=
  let w := stats_ s in
  let dtSeconds :=
    IEEE.double_div (IEEE.double_of_int (Int.int64 (now - statsWindowStart_ w)))
                    (IEEE.double_of_int IEEE.kNsPerSecond) in
  let rate (count : Z) : IEEE.float :=
    if IEEE.double_gt dtSeconds IEEE.zero
    then IEEE.float_of_double (IEEE.double_div (IEEE.double_of_int count) dtSeconds)
    else IEEE.zero in
  let latency (total count : Z) : IEEE.float :=
    if count >? 0
    then IEEE.float_of_double
           (IEEE.double_div
              (IEEE.double_div (IEEE.double_of_int total) (IEEE.double_of_int count))
              IEEE.kNsToMs)
    else IEEE.zero in
  ({| accelFrequencyHz := rate (accelCount_ w);
      accelLatencyMs := latency (accelLatencyTotal_ w) (accelCount_ w);
      gyroFrequencyHz := rate (gyroCount_ w);
      gyroLatencyMs := latency (gyroLatencyTotal_ w) (gyroCount_ w) |},
   with_stats (resetWindow now) s).

(** The range of the members of the statistics window. *)
Definition stats_in_range (w : StatsWindow) : Prop :=
  Int.in_int64 (statsWindowStart_ w) /\
  Int.in_int32 (accelCount_ w) /\ Int.in_int32 (gyroCount_ w) /\
  Int.in_int64 (accelLatencyTotal_ w) /\ Int.in_int64 (gyroLatencyTotal_ w).


(** *** Metadata and enumeration *)

Definition ASENSOR_TYPE_ACCELEROMETER_UNCALIBRATED : Z := 35.
Definition ASENSOR_TYPE_GYROSCOPE_UNCALIBRATED : Z := 16.
Definition kMicrosPerSecond : Z := 1000000.

Record ImuSensorMetadata : Type := {
  accelMinDelayUs : Z;
  accelFifoReserved : Z;
  gyroMinDelayUs : Z;
  gyroFifoReserved : Z;
  accelName : string;
  gyroName : string
}.

Definition nameOf (sensor : option ASensor) : string :=
  match sensor with Some a => ASensor_getName a | None => "None" end.

Definition getMetadata (s : t) : ImuSensorMetadata :=
  {| accelMinDelayUs := accelMinDelay_ (metadata_ s);
     accelFifoReserved := accelFifo_ (metadata_ s);
     gyroMinDelayUs := gyroMinDelay_ (metadata_ s);
     gyroFifoReserved := gyroFifo_ (metadata_ s);
     accelName := nameOf (currentAccel_ s);
     gyroName := nameOf (currentGyro_ s) |}.

(** [SensorInfo] of sensor_types.h. *)
Record SensorInfo : Type := {
  handle : Z;
  type : Z;
  name : string;
  vendor : string;
  minDelayUs : Z;
  maxFrequencyHz : IEEE.float;
  fifoReserved : Z
}.

Definition isImuType (sensorType : Z) : bool :=
  ((sensorType =? ASENSOR_TYPE_ACCELEROMETER)
   || (sensorType =? ASENSOR_TYPE_GYROSCOPE)
   || (sensorType =? ASENSOR_TYPE_ACCELEROMETER_UNCALIBRATED)
   || (sensorType =? ASENSOR_TYPE_GYROSCOPE_UNCALIBRATED))%bool.

(** The [SensorInfo] pushed for the catalog entry [sensor] at index [i]. *)
Definition sensorInfo (i : Z) (sensor : ASensor) : SensorInfo :=
  {| handle := i;
     type := ASensor_getType sensor;
     name := ASensor_getName sensor;
     vendor := ASensor_getVendor sensor;
     minDelayUs := ASensor_getMinDelay sensor;
     maxFrequencyHz :=
       if ASensor_getMinDelay sensor >? 0
       then IEEE.float_div (IEEE.float_of_int kMicrosPerSecond)
                           (IEEE.float_of_int (ASensor_getMinDelay sensor))
       else IEEE.zero;
     fifoReserved := ASensor_getFifoReservedEventCount sensor |}.

(** The loop of [enumerateSensors] from index [i] on. *)
Fixpoint enumerateFrom (i : Z) (sensors : list ASensor) : list SensorInfo :=
  match sensors with
  | [] => []
  | sensor :: rest =>
      (if isImuType (ASensor_getType sensor) then [sensorInfo i sensor] else [])
      ++ enumerateFrom (i + 1) rest
  end.

Definition enumerateSensors (p : Platform) (s : t) : list SensorInfo :=
  if is_null (sensorManager_ s) then []
  else enumerateFrom 0 (ASensorManager_getSensorList p).

End ImuManager.

(** ** ring_buffer.h *)

Module RingBuffer.
Section WithCapacity.
Context {T : Type} `{!Inhabited T}.
Variable Capacity : Z.
Local Open Scope Z_scope.

(** Arithmetic on [size_t]. *)
Definition size_t (x : Z) : Z := x mod 2 ^ 64.

Record t : Type := mk { buffer_ : list T; head_ : Z; tail_ : Z }.

Definition kMask : Z := Capacity - 1.

(** [RingBuffer()] *)
Definition init : t :=
  {| buffer_ := replicate (Z.to_nat Capacity) inhabitant; head_ := 0; tail_ := 0 |}.

(** [buffer_[i] = item] *)
Definition store (rb : t) (i : Z) (item : T) : list T :=
  <[Z.to_nat i := item]> (buffer_ rb).

Definition push (item : T) (rb : t) : bool * t :=
  let currentHead := head_ rb in
  let nextHead := Z.land (size_t (currentHead + 1)) kMask in
  if nextHead =? tail_ rb then (false, rb)
  else (true, {| buffer_ := store rb currentHead item;
                 head_ := nextHead;
                 tail_ := tail_ rb |}).

Definition pushOverwrite (item : T) (rb : t) : t :=
  let currentHead := head_ rb in
  let nextHead := Z.land (size_t (currentHead + 1)) kMask in
  let tail' :=
    if nextHead =? tail_ rb
    then Z.land (size_t (tail_ rb + 1)) kMask
    else tail_ rb in
  {| buffer_ := store rb currentHead item; head_ := nextHead; tail_ := tail' |}.

(** [pop(item)]: [Some x] is [true] with [item = x], [None] is [false]. *)
Definition pop (rb : t) : option T * t :=
  let currentTail := tail_ rb in
  if currentTail =? head_ rb then (None, rb)
  else (Some (buffer_ rb !!! Z.to_nat currentTail),
        {| buffer_ := buffer_ rb;
           head_ := head_ rb;
           tail_ := Z.land (size_t (currentTail + 1)) kMask |}).

Definition empty (rb : t) : bool := head_ rb =? tail_ rb.

Definition size (rb : t) : Z := Z.land (size_t (head_ rb - tail_ rb)) kMask.

Definition clear (rb : t) : t :=
  {| buffer_ := buffer_ rb; head_ := head_ rb; tail_ := head_ rb |}.

(** The logical contents, oldest first: the slots from [tail_] up to, not
    including, [head_]. *)
Definition slot (rb : t) (i : nat) : T :=
  buffer_ rb !!! Z.to_nat ((tail_ rb + Z.of_nat i) mod Capacity).

Definition contents (rb : t) : list T :=
  map (slot rb) (seq 0 (Z.to_nat (size rb))).

(** The representation invariant of the class. *)
Definition wf (rb : t) : Prop :=
  Z.of_nat (length (buffer_ rb)) = Capacity /\
  0 <= head_ rb < Capacity /\ 0 <= tail_ rb < Capacity.

End WithCapacity.
Arguments t : clear implicits.
End RingBuffer.

(** ** callback_handler.h *)

Module CallbackHandler.

Definition ptr : Type := N.
Definition nullptr : ptr := 0%N.
Definition is_null (p : ptr) : bool := N.eqb p 0.

(** Calls on the [JNIEnv]. *)
Inductive JniCall : Type :=
| NewGlobalRef (obj ref : ptr)
| DeleteGlobalRef (ref : ptr).

Record t : Type := { callback_ : ptr }.

Definition init : t := {| callback_ := nullptr |}.

Definition reset_internal (env : ptr) (h : t) : t * list JniCall :=
  if (negb (is_null (callback_ h)) && negb (is_null env))%bool
  then ({| callback_ := nullptr |}, [DeleteGlobalRef (callback_ h)])
  else (h, []).

(** [setCallback(env, callback)], [ref] being what [NewGlobalRef] returns.
    With a callback and no [env] the call dereferences a null pointer: [None]. *)
Definition setCallback (env callback ref : ptr) (h : t) : option (t * list JniCall) :=
  let '(h1, tr) := reset_internal env h in
  if is_null callback then Some (h1, tr)
  else if is_null env then None
  else Some ({| callback_ := ref |}, tr ++ [NewGlobalRef callback ref]).

Definition hasCallback (h : t) : bool := negb (is_null (callback_ h)).
Definition getCallback (h : t) : ptr := callback_ h.

(** [invokeCallback(env, func)]: the arguments [func] is called with. *)
Definition invokeCallback (env : ptr) (h : t) : list (ptr * ptr) :=
  if is_null (callback_ h) then [] else [(env, callback_ h)].

Definition reset (env : ptr) (h : t) : t * list JniCall := reset_internal env h.

(** [~CallbackHandler()] is [reset()], whose [env] defaults to [nullptr]. *)
Definition destroy (h : t) : list JniCall := snd (reset nullptr h).

End CallbackHandler.

(** ** jni_bridge.cpp: the camera streams behind the JNI entry points *)

Module JniBridge.
Local Open Scope Z_scope.

(** [g_cameraStreams] *)
Abbreviation Streams := (gmap string CameraStream.t).

(** Calls made by the entry points themselves, and calls made by a stream. *)
Inductive BridgeCall : Type :=
| ANativeWindow_fromSurface (surface window : CameraStream.ptr)
| Native (call : CameraStream.NativeCall).

Definition getOrCreateCameraStream (cameraId : string) (streams : Streams)
  : CameraStream.t * Streams :=
  match streams !! cameraId with
  | None => (CameraStream.init, <[cameraId := CameraStream.init]> streams)
  | Some stream => (stream, streams)
  end.

(** [stopCameraStream]: [stopPreview], then [erase], which destroys the stream. *)
Definition stopCameraStream (cameraId : string) (streams : Streams)
  : Streams * list BridgeCall :=
  match streams !! cameraId with
  | Some stream =>
      let '(stopped, tr) := CameraStream.stopPreview stream in
      (delete cameraId streams, map Native (tr ++ CameraStream.destroy stopped))
  | None => (streams, [])
  end.

(** [stopAllCameraStreams]; the streams are visited in the order of
    [map_to_list] ([std::unordered_map] leaves the order unspecified). *)
Definition stopAllCameraStreams (streams : Streams) : Streams * list BridgeCall :=
  let stopped :=
    map (fun entry => CameraStream.stopPreview (snd entry)) (map_to_list streams) in
  (∅, map Native (flat_map snd stopped
                  ++ flat_map (fun r => CameraStream.destroy (fst r)) stopped)).

(** [nativeStartPreview(cameraId, surface)]: [window] is what
    [ANativeWindow_fromSurface] returns, [manager] the camera manager
    singleton and [svc] the answers of the camera service. *)
Definition nativeStartPreview (manager : CameraManager.t) (svc : CameraStream.CameraService)
    (cameraId : string) (surface window : CameraStream.ptr) (streams : Streams)
  : bool * Streams * list BridgeCall :=
  if CameraStream.is_null surface then (false, streams, [])
  else if CameraStream.is_null window
  then (false, streams, [ANativeWindow_fromSurface surface window])
  else
    let '(stream, streams) := getOrCreateCameraStream cameraId streams in
    let '(success, stream, tr) :=
      CameraStream.startPreview manager cameraId window None svc stream in
    (success, <[cameraId := stream]> streams,
     [ANativeWindow_fromSurface surface window] ++ map Native tr
     ++ [Native (CameraStream.ANativeWindow_release window)]).

Definition nativeStopPreview (streams : Streams) : Streams * list BridgeCall :=
  stopAllCameraStreams streams.

Definition nativeStopCameraPreview (cameraId : string) (streams : Streams)
  : Streams * list BridgeCall :=
  stopCameraStream cameraId streams.

(** [nativeGetCameraStatsById]: the four floats of the returned array. *)
Definition nativeGetCameraStatsById (cameraId : string) (streams : Streams)
  : list IEEE.float :=
  let stats :=
    match streams !! cameraId with
    | Some stream => CameraStream.getStats stream
    | None => {| frameRateHz := IEEE.zero; latencyMs := IEEE.zero;
                 frameCount := 0; droppedFrames := 0 |}
    end in
  [frameRateHz stats; latencyMs stats;
   IEEE.float_of_int (frameCount stats); IEEE.float_of_int (droppedFrames stats)].

Definition nativeIsStreaming (streams : Streams) : bool :=
  existsb (fun entry => CameraStream.isStreaming (snd entry)) (map_to_list streams).

Definition nativeIsCameraStreaming (cameraId : string) (streams : Streams) : bool :=
  match streams !! cameraId with
  | Some stream => CameraStream.isStreaming stream
  | None => false
  end.

Definition nativeGetActiveStreamCount (streams : Streams) : Z :=
  fold_left (fun count entry =>
               if CameraStream.isStreaming (snd entry)
               then Int.int32 (count + 1) else count)
            (map_to_list streams) 0.

(** Notifications of the camera service reach the stream they were
    registered with. *)
Definition deliver (cameraId : string) (f : CameraStream.t -> CameraStream.t)
    (streams : Streams) : Streams :=
  match streams !! cameraId with
  | Some stream => <[cameraId := f stream]> streams
  | None => streams
  end.

(** Resources over a bridge trace: [ANativeWindow_fromSurface] hands out a
    reference on the window. *)
Definition acquires (c : BridgeCall) : list CameraStream.Resource :=
  match c with
  | ANativeWindow_fromSurface _ window => CameraStream.held (CameraStream.Window window)
  | Native call => CameraStream.acquires call
  end.

Definition releases (c : BridgeCall) : list CameraStream.Resource :=
  match c with
  | ANativeWindow_fromSurface _ _ => []
  | Native call => CameraStream.releases call
  end.

Definition acquired (tr : list BridgeCall) : list CameraStream.Resource :=
  flat_map acquires tr.
Definition freed (tr : list BridgeCall) : list CameraStream.Resource :=
  flat_map releases tr.

(** *** The camera list handed to Kotlin *)

(** [static_cast<int>] of the enumerations of camera_data.h. *)
Definition facingValue (f : CameraFacing.t) : Z :=
  match f with
  | CameraFacing.Unknown => -1
  | CameraFacing.Front => 0
  | CameraFacing.Back => 1
  | CameraFacing.External => 2
  end.

Definition clusterValue (c : CameraClusterType.t) : Z :=
  match c with
  | CameraClusterType.Unknown => 0
  | CameraClusterType.Passthrough => 1
  | CameraClusterType.Avatar => 2
  | CameraClusterType.EyeTracking => 3
  | CameraClusterType.Depth => 4
  end.

(** [ss << n] for an [int]: its decimal digits, after a minus sign when it
    is negative. *)
Definition put_int (n : Z) : string := NilZero.string_of_int (Z.to_int n).

Definition bar : string := String "|" EmptyString.
Definition newline : string := String "010" EmptyString.

(** What [nativeEnumerateCameras] writes for one camera, up to the line end. *)
Definition cameraLine (cam : CameraInfo) : string :=
  (id cam ++ bar ++ put_int (facingValue (facing cam)) ++ bar
   ++ put_int (clusterValue (clusterType cam)) ++ bar
   ++ put_int (width cam) ++ bar ++ put_int (height cam) ++ bar
   ++ put_int (maxFps cam) ++ bar
   ++ put_int (if isPhysicalCamera cam then 1 else 0) ++ bar
   ++ physicalCameraIds cam)%string.

(** [c_str()] read as a C string: the characters before the first NUL. *)
Fixpoint c_str (s : string) : string :=
  match s with
  | EmptyString => EmptyString
  | String c rest => if Ascii.eqb c "000" then EmptyString else String c (c_str rest)
  end.

(** [env->NewStringUTF(bytes)]: the Java string that the bytes encode in
    modified UTF-8.  A Java string is represented here by a [string] whose
    characters stand for the code units U+0000 to U+00FF.  A byte below 128
    is the character itself, the pair C0 80 is U+0000, and a pair from
    C2 80 to C3 BF is a character from U+0080 to U+00FF.  [None] is a text
    that this representation does not cover: one that encodes a character
    above U+00FF, or that is not modified UTF-8, for which JNI defines no
    result. *)
Fixpoint NewStringUTF (bytes : string) : option string :=
  match bytes with
  | EmptyString => Some EmptyString
  | String b rest =>
      let one := nat_of_ascii b in
      if Nat.ltb one 128 then option_map (String b) (NewStringUTF rest)
      else
        match rest with
        | String b' rest' =>
            let two := nat_of_ascii b' in
            if ((Nat.eqb one 192 && Nat.eqb two 128)
                || ((Nat.leb 194 one && Nat.leb one 195)
                    && (Nat.leb 128 two && Nat.leb two 191)))%bool
            then option_map (String (ascii_of_nat ((one - 192) * 64 + (two - 128))))
                            (NewStringUTF rest')
            else None
        | EmptyString => None
        end
  end.

(** [nativeEnumerateCameras], [cameras] being what
    [manager->enumerateCameras()] returned: the Java string handed to
    Kotlin. *)
Definition nativeEnumerateCameras (cameras : list CameraInfo) : option string :=
  let ss :=
    fold_left (fun ss cam => (ss ++ cameraLine cam ++ newline)%string)
              cameras EmptyString in
  NewStringUTF (c_str ss).

End JniBridge.

(** ** CameraBridge.kt: reading the camera list

    Kotlin strings are represented as [NewStringUTF] produces them: by a
    [string] whose characters stand for the code units U+0000 to U+00FF. *)

Module CameraBridge.
Local Open Scope Z_scope.

(** [CameraClusterType.fromValue] and [CameraFacing.fromValue]:
    [entries.find { it.value == value } ?: UNKNOWN]. *)
Definition clusterFromValue (value : Z) : CameraClusterType.t :=
  if value =? 0 then CameraClusterType.Unknown
  else if value =? 1 then CameraClusterType.Passthrough
  else if value =? 2 then CameraClusterType.Avatar
  else if value =? 3 then CameraClusterType.EyeTracking
  else if value =? 4 then CameraClusterType.Depth
  else CameraClusterType.Unknown.

Definition facingFromValue (value : Z) : CameraFacing.t :=
  if value =? -1 then CameraFacing.Unknown
  else if value =? 0 then CameraFacing.Front
  else if value =? 1 then CameraFacing.Back
  else if value =? 2 then CameraFacing.External
  else CameraFacing.Unknown.

(** [Char.isWhitespace] on U+0000 to U+00FF: tab to carriage return, the
    four separators 28 to 31, the space, and the no-break space U+00A0. *)
Definition isWhitespace (c : ascii) : bool :=
  let n := nat_of_ascii c in
  ((Nat.leb 9 n && Nat.leb n 13) || (Nat.leb 28 n && Nat.leb n 32)
   || Nat.eqb n 160)%bool.

Fixpoint trimStart (s : string) : string :=
  match s with
  | EmptyString => EmptyString
  | String c rest => if isWhitespace c then trimStart rest else s
  end.

Fixpoint trimEnd (s : string) : string :=
  match s with
  | EmptyString => EmptyString
  | String c rest =>
      match trimEnd rest with
      | EmptyString => if isWhitespace c then EmptyString else String c EmptyString
      | rest' => String c rest'
      end
  end.

(** [String.trim()] *)
Definition trim (s : string) : string := trimEnd (trimStart s).

(** [String.split(delimiter)] for a delimiter of one character: the pieces
    between the delimiters, empty ones included. *)
Fixpoint split (delimiter : ascii) (s : string) : list string :=
  match s with
  | EmptyString => [EmptyString]
  | String c rest =>
      if Ascii.eqb c delimiter then EmptyString :: split delimiter rest
      else match split delimiter rest with
           | part :: parts => String c part :: parts
           | [] => [String c EmptyString]
           end
  end.

(** [String.toInt()]: an optional sign and at least one decimal digit, the
    value fitting 32 bits; [None] is a [NumberFormatException].  The
    decimal digits among U+0000 to U+00FF are the characters 0 to 9. *)
Definition toInt (s : string) : option Z :=
  let '(negative, digits) :=
    match s with
    | String "-" rest => (true, rest)
    | String "+" rest => (false, rest)
    | _ => (false, s)
    end in
  match digits with
  | EmptyString => None
  | _ =>
      match NilEmpty.uint_of_string digits with
      | Some d =>
          let value := if negative then - Z.of_uint d else Z.of_uint d in
          if ((- 2 ^ 31 <=? value) && (value <? 2 ^ 31))%bool then Some value else None
      | None => None
      end
  end.

(** [parseCameraInfo(line)]; an exception of [toInt] is caught and gives
    [null], as does a line of fewer than seven fields. *)
Definition parseCameraInfo (line : string) : option CameraInfo :=
  let parts := split "|" line in
  if Nat.ltb (length parts) 7 then None
  else
    match toInt (nth 1 parts EmptyString), toInt (nth 2 parts EmptyString),
          toInt (nth 3 parts EmptyString), toInt (nth 4 parts EmptyString),
          toInt (nth 5 parts EmptyString) with
    | Some facing', Some cluster', Some width', Some height', Some maxFps' =>
        Some {| id := nth 0 parts EmptyString;
                facing := facingFromValue facing';
                clusterType := clusterFromValue cluster';
                width := width'; height := height'; maxFps := maxFps';
                isPhysicalCamera := String.eqb (nth 6 parts EmptyString) "1";
                physicalCameraIds := nth 7 parts EmptyString |}
    | _, _, _, _, _ => None
    end.

(** [enumerateCameras()], [rawData] being what [nativeEnumerateCameras]
    returned. *)
Definition enumerateCameras (rawData : string) : list CameraInfo :=
  match rawData with
  | EmptyString => []
  | _ => omap parseCameraInfo (split "010" (trim rawData))
  end.

End CameraBridge.

(** ** Notions used in the statements, and sample inputs *)

Section RingBufferSamples.
Context {T : Type} `{!Inhabited T}.
Variable Capacity : Z.

(** Pushing the elements of a list in order, and popping [n] times. *)
Fixpoint pushAll (items : list T) (rb : RingBuffer.t T) : RingBuffer.t T :=
  match items with
  | [] => rb
  | item :: rest => pushAll rest (snd (RingBuffer.push Capacity item rb))
  end.

Fixpoint popAll (n : nat) (rb : RingBuffer.t T) : list T :=
  match n with
  | O => []
  | S n' =>
      match RingBuffer.pop Capacity rb with
      | (Some item, rb') => item :: popAll n' rb'
      | (None, _) => []
      end
  end.

End RingBufferSamples.

Section RingBufferSample4.

(** A buffer of four slots after three pushes: it is full. *)
Definition ring4_full : RingBuffer.t Z :=
  snd (RingBuffer.push 4 3%Z (snd (RingBuffer.push 4 2%Z
    (snd (RingBuffer.push 4 1%Z (RingBuffer.init 4)))))).

End RingBufferSample4.

Section ClassificationSamples.
Local Open Scope Z_scope.
Local Open Scope string_scope.

Definition external_0x0 : CameraInfo :=
  {| id := "cam0"; facing := CameraFacing.External;
     clusterType := CameraClusterType.Unknown;
     width := 0; height := 0; maxFps := 0;
     isPhysicalCamera := true; physicalCameraIds := EmptyString |}.



End ClassificationSamples.

Section CameraStreamSamples.
Import CameraStream.
Local Open Scope Z_scope.

(** The outcome of a failed start: [false], not streaming, and everything
    acquired along the trace released along it. *)
Definition failure_outcome (r : bool * t * list NativeCall) : Prop :=
  fst (fst r) = false /\
  streaming_ (snd (fst r)) = false /\
  (forall x, In x (acquired (snd r)) -> In x (freed (snd r))).

Definition manager1 : CameraManager.t := {| CameraManager.cameraManager_ := 1 |}.

Definition service_ok : CameraService :=
  {| openCamera := (0, 11%N);
     outputTarget_create := (0, 12%N);
     createCaptureRequest := (0, 13%N);
     addTarget := 0;
     outputContainer_create := (0, 14%N);
     sessionOutput_create := (0, 15%N);
     outputContainer_add := 0;
     createCaptureSession := (0, 16%N);
     setRepeatingRequest := 0 |}.

(** The same service, except that the repeating request is refused. *)
Definition service_refusing_request : CameraService :=
  {| openCamera := (0, 11%N);
     outputTarget_create := (0, 12%N);
     createCaptureRequest := (0, 13%N);
     addTarget := 0;
     outputContainer_create := (0, 14%N);
     sessionOutput_create := (0, 15%N);
     outputContainer_add := 0;
     createCaptureSession := (0, 16%N);
     setRepeatingRequest := -1 |}.

(** Camera "0" streaming to window 7. *)
Definition live : t :=
  snd (fst (startPreview manager1 "0" 7%N None service_ok init)).

(** The same stream after the device reported a disconnect. *)
Definition disconnected : t := onDeviceDisconnected live.

End CameraStreamSamples.

Section IEEENotions.
Local Open Scope Z_scope.

(** The sign of a result: [s], unless the result is a NaN. *)
Definition signed (s : bool) (x : spec_float) : Prop :=
  match x with
  | S754_zero s' | S754_infinity s' | S754_finite s' _ _ => s' = s
  | S754_nan => True
  end.

(** A result that is a finite number of sign [s] and exponent at least
    [e], or the infinity of sign [s]. *)
Definition above (s : bool) (e : Z) (x : spec_float) : Prop :=
  match x with
  | S754_finite s' _ e' => s' = s /\ e <= e'
  | S754_infinity s' => s' = s
  | _ => False
  end.

End IEEENotions.

Section ImuManagerSamples.
Import ImuManager.
Local Open Scope Z_scope.

(** The events the drain loop counts for each channel: the accelerometer
    test comes first, so an event matching both counts as accelerometer. *)
Definition accelEvents (s : t) (events : list ASensorEvent) : list ASensorEvent :=
  List.filter (fun ev => hasType (currentAccel_ s) (event_type ev)) events.

Definition gyroEvents (s : t) (events : list ASensorEvent) : list ASensorEvent :=
  List.filter (fun ev => (negb (hasType (currentAccel_ s) (event_type ev))
                          && hasType (currentGyro_ s) (event_type ev))%bool) events.

(** Sum of [now - timestamp] over events, each difference in [int64]. *)
Definition latencySum (now : Z) (events : list ASensorEvent) : Z :=
  fold_right (fun ev acc => Int.int64 (now - event_timestamp ev) + acc) 0 events.

Definition accel0 : ASensor :=
  {| ASensor_getType := 1; ASensor_getName := "accel"; ASensor_getVendor := "v";
     ASensor_getMinDelay := 2000; ASensor_getFifoReservedEventCount := 100 |}.

Definition gyro0 : ASensor :=
  {| ASensor_getType := 4; ASensor_getName := "gyro"; ASensor_getVendor := "v";
     ASensor_getMinDelay := 2500; ASensor_getFifoReservedEventCount := 50 |}.

Definition accel1 : ASensor :=
  {| ASensor_getType := 35; ASensor_getName := "accel-uncal"; ASensor_getVendor := "v";
     ASensor_getMinDelay := 5000; ASensor_getFifoReservedEventCount := 0 |}.

Definition platform0 : Platform :=
  {| ALooper_prepare := 1%N;
     ASensorManager_createEventQueue := 2%N;
     ASensorManager_getSensorList := [accel0; gyro0; accel1];
     ASensorManager_getDefaultSensor :=
       fun type => if type =? 1 then Some accel0
                   else if type =? 4 then Some gyro0 else None |}.

(** An engine started at time 0 whose worker has registered its sensors. *)
Definition engine0 : t :=
  sensorThreadLoop_setup platform0 (start 0 (Some 0%nat) (init 1%N)).

Definition accelEventAt (timestamp : Z) : ASensorEvent :=
  {| event_type := 1; event_timestamp := timestamp;
     event_x := IEEE.zero; event_y := IEEE.zero; event_z := IEEE.zero |}.

(** Five accelerometer events drained at time 1000. *)
Definition sampled : t :=
  fst (drainEvents 1000
         [accelEventAt 100; accelEventAt 200; accelEventAt 300;
          accelEventAt 400; accelEventAt 500] engine0).

Definition zeroStats : ImuStats :=
  {| accelFrequencyHz := IEEE.zero; accelLatencyMs := IEEE.zero;
     gyroFrequencyHz := IEEE.zero; gyroLatencyMs := IEEE.zero |}.

End ImuManagerSamples.

Section RingBufferWindows.
Context {T : Type} `{!Inhabited T}.
Variable Capacity : Z.

(** Writing the elements of a list in order with [pushOverwrite]. *)
Fixpoint pushOverwriteAll (items : list T) (rb : RingBuffer.t T) : RingBuffer.t T :=
  match items with
  | [] => rb
  | item :: rest => pushOverwriteAll rest (RingBuffer.pushOverwrite Capacity item rb)
  end.

(** The last [n] elements of a list. *)
Definition lastn (n : nat) (l : list T) : list T := drop (length l - n) l.

(** The operations of the buffer, what they answer, and a run of them. *)
Inductive RingOp : Type :=
| Push (item : T)
| PushOverwrite (item : T)
| Pop
| Clear.

Inductive RingAnswer : Type :=
| Pushed (ok : bool)
| Popped (item : option T)
| Done.

Definition ringStep (op : RingOp) (rb : RingBuffer.t T) : RingAnswer * RingBuffer.t T :=
  match op with
  | Push item => (Pushed (fst (RingBuffer.push Capacity item rb)),
                  snd (RingBuffer.push Capacity item rb))
  | PushOverwrite item => (Done, RingBuffer.pushOverwrite Capacity item rb)
  | Pop => (Popped (fst (RingBuffer.pop Capacity rb)), snd (RingBuffer.pop Capacity rb))
  | Clear => (Done, RingBuffer.clear rb)
  end.

Fixpoint ringRun (ops : list RingOp) (rb : RingBuffer.t T)
  : list RingAnswer * RingBuffer.t T :=
  match ops with
  | [] => ([], rb)
  | op :: rest =>
      let '(answer, rb1) := ringStep op rb in
      let '(answers, rb2) := ringRun rest rb1 in
      (answer :: answers, rb2)
  end.

(** The reference: a first-in first-out queue of at most [Capacity - 1]
    elements, oldest first. *)
Definition queueStep (op : RingOp) (q : list T) : RingAnswer * list T :=
  match op with
  | Push item =>
      if (Z.of_nat (length q) <? Capacity - 1)%Z
      then (Pushed true, q ++ [item]) else (Pushed false, q)
  | PushOverwrite item => (Done, lastn (Z.to_nat (Capacity - 1)) (q ++ [item]))
  | Pop =>
      match q with
      | [] => (Popped None, [])
      | oldest :: rest => (Popped (Some oldest), rest)
      end
  | Clear => (Done, [])
  end.

Fixpoint queueRun (ops : list RingOp) (q : list T) : list RingAnswer * list T :=
  match ops with
  | [] => ([], q)
  | op :: rest =>
      let '(answer, q1) := queueStep op q in
      let '(answers, q2) := queueRun rest q1 in
      (answer :: answers, q2)
  end.

End RingBufferWindows.

Section CameraStreamRuns.
Import CameraStream.
Local Open Scope Z_scope.

(** What can happen to a stream: the public operations and the
    notifications of the camera service. *)
Inductive Event : Type :=
| StartPreview (manager : CameraManager.t) (cameraId : string) (surface : ptr)
    (statsCallback : CameraStatsCallback) (svc : CameraService)
| StopPreview
| DeviceDisconnected
| DeviceError (error : Z)
| CaptureStarted (now timestamp : Z).

Definition handle (e : Event) (s : t) : t :=
  match e with
  | StartPreview manager cameraId surface statsCallback svc =>
      snd (fst (startPreview manager cameraId surface statsCallback svc s))
  | StopPreview => fst (stopPreview s)
  | DeviceDisconnected => onDeviceDisconnected s
  | DeviceError error => onDeviceError error s
  | CaptureStarted now timestamp => fst (onCaptureStarted now timestamp s)
  end.

Definition run (events : list Event) (s : t) : t :=
  fold_left (fun s e => handle e s) events s.

(** The clock readings at which a run of capture-start notifications, given
    as [(now, timestamp)] pairs, invoked the statistics callback. *)
Fixpoint callbackTimes (frames : list (Z * Z)) (s : t) : list Z :=
  match frames with
  | [] => []
  | (now, timestamp) :: rest =>
      match snd (onCaptureStarted now timestamp s) with
      | [] => []
      | _ :: _ => [now]
      end ++ callbackTimes rest (fst (onCaptureStarted now timestamp s))
  end.

(** Successive instants, each at least [gap] after the one before. *)
Fixpoint spaced (gap last : Z) (times : list Z) : Prop :=
  match times with
  | [] => True
  | t :: rest => gap <= t - last /\ spaced gap t rest
  end.

Definition zeroCameraStats : CameraStats :=
  {| frameRateHz := IEEE.zero; latencyMs := IEEE.zero; frameCount := 0;
     droppedFrames := 0 |}.

(** A streaming stream has its device, session and window; the dropped-frame
    counter is zero and the frame counter a 64-bit value. *)
Definition consistent (s : t) : Prop :=
  (streaming_ s = true ->
   cameraDevice_ s <> nullptr /\ captureSession_ s <> nullptr /\
   surface_ s <> nullptr) /\
  droppedFrames_ s = 0 /\ Int.in_int64 (frameCount_ s).

(** Camera "0" streaming to window 7 with a statistics callback. *)
Definition watched : t :=
  snd (fst (startPreview manager1 "0" 7%N (Some 0%nat) service_ok init)).

End CameraStreamRuns.

Section ImuManagerRuns.
Import ImuManager.
Local Open Scope Z_scope.

(** What can happen to the engine: the public operations, and the progress
    of the worker thread (its set-up once spawned, a drain of pending
    events while it polls). *)
Inductive Action : Type :=
| Start (now : Z) (callback : ImuCallback)
| Stop
| SwitchSensors (now accelHandle gyroHandle : Z)
| GetStats (now : Z)
| WorkerSetup
| WorkerDrain (now : Z) (events : list ASensorEvent).

Definition act (p : Platform) (a : Action) (s : t) : t :=
  match a with
  | Start now callback => start now callback s
  | Stop => stop p s
  | SwitchSensors now accelHandle gyroHandle =>
      switchSensors p now accelHandle gyroHandle s
  | GetStats now => snd (getStats now s)
  | WorkerSetup =>
      match sensorThread_ s with
      | Spawned => sensorThreadLoop_setup p s
      | _ => s
      end
  | WorkerDrain now events =>
      match sensorThread_ s with
      | Polling => fst (drainEvents now events s)
      | _ => s
      end
  end.

Definition runActions (p : Platform) (actions : list Action) (s : t) : t :=
  fold_left (fun s a => act p a s) actions s.

(** The invariant of the engine: it runs only with a sensor manager, has no
    worker thread when it does not run, polls only with a looper and an
    event queue, and has sensors selected only while polling. *)
Definition settled (s : t) : Prop :=
  (running_ s = true -> sensorManager_ s <> nullptr) /\
  (running_ s = false -> sensorThread_ s = NotJoinable) /\
  (sensorThread_ s = Polling -> looper_ s <> nullptr /\ eventQueue_ s <> nullptr) /\
  (sensorThread_ s <> Polling -> currentAccel_ s = None /\ currentGyro_ s = None).

(** The samples made of an event on either channel. *)
Definition accelSample (event : ASensorEvent) : ImuSample :=
  {| x := event_x event; y := event_y event; z := event_z event;
     timestampNs := event_timestamp event; sensorType := ASENSOR_TYPE_ACCELEROMETER |}.

Definition gyroSample (event : ASensorEvent) : ImuSample :=
  {| x := event_x event; y := event_y event; z := event_z event;
     timestampNs := event_timestamp event; sensorType := ASENSOR_TYPE_GYROSCOPE |}.

End ImuManagerRuns.

Section CameraEnumerationNotions.
Local Open Scope Z_scope.

(** The pixel count that the resolution selection of [queryCharacteristics]
    compares. *)
Definition area (width height : Z) : Z := Int.int32 (width * height).

(** A camera with two usable output sizes, one with a JPEG output only, and
    a catalog in which a third camera has no characteristics. *)
Definition metadata0 : CameraManager.ACameraMetadata :=
  {| CameraManager.lensFacing := Some 1;
     CameraManager.streamConfigurations :=
       Some [(0x23, 640, 480, 0); (0x21, 4000, 3000, 0); (0x22, 1920, 1080, 0);
             (0x23, 3840, 2160, 1)];
     CameraManager.targetFpsRanges := Some [(15, 30); (30, 60)];
     CameraManager.physicalIds := None |}.

Definition metadata1 : CameraManager.ACameraMetadata :=
  {| CameraManager.lensFacing := Some 0;
     CameraManager.streamConfigurations := Some [(0x21, 640, 480, 0)];
     CameraManager.targetFpsRanges := Some [(30, 30)];
     CameraManager.physicalIds := None |}.

Definition catalog0 : CameraManager.CameraCatalog :=
  {| CameraManager.ACameraManager_getCameraIdList := (0, Some ["0"; "1"; "2"]%string);
     CameraManager.ACameraManager_getCameraCharacteristics :=
       fun cameraId =>
         if String.eqb cameraId "0" then (0, Some metadata0)
         else if String.eqb cameraId "1" then (0, Some metadata1)
         else (-1, None) |}.

(** What the enumeration reports for camera "0" of that catalog. *)
Definition camera0 : CameraInfo :=
  {| id := "0"; facing := CameraFacing.Back;
     clusterType := CameraClusterType.Passthrough;
     width := 1920; height := 1080; maxFps := 60;
     isPhysicalCamera := true; physicalCameraIds := EmptyString |}.

End CameraEnumerationNotions.

Section JniBridgeRuns.
Import JniBridge.
Local Open Scope Z_scope.

(** Notifications of the camera service to one stream. *)
Inductive Notification : Type :=
| Disconnected
| Failed (error : Z)
| Frame (now timestamp : Z).

Definition notify (n : Notification) (s : CameraStream.t) : CameraStream.t :=
  match n with
  | Disconnected => CameraStream.onDeviceDisconnected s
  | Failed error => CameraStream.onDeviceError error s
  | Frame now timestamp => fst (CameraStream.onCaptureStarted now timestamp s)
  end.

(** What reaches the bridge: calls of the camera entry points, and
    notifications for the stream of a camera. *)
Inductive Request : Type :=
| NativeStartPreview (manager : CameraManager.t) (svc : CameraStream.CameraService)
    (cameraId : string) (surface window : CameraStream.ptr)
| NativeStopCameraPreview (cameraId : string)
| NativeStopPreview
| Notified (cameraId : string) (n : Notification).

Definition serve (r : Request) (streams : Streams) : Streams :=
  match r with
  | NativeStartPreview manager svc cameraId surface window =>
      snd (fst (nativeStartPreview manager svc cameraId surface window streams))
  | NativeStopCameraPreview cameraId => fst (nativeStopCameraPreview cameraId streams)
  | NativeStopPreview => fst (nativeStopPreview streams)
  | Notified cameraId n => deliver cameraId (notify n) streams
  end.

Definition served (requests : list Request) : Streams :=
  fold_left (fun streams r => serve r streams) requests ∅.

(** Every streaming stream of the registry streams the camera it is
    registered under. *)
Definition keyed (streams : Streams) : Prop :=
  forall cameraId stream,
    streams !! cameraId = Some stream ->
    CameraStream.streaming_ stream = true ->
    CameraStream.currentCameraId_ stream = cameraId.

(** The stream of a camera, a fresh one when none is registered. *)
Definition streamOf (cameraId : string) (streams : Streams) : CameraStream.t :=
  default CameraStream.init (streams !! cameraId).

(** The registry after a preview of camera "0" was started on a surface
    whose window is 7. *)
Definition registry0 : Streams :=
  served [NativeStartPreview manager1 service_ok "0" 5%N 7%N].

End JniBridgeRuns.

Section CallbackHandlerRuns.
Import CallbackHandler.

(** Calls on a handler. *)
Inductive Op : Type :=
| SetCallback (env callback ref : ptr)
| Reset (env : ptr).

(** A run of calls from a state, with the JNI calls made so far; [None] once
    a call has dereferenced a null [env]. *)
Fixpoint runOps (ops : list Op) (h : t) (tr : list JniCall) : option (t * list JniCall) :=
  match ops with
  | [] => Some (h, tr)
  | SetCallback env callback ref :: rest =>
      match setCallback env callback ref h with
      | Some (h', tr') => runOps rest h' (tr ++ tr')
      | None => None
      end
  | Reset env :: rest =>
      let '(h', tr') := reset env h in runOps rest h' (tr ++ tr')
  end.

(** The global references created (non-null results of [NewGlobalRef]) and
    deleted along a trace. *)
Definition created (tr : list JniCall) : list ptr :=
  flat_map (fun c => match c with
                     | NewGlobalRef _ ref => if is_null ref then [] else [ref]
                     | DeleteGlobalRef _ => []
                     end) tr.

Definition deleted (tr : list JniCall) : list ptr :=
  flat_map (fun c => match c with
                     | NewGlobalRef _ _ => []
                     | DeleteGlobalRef ref => [ref]
                     end) tr.

End CallbackHandlerRuns.

Section CameraListNotions.
Local Open Scope Z_scope.

(** The characters that modified UTF-8 encodes as themselves and that a C
    string can hold: the 7-bit characters other than NUL. *)
Definition sevenBit (c : ascii) : Prop := (0 < nat_of_ascii c < 128)%nat.

(** A field that can be written between the separators and read back as
    it is: 7-bit characters, no NUL, no bar and no whitespace (a line end
    is whitespace). *)
Definition plain (s : string) : Prop :=
  forall c, In c (list_ascii_of_string s) ->
            sevenBit c /\ c <> "|"%char /\ CameraBridge.isWhitespace c = false.

(** A camera description that the text format carries: plain strings and
    32-bit numbers. *)
Definition encodable (cam : CameraInfo) : Prop :=
  plain (id cam) /\ plain (physicalCameraIds cam) /\
  Int.in_int32 (width cam) /\ Int.in_int32 (height cam) /\ Int.in_int32 (maxFps cam).

(** The last character of a string. *)
Fixpoint lastChar (s : string) : option ascii :=
  match s with
  | EmptyString => None
  | String c EmptyString => Some c
  | String _ rest => lastChar rest
  end.

(** A camera whose id holds a NUL, and one whose id starts with the bytes
    C2 A0, which encode the no-break space. *)
Definition camera_nul : CameraInfo :=
  {| id := String "a" (String "000" (String "b" EmptyString));
     facing := CameraFacing.Back; clusterType := CameraClusterType.Passthrough;
     width := 1920; height := 1080; maxFps := 30;
     isPhysicalCamera := true; physicalCameraIds := EmptyString |}.

Definition camera_nbsp : CameraInfo :=
  {| id := String "194" (String "160" (String "0" EmptyString));
     facing := CameraFacing.Back; clusterType := CameraClusterType.Passthrough;
     width := 1920; height := 1080; maxFps := 30;
     isPhysicalCamera := true; physicalCameraIds := EmptyString |}.

(** A physical camera with a camera id list, as a logical camera has one. *)
Definition camera1 : CameraInfo :=
  {| id := "10"; facing := CameraFacing.Unknown;
     clusterType := CameraClusterType.EyeTracking;
     width := 400; height := 400; maxFps := 90;
     isPhysicalCamera := false; physicalCameraIds := "11,12" |}.

End CameraListNotions.

(** * Properties *)

(** ** The ring buffer *)

Section RingBufferFacts.
Context {T : Type} `{!Inhabited T}.
Variable C : Z.
Variable k : Z.
Hypothesis Hk : (0 <= k < 64)%Z.
Hypothesis HC : C = (2 ^ k)%Z.
Local Open Scope Z_scope.

Lemma C_pos : 0 < C.
Proof using Hk HC. subst C. apply Z.pow_pos_nonneg; lia. Qed.

Lemma mask_mod (x : Z) :
  Z.land (RingBuffer.size_t x) (RingBuffer.kMask C) = x mod C.
Proof using Hk HC.
  unfold RingBuffer.size_t, RingBuffer.kMask. subst C.
  replace (2 ^ k - 1) with (Z.ones k) by (rewrite Z.ones_equiv; lia).
  rewrite Z.land_ones by lia.
  apply Z.mod_mod_divide.
  exists (2 ^ (64 - k)). rewrite <- Z.pow_add_r by lia. f_equal. lia.
Qed.

Lemma size_eq (rb : RingBuffer.t T) :
  RingBuffer.size C rb = (RingBuffer.head_ rb - RingBuffer.tail_ rb) mod C.
Proof using Hk HC. unfold RingBuffer.size. apply mask_mod. Qed.

Lemma size_bound (rb : RingBuffer.t T) : 0 <= RingBuffer.size C rb <= C - 1.
Proof using Hk HC.
  rewrite size_eq. pose proof C_pos.
  pose proof (Z.mod_pos_bound (RingBuffer.head_ rb - RingBuffer.tail_ rb) C). lia.
Qed.

(** [next] is the successor modulo the capacity, as both indices advance. *)
Lemma next_full_iff (rb : RingBuffer.t T) :
  RingBuffer.wf C rb ->
  ((RingBuffer.head_ rb + 1) mod C = RingBuffer.tail_ rb <-> RingBuffer.size C rb = C - 1).
Proof using Hk HC.
  intros (_ & Hh & Ht). rewrite size_eq. pose proof C_pos as HCp.
  set (h := RingBuffer.head_ rb) in *. set (t := RingBuffer.tail_ rb) in *.
  destruct (Z_lt_le_dec h t) as [Hlt | Hge].
  - replace ((h - t) mod C) with (h - t + C)
      by (apply Z.mod_unique with (q := -1); lia).
    rewrite (Z.mod_small (h + 1) C) by lia. lia.
  - rewrite (Z.mod_small (h - t) C) by lia.
    destruct (Z.eq_dec (h + 1) C) as [E | NE].
    + rewrite E, Z.mod_same by lia. lia.
    + rewrite (Z.mod_small (h + 1) C) by lia. lia.
Qed.

Lemma add_mod_l (a i : Z) : ((a mod C) + i) mod C = (a + i) mod C.
Proof using Hk HC. pose proof C_pos. rewrite Zplus_mod_idemp_l. reflexivity. Qed.

Lemma slot_at_size (rb : RingBuffer.t T) :
  RingBuffer.wf C rb ->
  (RingBuffer.tail_ rb + RingBuffer.size C rb) mod C = RingBuffer.head_ rb.
Proof using Hk HC.
  intros (_ & Hh & Ht). rewrite size_eq. pose proof C_pos.
  rewrite Zplus_mod_idemp_r.
  replace (RingBuffer.tail_ rb + (RingBuffer.head_ rb - RingBuffer.tail_ rb))
    with (RingBuffer.head_ rb) by lia.
  apply Z.mod_small; lia.
Qed.

Lemma slot_before_size (rb : RingBuffer.t T) (i : Z) :
  RingBuffer.wf C rb -> 0 <= i < RingBuffer.size C rb ->
  (RingBuffer.tail_ rb + i) mod C <> RingBuffer.head_ rb.
Proof using Hk HC.
  intros Hwf Hi E. pose proof (size_bound rb) as Hs. pose proof C_pos.
  assert (RingBuffer.size C rb = i); [| lia].
  rewrite size_eq, <- E, <- Zminus_mod_idemp_l.
  rewrite Z.mod_mod by lia. rewrite Zminus_mod_idemp_l.
  replace (RingBuffer.tail_ rb + i - RingBuffer.tail_ rb) with i by lia.
  apply Z.mod_small; lia.
Qed.

(** Writing at the head and advancing it appends to the logical RingBuffer.contents C,
    provided one RingBuffer.slot C is still free. *)
Lemma contents_append (rb : RingBuffer.t T) (x : T) :
  RingBuffer.wf C rb -> RingBuffer.size C rb < C - 1 ->
  RingBuffer.contents C {| RingBuffer.buffer_ := RingBuffer.store rb (RingBuffer.head_ rb) x;
              RingBuffer.head_ := (RingBuffer.head_ rb + 1) mod C;
              RingBuffer.tail_ := RingBuffer.tail_ rb |}
  = RingBuffer.contents C rb ++ [x].
Proof using Hk HC.
  intros Hwf Hfree. pose proof (size_bound rb) as Hs. pose proof C_pos as HCp.
  pose proof Hwf as (Hlen & Hh & Ht).
  unfold RingBuffer.contents at 1. rewrite size_eq. cbn [RingBuffer.head_ RingBuffer.tail_].
  assert (Hsz : ((RingBuffer.head_ rb + 1) mod C - RingBuffer.tail_ rb) mod C
                = RingBuffer.size C rb + 1).
  { rewrite Zminus_mod_idemp_l, size_eq.
    replace (RingBuffer.head_ rb + 1 - RingBuffer.tail_ rb)
      with ((RingBuffer.head_ rb - RingBuffer.tail_ rb) + 1) by lia.
    rewrite <- Zplus_mod_idemp_l. rewrite <- size_eq. apply Z.mod_small. lia. }
  rewrite Hsz, Z2Nat.inj_add by lia.
  change (Z.to_nat 1) with 1%nat. rewrite Nat.add_1_r, seq_S, map_app. cbn [map].
  f_equal.
  - apply map_ext_in. intros i Hi. apply in_seq in Hi.
    unfold RingBuffer.slot. cbn [RingBuffer.buffer_ RingBuffer.tail_]. unfold RingBuffer.store.
    apply list_lookup_total_insert_ne.
    intros E. apply Z2Nat.inj in E.
    + symmetry in E. revert E. apply slot_before_size; [assumption | lia].
    + lia.
    + apply Z.mod_pos_bound; lia.
  - f_equal. unfold RingBuffer.slot. cbn [RingBuffer.buffer_ RingBuffer.tail_ Nat.add].
    rewrite Z2Nat.id by lia. rewrite slot_at_size by assumption.
    unfold RingBuffer.store. apply list_lookup_total_insert_eq. lia.
Qed.

(** Advancing the tail drops the oldest element. *)
Lemma contents_advance (rb : RingBuffer.t T) :
  RingBuffer.wf C rb -> 0 < RingBuffer.size C rb ->
  RingBuffer.contents C rb =
    (RingBuffer.buffer_ rb !!! Z.to_nat (RingBuffer.tail_ rb)) ::
    RingBuffer.contents C {| RingBuffer.buffer_ := RingBuffer.buffer_ rb;
                RingBuffer.head_ := RingBuffer.head_ rb;
                RingBuffer.tail_ := (RingBuffer.tail_ rb + 1) mod C |}.
Proof using Hk HC.
  intros Hwf Hpos. pose proof (size_bound rb) as Hs. pose proof C_pos as HCp.
  pose proof Hwf as (Hlen & Hh & Ht).
  unfold RingBuffer.contents. rewrite !size_eq. cbn [RingBuffer.head_ RingBuffer.tail_].
  assert (Hsz : (RingBuffer.head_ rb - (RingBuffer.tail_ rb + 1) mod C) mod C
                = RingBuffer.size C rb - 1).
  { rewrite Zminus_mod_idemp_r, size_eq.
    replace (RingBuffer.head_ rb - (RingBuffer.tail_ rb + 1))
      with ((RingBuffer.head_ rb - RingBuffer.tail_ rb) - 1) by lia.
    rewrite <- Zminus_mod_idemp_l. rewrite <- size_eq. apply Z.mod_small. lia. }
  rewrite Hsz, <- size_eq.
  replace (Z.to_nat (RingBuffer.size C rb))
    with (S (Z.to_nat (RingBuffer.size C rb - 1))) by lia.
  cbn [seq map]. f_equal.
  - unfold RingBuffer.slot. rewrite Z.add_0_r, Z.mod_small by lia. reflexivity.
  - rewrite <- seq_shift, map_map. apply map_ext. intros i.
    unfold RingBuffer.slot. cbn [RingBuffer.buffer_ RingBuffer.tail_].
    rewrite add_mod_l. do 3 f_equal. lia.
Qed.

Lemma contents_empty (rb : RingBuffer.t T) :
  RingBuffer.size C rb = 0 -> RingBuffer.contents C rb = [].
Proof. intros E. unfold RingBuffer.contents. rewrite E. reflexivity. Qed.

Lemma size_zero_iff (rb : RingBuffer.t T) :
  RingBuffer.wf C rb -> (RingBuffer.size C rb = 0 <-> RingBuffer.tail_ rb = RingBuffer.head_ rb).
Proof using Hk HC.
  intros Hwf. pose proof Hwf as (Hlen & Hh & Ht). pose proof C_pos.
  split; intros E.
  - pose proof (slot_at_size rb Hwf) as S. rewrite E, Z.add_0_r, Z.mod_small in S; lia.
  - rewrite size_eq, E, Z.sub_diag. apply Z.mod_0_l. lia.
Qed.

Lemma length_contents (rb : RingBuffer.t T) :
  Z.of_nat (length (RingBuffer.contents C rb)) = RingBuffer.size C rb.
Proof using Hk HC.
  unfold RingBuffer.contents. rewrite length_map, length_seq. pose proof (size_bound rb). lia.
Qed.

Lemma wf_store (rb : RingBuffer.t T) (i : Z) (x : T) (h t : Z) :
  RingBuffer.wf C rb -> 0 <= h < C -> 0 <= t < C ->
  RingBuffer.wf C {| RingBuffer.buffer_ := RingBuffer.store rb i x;
        RingBuffer.head_ := h; RingBuffer.tail_ := t |}.
Proof.
  intros (Hlen & _ & _) Hh Ht. unfold RingBuffer.wf, RingBuffer.store.
  cbn [RingBuffer.buffer_ RingBuffer.head_ RingBuffer.tail_].
  rewrite length_insert. auto.
Qed.

Lemma push_unfold (rb : RingBuffer.t T) (x : T) :
  RingBuffer.push C x rb =
  if (RingBuffer.head_ rb + 1) mod C =? RingBuffer.tail_ rb then (false, rb)
  else (true, {| RingBuffer.buffer_ := RingBuffer.store rb (RingBuffer.head_ rb) x;
                 RingBuffer.head_ := (RingBuffer.head_ rb + 1) mod C;
                 RingBuffer.tail_ := RingBuffer.tail_ rb |}).
Proof using Hk HC. unfold RingBuffer.push. cbv zeta. rewrite mask_mod. reflexivity. Qed.

Lemma pushOverwrite_unfold (rb : RingBuffer.t T) (x : T) :
  RingBuffer.pushOverwrite C x rb =
  {| RingBuffer.buffer_ := RingBuffer.store rb (RingBuffer.head_ rb) x;
     RingBuffer.head_ := (RingBuffer.head_ rb + 1) mod C;
     RingBuffer.tail_ :=
       if (RingBuffer.head_ rb + 1) mod C =? RingBuffer.tail_ rb
       then (RingBuffer.tail_ rb + 1) mod C else RingBuffer.tail_ rb |}.
Proof using Hk HC. unfold RingBuffer.pushOverwrite. cbv zeta. rewrite !mask_mod. reflexivity. Qed.

Lemma pop_unfold (rb : RingBuffer.t T) :
  RingBuffer.pop C rb =
  if RingBuffer.tail_ rb =? RingBuffer.head_ rb then (None, rb)
  else (Some (RingBuffer.buffer_ rb !!! Z.to_nat (RingBuffer.tail_ rb)),
        {| RingBuffer.buffer_ := RingBuffer.buffer_ rb;
           RingBuffer.head_ := RingBuffer.head_ rb;
           RingBuffer.tail_ := (RingBuffer.tail_ rb + 1) mod C |}).
Proof using Hk HC. unfold RingBuffer.pop. cbv zeta. rewrite mask_mod. reflexivity. Qed.

Lemma push_spec (rb : RingBuffer.t T) (x : T) :
  RingBuffer.wf C rb ->
  (fst (RingBuffer.push C x rb) = false <-> RingBuffer.size C rb = C - 1) /\
  (fst (RingBuffer.push C x rb) = false -> snd (RingBuffer.push C x rb) = rb) /\
  (fst (RingBuffer.push C x rb) = true ->
     RingBuffer.wf C (snd (RingBuffer.push C x rb)) /\
     RingBuffer.contents C (snd (RingBuffer.push C x rb)) = RingBuffer.contents C rb ++ [x]).
Proof using Hk HC.
  intros Hwf. pose proof (next_full_iff rb Hwf) as Hfull.
  pose proof (size_bound rb) as Hs. pose proof C_pos as HCp.
  rewrite push_unfold.
  destruct (Z.eqb_spec ((RingBuffer.head_ rb + 1) mod C) (RingBuffer.tail_ rb)) as [E | NE];
    cbn [fst snd].
  - split; [| split]; [split; [tauto | reflexivity] | reflexivity | discriminate].
  - split; [| split]; [split; [discriminate | tauto] | discriminate |].
    intros _. split.
    + apply wf_store; [assumption | apply Z.mod_pos_bound; lia | apply Hwf].
    + apply contents_append; [assumption |]. assert (RingBuffer.size C rb <> C - 1) by tauto. lia.
Qed.

Lemma pop_spec (rb : RingBuffer.t T) :
  RingBuffer.wf C rb ->
  (RingBuffer.contents C rb = [] -> RingBuffer.pop C rb = (None, rb)) /\
  (forall y ys, RingBuffer.contents C rb = y :: ys ->
     fst (RingBuffer.pop C rb) = Some y /\
     RingBuffer.wf C (snd (RingBuffer.pop C rb)) /\
     RingBuffer.contents C (snd (RingBuffer.pop C rb)) = ys).
Proof using Hk HC.
  intros Hwf. pose proof (size_bound rb) as Hs. pose proof C_pos as HCp.
  pose proof (size_zero_iff rb Hwf) as Hz. pose proof (length_contents rb) as Hl.
  rewrite pop_unfold.
  destruct (Z.eqb_spec (RingBuffer.tail_ rb) (RingBuffer.head_ rb)) as [E | NE].
  - split; [reflexivity |]. intros y ys Hc. rewrite Hc in Hl. cbn [length] in Hl. lia.
  - assert (Hpos : 0 < RingBuffer.size C rb) by (assert (RingBuffer.size C rb <> 0) by tauto; lia).
    rewrite (contents_advance rb Hwf Hpos). split; [discriminate |].
    intros y ys Hc. injection Hc as Hy Hys. cbn [fst snd].
    split; [f_equal; exact Hy | split; [| exact Hys]].
    destruct Hwf as (Hlen & Hh & Ht). unfold RingBuffer.wf. cbn.
    split; [exact Hlen | split; [exact Hh | apply Z.mod_pos_bound; lia]].
Qed.

Lemma pushOverwrite_spec (rb : RingBuffer.t T) (x : T) :
  RingBuffer.wf C rb ->
  RingBuffer.wf C (RingBuffer.pushOverwrite C x rb) /\
  RingBuffer.buffer_ (RingBuffer.pushOverwrite C x rb)
    !!! Z.to_nat (RingBuffer.head_ rb) = x /\
  (RingBuffer.size C rb = C - 1 ->
     RingBuffer.tail_ (RingBuffer.pushOverwrite C x rb) = (RingBuffer.tail_ rb + 1) mod C /\
     RingBuffer.size C (RingBuffer.pushOverwrite C x rb) = C - 1 /\
     RingBuffer.contents C (RingBuffer.pushOverwrite C x rb) = tl (RingBuffer.contents C rb ++ [x])) /\
  (RingBuffer.size C rb < C - 1 ->
     RingBuffer.tail_ (RingBuffer.pushOverwrite C x rb) = RingBuffer.tail_ rb /\
     RingBuffer.contents C (RingBuffer.pushOverwrite C x rb) = RingBuffer.contents C rb ++ [x]).
Proof using Hk HC.
  intros Hwf. pose proof (next_full_iff rb Hwf) as Hfull.
  pose proof (size_bound rb) as Hs. pose proof C_pos as HCp.
  pose proof Hwf as (Hlen & Hh & Ht).
  rewrite pushOverwrite_unfold.
  assert (Hslot : RingBuffer.store rb (RingBuffer.head_ rb) x
                    !!! Z.to_nat (RingBuffer.head_ rb) = x).
  { unfold RingBuffer.store. apply list_lookup_total_insert_eq. lia. }
  destruct (Z.eqb_spec ((RingBuffer.head_ rb + 1) mod C) (RingBuffer.tail_ rb)) as [E | NE].
  - assert (Hsz : RingBuffer.size C rb = C - 1) by tauto.
    split; [| split; [exact Hslot | split; [| lia]]].
    { apply wf_store; [assumption | |]; apply Z.mod_pos_bound; lia. }
    intros _. cbn [RingBuffer.tail_]. split; [reflexivity |].
    set (rb1 := {| RingBuffer.buffer_ := RingBuffer.buffer_ rb;
                   RingBuffer.head_ := RingBuffer.head_ rb;
                   RingBuffer.tail_ := (RingBuffer.tail_ rb + 1) mod C |}).
    assert (Hwf1 : RingBuffer.wf C rb1).
    { unfold RingBuffer.wf, rb1. cbn. split; [exact Hlen | split; [exact Hh | apply Z.mod_pos_bound; lia]]. }
    destruct (Z.eq_dec C 1) as [C1 | Cn1].
    + (* a single RingBuffer.slot C: the buffer is always logically empty *)
      split.
      * match goal with |- RingBuffer.size C ?r = _ => pose proof (size_bound r) end. lia.
      * rewrite (contents_empty rb) by lia. cbn [app tl].
        apply contents_empty.
        match goal with |- RingBuffer.size C ?r = _ => pose proof (size_bound r) end. lia.
    + assert (Hpos : 0 < RingBuffer.size C rb) by lia.
      assert (Hsz1 : RingBuffer.size C rb1 = C - 2).
      { pose proof (length_contents rb) as L. pose proof (length_contents rb1) as L1.
        rewrite (contents_advance rb Hwf Hpos) in L. fold rb1 in L. cbn [length] in L. lia. }
      set (rb2 := {| RingBuffer.buffer_ := RingBuffer.store rb1 (RingBuffer.head_ rb1) x;
                     RingBuffer.head_ := (RingBuffer.head_ rb1 + 1) mod C;
                     RingBuffer.tail_ := RingBuffer.tail_ rb1 |}).
      assert (Happ : RingBuffer.contents C rb2 = RingBuffer.contents C rb1 ++ [x])
        by (apply contents_append; [assumption | lia]).
      change (RingBuffer.size C rb2 = C - 1 /\ RingBuffer.contents C rb2 = tl (RingBuffer.contents C rb ++ [x])).
      split.
      * pose proof (length_contents rb2) as L. pose proof (length_contents rb1) as L1.
        rewrite Happ, length_app in L. cbn [length] in L. lia.
      * rewrite Happ, (contents_advance rb Hwf Hpos). fold rb1. reflexivity.
  - assert (Hsz : RingBuffer.size C rb <> C - 1) by tauto.
    split; [| split; [exact Hslot | split; [lia |]]].
    { apply wf_store; [assumption | apply Z.mod_pos_bound; lia | assumption]. }
    intros _. split; [reflexivity |]. apply contents_append; [assumption | lia].
Qed.

Lemma wf_init : RingBuffer.wf C (RingBuffer.init (T:=T) C).
Proof using Hk HC.
  pose proof C_pos. unfold RingBuffer.wf, RingBuffer.init.
  cbn [RingBuffer.buffer_ RingBuffer.head_ RingBuffer.tail_].
  rewrite length_replicate. lia.
Qed.

Lemma popAll_contents (rb : RingBuffer.t T) (l : list T) :
  RingBuffer.wf C rb -> RingBuffer.contents C rb = l ->
  popAll C (length l) rb = l.
Proof using Hk HC.
  revert rb. induction l as [| y ys IH]; intros rb Hwf Hc; [reflexivity |].
  destruct (pop_spec rb Hwf) as [_ Hpop].
  destruct (Hpop y ys Hc) as (Hy & Hwf' & Hc').
  cbn [length popAll]. destruct (RingBuffer.pop C rb) as [o rb'].
  cbn [fst snd] in Hy, Hwf', Hc'. subst o. f_equal. apply IH; assumption.
Qed.

Lemma pushAll_contents (items : list T) (rb : RingBuffer.t T) :
  RingBuffer.wf C rb ->
  RingBuffer.size C rb + Z.of_nat (length items) <= C - 1 ->
  RingBuffer.wf C (pushAll C items rb) /\
  RingBuffer.contents C (pushAll C items rb) = RingBuffer.contents C rb ++ items.
Proof using Hk HC.
  revert rb. induction items as [| x xs IH]; intros rb Hwf Hroom.
  - cbn [pushAll]. rewrite app_nil_r. auto.
  - cbn [pushAll length] in *.
    destruct (push_spec rb x Hwf) as (Hfull & _ & Hok).
    pose proof (size_bound rb) as Hs.
    destruct (fst (RingBuffer.push C x rb)) eqn:E.
    + destruct (Hok eq_refl) as [Hwf' Hc'].
      assert (Hsz : RingBuffer.size C (snd (RingBuffer.push C x rb))
                    = RingBuffer.size C rb + 1).
      { rewrite <- !length_contents, Hc', length_app. cbn [length]. lia. }
      destruct (IH _ Hwf' ltac:(lia)) as [Hw Hc].
      split; [exact Hw |]. rewrite Hc, Hc', <- app_assoc. reflexivity.
    + assert (RingBuffer.size C rb = C - 1) by tauto. lia.
Qed.

(** C10. In sequential use of a ring buffer whose capacity [C] is a power
    of two: the logical contents never exceed [C - 1] elements; [push]
    returns [false] exactly when [C - 1] elements are held, and then leaves
    the buffer unchanged, and otherwise appends the element; in the full
    state [pushOverwrite] advances the tail by one slot (modulo [C]),
    writes the element into the slot at the old head and leaves the
    contents with the oldest element dropped and the new one last; [pop]
    fails on the empty buffer and otherwise returns and removes the oldest
    element; so after pushing further elements that fit, popping everything
    returns the old contents followed by the new elements, in the order
    they were pushed. *)
Theorem ring_buffer_push_pop_fifo (rb : RingBuffer.t T) (x : T) :
  RingBuffer.wf C rb ->
  (0 <= RingBuffer.size C rb <= C - 1 /\
   Z.of_nat (length (RingBuffer.contents C rb)) = RingBuffer.size C rb) /\
  ((fst (RingBuffer.push C x rb) = false <-> RingBuffer.size C rb = C - 1) /\
   (fst (RingBuffer.push C x rb) = false -> snd (RingBuffer.push C x rb) = rb) /\
   (fst (RingBuffer.push C x rb) = true ->
      RingBuffer.wf C (snd (RingBuffer.push C x rb)) /\
      RingBuffer.contents C (snd (RingBuffer.push C x rb))
        = RingBuffer.contents C rb ++ [x])) /\
  (RingBuffer.wf C (RingBuffer.pushOverwrite C x rb) /\
   RingBuffer.buffer_ (RingBuffer.pushOverwrite C x rb)
     !!! Z.to_nat (RingBuffer.head_ rb) = x /\
   (RingBuffer.size C rb = C - 1 ->
      RingBuffer.tail_ (RingBuffer.pushOverwrite C x rb)
        = (RingBuffer.tail_ rb + 1) mod C /\
      RingBuffer.size C (RingBuffer.pushOverwrite C x rb) = C - 1 /\
      RingBuffer.contents C (RingBuffer.pushOverwrite C x rb)
        = tl (RingBuffer.contents C rb ++ [x])) /\
   (RingBuffer.size C rb < C - 1 ->
      RingBuffer.tail_ (RingBuffer.pushOverwrite C x rb) = RingBuffer.tail_ rb /\
      RingBuffer.contents C (RingBuffer.pushOverwrite C x rb)
        = RingBuffer.contents C rb ++ [x])) /\
  ((RingBuffer.contents C rb = [] -> RingBuffer.pop C rb = (None, rb)) /\
   (forall y ys, RingBuffer.contents C rb = y :: ys ->
      fst (RingBuffer.pop C rb) = Some y /\
      RingBuffer.wf C (snd (RingBuffer.pop C rb)) /\
      RingBuffer.contents C (snd (RingBuffer.pop C rb)) = ys)) /\
  (forall items,
     RingBuffer.size C rb + Z.of_nat (length items) <= C - 1 ->
     popAll C (length (RingBuffer.contents C rb ++ items)) (pushAll C items rb)
       = RingBuffer.contents C rb ++ items).
Proof using Hk HC.
  intros Hwf. split; [| split; [| split; [| split]]].
  - split; [apply size_bound | apply length_contents].
  - apply push_spec, Hwf.
  - apply pushOverwrite_spec, Hwf.
  - apply pop_spec, Hwf.
  - intros items Hroom.
    destruct (pushAll_contents items rb Hwf Hroom) as [Hw Hc].
    apply popAll_contents; assumption.
Qed.

End RingBufferFacts.

Example ring4_run :
  RingBuffer.contents 4 ring4_full = [1; 2; 3]%Z /\
  fst (RingBuffer.push 4 4%Z ring4_full) = false /\
  RingBuffer.contents 4 (RingBuffer.pushOverwrite 4 4%Z ring4_full) = [2; 3; 4]%Z /\
  fst (RingBuffer.pop 4 (RingBuffer.pushOverwrite 4 4%Z ring4_full)) = Some 2%Z.
Proof. vm_compute. repeat split. Qed.

Lemma ring_buffer_push_pop_fifo_witness :
  (0 <= 2 < 64)%Z /\ 4%Z = (2 ^ 2)%Z /\ RingBuffer.wf 4 ring4_full /\
  (fst (RingBuffer.push 4 4%Z ring4_full) = false <->
   RingBuffer.size 4 ring4_full = (4 - 1)%Z) /\
  RingBuffer.contents 4 (RingBuffer.pushOverwrite 4 4%Z ring4_full)
    = tl (RingBuffer.contents 4 ring4_full ++ [4%Z]).
Proof.
  assert (Hk : (0 <= 2 < 64)%Z) by lia.
  assert (HC : 4%Z = (2 ^ 2)%Z) by reflexivity.
  assert (Hwf : RingBuffer.wf 4 ring4_full) by (vm_compute; intuition congruence).
  pose proof (ring_buffer_push_pop_fifo 4 2 Hk HC ring4_full 4%Z Hwf)
    as (_ & (Hpush & _) & (_ & _ & Hfull & _) & _ & _).
  split; [exact Hk | split; [exact HC | split; [exact Hwf | split; [exact Hpush |]]]].
  apply Hfull. reflexivity.
Defined.

(** ** Machine integers *)

Lemma int32_in_range (z : Z) : Int.in_int32 z -> Int.int32 z = z.
Proof.
  unfold Int.in_int32, Int.int32, Int.wrap. intros H.
  change (2 ^ (32 - 1))%Z with 2147483648%Z.
  change (2 ^ 32)%Z with 4294967296%Z.
  change (2 ^ 31)%Z with 2147483648%Z in H.
  rewrite Z.mod_small; lia.
Qed.

Lemma int64_in_range (z : Z) : Int.in_int64 z -> Int.int64 z = z.
Proof.
  unfold Int.in_int64, Int.int64, Int.wrap. intros H.
  change (2 ^ (64 - 1))%Z with 9223372036854775808%Z.
  change (2 ^ 64)%Z with 18446744073709551616%Z.
  change (2 ^ 63)%Z with 9223372036854775808%Z in H.
  rewrite Z.mod_small; lia.
Qed.

Lemma in_int64_bounds (z : Z) :
  Int.in_int64 z <-> (-9223372036854775808 <= z < 9223372036854775808)%Z.
Proof. unfold Int.in_int64. change (2 ^ 63)%Z with 9223372036854775808%Z. tauto. Qed.

Lemma in_int32_bounds (z : Z) :
  Int.in_int32 z <-> (-2147483648 <= z < 2147483648)%Z.
Proof. unfold Int.in_int32. change (2 ^ 31)%Z with 2147483648%Z. tauto. Qed.

(** ** Camera classification *)

Section Classification.
Local Open Scope Z_scope.
Local Open Scope string_scope.







(** The positive width and height of the caller's guard are used by the
    external case only: heuristic 4 returns Avatar without looking at the
    resolution, so an external-facing descriptor of resolution zero, which
    [enumerateCameras] skips and [classifyCamera] therefore never receives,
    would be Avatar where the decision list gives Unknown. *)
Example classifyCamera_external_zero_resolution :
  CameraManager.classifyCamera external_0x0 "cam0" = CameraClusterType.Avatar /\
  CameraManager.classifyCamera_spec external_0x0 "cam0" = CameraClusterType.Unknown.
Proof. vm_compute. split; reflexivity. Qed.

End Classification.

(** ** The camera stream *)

Section CameraStreamFacts.
Import CameraStream.
Local Open Scope Z_scope.

Lemma is_null_true (p : ptr) : is_null p = true <-> p = nullptr.
Proof. unfold is_null, nullptr. apply N.eqb_eq. Qed.

Lemma cleared_null (p : ptr) : cleared p = nullptr.
Proof. unfold cleared. destruct (is_null p) eqn:E; [apply is_null_true, E | reflexivity]. Qed.

Lemma cleanup_idle (s : t) :
  idle (fst (cleanup s)) /\ streaming_ (fst (cleanup s)) = false /\
  statsCallback_ (fst (cleanup s)) = None.
Proof.
  unfold idle, cleanup. cbn [fst streaming_ currentCameraId_ cameraDevice_ captureSession_
    outputContainer_ sessionOutput_ outputTarget_ captureRequest_ surface_ statsCallback_].
  rewrite !cleared_null. repeat split.
Qed.

Lemma freed_released_one (p : ptr) (c : NativeCall) (r : Resource) :
  releases c = [r] -> held r = (if is_null p then [] else [r]) ->
  freed (released p [c]) = held r.
Proof.
  intros Hc Hr. unfold released. rewrite Hr.
  destruct (is_null p); cbn; [reflexivity | rewrite Hc; reflexivity].
Qed.

Lemma cleanup_freed (s : t) : freed (snd (cleanup s)) = holdings s.
Proof.
  unfold cleanup, holdings, freed. cbn [snd]. rewrite !flat_map_app.
  unfold released, held.
  destruct (is_null (captureSession_ s)), (is_null (cameraDevice_ s)),
    (is_null (captureRequest_ s)), (is_null (outputTarget_ s)),
    (is_null (sessionOutput_ s)), (is_null (outputContainer_ s)),
    (is_null (surface_ s)); reflexivity.
Qed.

Lemma cleanup_acquired (s : t) : acquired (snd (cleanup s)) = [].
Proof.
  unfold cleanup, acquired. cbn [snd]. rewrite !flat_map_app.
  unfold released.
  destruct (is_null (captureSession_ s)), (is_null (cameraDevice_ s)),
    (is_null (captureRequest_ s)), (is_null (outputTarget_ s)),
    (is_null (sessionOutput_ s)), (is_null (outputContainer_ s)),
    (is_null (surface_ s)); reflexivity.
Qed.

Lemma failed_false (status : camera_status_t) :
  failed status = false <-> status = ACAMERA_OK.
Proof.
  unfold failed. destruct (Z.eqb_spec status ACAMERA_OK); cbn; split; congruence.
Qed.

(** What [cleanup(); return false;] leaves behind. *)
Lemma abort_spec (s : t) (tr : list NativeCall) :
  fst (fst (abort s tr)) = false /\
  streaming_ (snd (fst (abort s tr))) = false /\
  idle (snd (fst (abort s tr))) /\
  acquired (snd (abort s tr)) = acquired tr /\
  freed (snd (abort s tr)) = freed tr ++ holdings s.
Proof.
  unfold abort. cbn [fst snd]. destruct (cleanup_idle s) as (Hi & Hs & _).
  unfold acquired, freed. rewrite !flat_map_app.
  fold (acquired (snd (cleanup s))). fold (freed (snd (cleanup s))).
  rewrite cleanup_acquired, cleanup_freed, app_nil_r. auto.
Qed.

Lemma abort_outcome (s : t) (tr : list NativeCall) :
  (forall x, In x (acquired tr) -> In x (freed tr ++ holdings s)) ->
  failure_outcome (abort s tr) /\ idle (snd (fst (abort s tr))).
Proof.
  intros H. destruct (abort_spec s tr) as (A & B & C & D & E).
  unfold failure_outcome. rewrite D, E. auto.
Qed.

Ltac balance Hacq :=
  let x := fresh "x" in
  let Hx := fresh "Hx" in
  intros x Hx; unfold acquired, freed, holdings in *;
  rewrite ?flat_map_app in *; rewrite Hacq in Hx;
  cbn in Hx |- *; rewrite ?app_nil_r, ?in_app_iff in *; tauto.

Ltac aborted Hacq :=
  match goal with
  | |- _ /\ (_ -> idle (snd (fst (abort ?st ?tr)))) =>
      let H := fresh in
      assert (H : failure_outcome (abort st tr) /\ idle (snd (fst (abort st tr))))
        by (apply abort_outcome; balance Hacq);
      destruct H as [? ?]; split; [assumption | intros _; assumption]
  end.

(** C1. When a start is attempted (the stream is not already streaming the
    requested camera id) and some acquisition step fails -- manager
    invalid, null surface, device open, output-target creation,
    capture-request creation, target attach, container creation,
    session-output creation, container add, session creation or
    repeating-request submission -- [startPreview] returns [false], the
    stream is not streaming, every resource the call acquired has been
    released by the call, and the stream is left idle: its seven handles
    null and no camera id.

    The idle state is stated for a stream that enters the call streaming or
    idle, and for any stream when the manager is valid and the surface not
    null.  That covers every call the program makes: [nativeStartPreview],
    the one caller, returns before the call when the surface or its window
    is null, and passes the one camera manager of the process, with which,
    when it is invalid, no stream ever holds a handle
    ([invalid_manager_stream_idle] below). *)
Theorem startPreview_failure_releases
    (manager : CameraManager.t) (cameraId : string) (surface : ptr)
    (statsCallback : CameraStatsCallback) (svc : CameraService) (s : t) :
  (streaming_ s && String.eqb (currentCameraId_ s) cameraId)%bool = false ->
  step_fails manager surface svc ->
  fst (fst (startPreview manager cameraId surface statsCallback svc s)) = false /\
  streaming_ (snd (fst (startPreview manager cameraId surface statsCallback svc s)))
    = false /\
  (forall x,
     In x (acquired (snd (startPreview manager cameraId surface statsCallback svc s))) ->
     In x (freed (snd (startPreview manager cameraId surface statsCallback svc s)))) /\
  (streaming_ s = true \/ idle s \/
   (CameraManager.isValid manager = true /\ surface <> nullptr) ->
   idle (snd (fst (startPreview manager cameraId surface statsCallback svc s)))).
Proof.
  intros Hguard Hfail.
  enough (H : failure_outcome (startPreview manager cameraId surface statsCallback svc s)
              /\ (streaming_ s = true \/ idle s \/
                  (CameraManager.isValid manager = true /\ surface <> nullptr) ->
                  idle (snd (fst (startPreview manager cameraId surface statsCallback svc s))))).
  { destruct H as ((A & B & C) & D). auto. }
  unfold startPreview. rewrite Hguard.
  destruct svc as [[st1 dev] [st2 tgt] [st3 req] st4 [st5 cont] [st6 out] st7 [st8 ses] st9].
  unfold step_fails in Hfail.
  cbn [openCamera outputTarget_create createCaptureRequest addTarget
       outputContainer_create sessionOutput_create outputContainer_add
       createCaptureSession setRepeatingRequest fst snd] in Hfail |- *.
  assert (He : acquired (snd (if streaming_ s then cleanup s else (s, []))) = [] /\
               streaming_ (fst (if streaming_ s then cleanup s else (s, []))) = false /\
               (streaming_ s = true \/ idle s ->
                idle (fst (if streaming_ s then cleanup s else (s, []))))).
  { destruct (streaming_ s) eqn:St.
    - destruct (cleanup_idle s) as (Hi & Hs & _).
      split; [apply cleanup_acquired | split; [exact Hs | intros _; exact Hi]].
    - split; [reflexivity | split; [exact St | intros [? | ?]; [discriminate | assumption]]]. }
  destruct (if streaming_ s then cleanup s else (s, [])) as [s0 tr].
  cbn [fst snd] in He. destruct He as (Hacq & Hstr & Hidle).
  destruct (CameraManager.isValid manager) eqn:V; cbn [negb].
  2:{ split; [split; [reflexivity | split; [exact Hstr |]] |].
      - cbn [snd]. rewrite Hacq. intros x [].
      - cbn [fst snd]. intros [? | [? | [? _]]]; [auto | auto | discriminate]. }
  destruct (is_null surface) eqn:NS.
  { split; [split; [reflexivity | split; [exact Hstr |]] |].
    - cbn [snd]. rewrite Hacq. intros x [].
    - cbn [fst snd]. apply is_null_true in NS.
      intros [? | [? | [_ ?]]]; [auto | auto | contradiction]. }
  cbn [cameraDevice_ set_cameraDevice begin_start].
  destruct (failed st1) eqn:F1; cbn [orb]; [aborted Hacq |].
  destruct (is_null dev) eqn:N1; [aborted Hacq |].
  destruct (failed st2) eqn:F2; [aborted Hacq |].
  destruct (failed st3) eqn:F3; [aborted Hacq |].
  destruct (failed st4) eqn:F4; [aborted Hacq |].
  destruct (failed st5) eqn:F5; [aborted Hacq |].
  destruct (failed st6) eqn:F6; [aborted Hacq |].
  destruct (failed st7) eqn:F7; [aborted Hacq |].
  cbn [captureSession_ set_captureSession].
  destruct (failed st8) eqn:F8; cbn [orb]; [aborted Hacq |].
  destruct (is_null ses) eqn:N8; [aborted Hacq |].
  destruct (failed st9) eqn:F9; [aborted Hacq |].
  exfalso.
  apply failed_false in F1, F2, F3, F4, F5, F6, F7, F8, F9.
  assert (dev <> nullptr) by (intros E; apply is_null_true in E; congruence).
  assert (ses <> nullptr) by (intros E; apply is_null_true in E; congruence).
  assert (surface <> nullptr) by (intros E; apply is_null_true in E; congruence).
  intuition congruence.
Qed.

(** *** A concrete run *)

Example live_is_streaming :
  fst (fst (startPreview manager1 "0" 7%N None service_ok init)) = true /\
  streaming_ live = true /\ currentCameraId_ live = "0"%string /\
  holdings live =
    [CaptureSession 16%N; Device 11%N; CaptureRequest 13%N; OutputTarget 12%N;
     SessionOutput 15%N; OutputContainer 14%N; Window 7%N].
Proof. vm_compute. repeat split. Qed.

(** When no step fails, the start succeeds: the stream is streaming the
    requested camera on the given surface and holds what the service
    handed out. *)
Lemma startPreview_succeeds
    (manager : CameraManager.t) (cameraId : string) (surface : ptr)
    (statsCallback : CameraStatsCallback) (svc : CameraService) (s : t) :
  streaming_ s = false ->
  ~ step_fails manager surface svc ->
  fst (fst (startPreview manager cameraId surface statsCallback svc s)) = true /\
  streaming_ (snd (fst (startPreview manager cameraId surface statsCallback svc s)))
    = true /\
  currentCameraId_ (snd (fst (startPreview manager cameraId surface statsCallback svc s)))
    = cameraId /\
  holdings (snd (fst (startPreview manager cameraId surface statsCallback svc s))) =
    [CaptureSession (snd (createCaptureSession svc)); Device (snd (openCamera svc))]
    ++ held (CaptureRequest (snd (createCaptureRequest svc)))
    ++ held (OutputTarget (snd (outputTarget_create svc)))
    ++ held (SessionOutput (snd (sessionOutput_create svc)))
    ++ held (OutputContainer (snd (outputContainer_create svc)))
    ++ [Window surface].
Proof.
  intros St Hok. unfold step_fails in Hok.
  destruct svc as [[st1 dev] [st2 tgt] [st3 req] st4 [st5 cont] [st6 out] st7 [st8 ses] st9].
  cbn [openCamera outputTarget_create createCaptureRequest addTarget
       outputContainer_create sessionOutput_create outputContainer_add
       createCaptureSession setRepeatingRequest fst snd] in Hok |- *.
  assert (V : CameraManager.isValid manager = true)
    by (destruct (CameraManager.isValid manager); [reflexivity | tauto]).
  assert (NS : is_null surface = false)
    by (destruct (is_null surface) eqn:E; [apply is_null_true in E; tauto | reflexivity]).
  assert (ND : is_null dev = false)
    by (destruct (is_null dev) eqn:E; [apply is_null_true in E; tauto | reflexivity]).
  assert (NX : is_null ses = false)
    by (destruct (is_null ses) eqn:E; [apply is_null_true in E; tauto | reflexivity]).
  assert (F : forall st, (st <> ACAMERA_OK -> False) -> failed st = false)
    by (intros st H; unfold failed; destruct (Z.eqb_spec st ACAMERA_OK);
        [reflexivity | contradiction]).
  unfold startPreview, holdings, held.
  cbn [openCamera outputTarget_create createCaptureRequest addTarget
       outputContainer_create sessionOutput_create outputContainer_add
       createCaptureSession setRepeatingRequest].
  rewrite St, V, NS. cbn [andb negb cameraDevice_ set_cameraDevice begin_start].
  rewrite (F st1), ND by tauto. cbn [orb].
  rewrite (F st2), (F st3), (F st4), (F st5), (F st6), (F st7) by tauto.
  cbn [captureSession_ set_captureSession].
  rewrite (F st8), NX by tauto. cbn [orb].
  rewrite (F st9) by tauto.
  cbn. rewrite NS, ND, NX. repeat split.
Qed.

(** A start whose last step fails: seven resources acquired, the same
    seven released, the stream back to its initial state. *)
Example startPreview_last_step_fails :
  fst (startPreview manager1 "0" 7%N None service_refusing_request init)
    = (false, init) /\
  acquired (snd (startPreview manager1 "0" 7%N None service_refusing_request init)) =
    [Window 7%N; Device 11%N; OutputTarget 12%N; CaptureRequest 13%N;
     OutputContainer 14%N; SessionOutput 15%N; CaptureSession 16%N] /\
  freed (snd (startPreview manager1 "0" 7%N None service_refusing_request init)) =
    [CaptureSession 16%N; Device 11%N; CaptureRequest 13%N; OutputTarget 12%N;
     SessionOutput 15%N; OutputContainer 14%N; Window 7%N].
Proof. vm_compute. repeat split. Qed.

Lemma startPreview_failure_releases_witness :
  streaming_ disconnected = false /\ ~ idle disconnected /\
  (streaming_ disconnected && String.eqb (currentCameraId_ disconnected) "1")%bool
  = false /\
  step_fails manager1 8%N service_refusing_request /\
  (CameraManager.isValid manager1 = true /\ 8%N <> nullptr) /\
  fst (fst (startPreview manager1 "1" 8%N None service_refusing_request disconnected))
  = false /\
  idle (snd (fst (startPreview manager1 "1" 8%N None service_refusing_request
                    disconnected))).
Proof.
  assert (G : (streaming_ disconnected
               && String.eqb (currentCameraId_ disconnected) "1")%bool = false)
    by reflexivity.
  assert (F : step_fails manager1 8%N service_refusing_request).
  { do 12 right. vm_compute. discriminate. }
  assert (V : CameraManager.isValid manager1 = true /\ 8%N <> nullptr)
    by (split; [reflexivity | discriminate]).
  pose proof (startPreview_failure_releases manager1 "1" 8%N None
                service_refusing_request disconnected G F) as (A & _ & _ & D).
  split; [reflexivity |].
  split; [intros (H & _); vm_compute in H; discriminate |].
  split; [exact G | split; [exact F | split; [exact V | split; [exact A |]]]].
  apply D. right. right. exact V.
Defined.

(** With an invalid camera manager no start gets past the first check, so
    a stream never holds a handle: whatever has happened to it, it is idle
    and not streaming. *)
Lemma invalid_manager_stream_idle (manager : CameraManager.t) (events : list Event) :
  CameraManager.isValid manager = false ->
  Forall (fun e => match e with
                   | StartPreview m _ _ _ _ => m = manager
                   | _ => True
                   end) events ->
  idle (run events init) /\ streaming_ (run events init) = false.
Proof.
  intros V Hall.
  assert (H0 : idle init /\ streaming_ init = false) by (repeat split).
  revert H0. generalize init as s. unfold run.
  induction Hall as [| e events He _ IH]; intros s Hs; [exact Hs |].
  cbn [fold_left]. apply IH. destruct Hs as [Hi Hf].
  destruct e as [m cameraId surface statsCallback svc | | | error | now timestamp];
    cbn [handle].
  - subst m. unfold startPreview. rewrite Hf, V. cbn [andb negb fst snd]. auto.
  - unfold stopPreview. rewrite Hf. cbn [fst]. auto.
  - split; [exact Hi | reflexivity].
  - split; [exact Hi | reflexivity].
  - unfold onCaptureStarted, updateStats. cbv zeta.
    repeat match goal with
           | |- context [if ?b then _ else _] => destruct b
           end; cbn [fst]; auto.
Qed.

(** What the bridge's checks keep out: a start with a null surface on a
    stream that a disconnect notification left not streaming with its
    handles.  It returns [false] at the surface check, having acquired
    nothing, and the handles that the disconnect left behind stay. *)
Example startPreview_null_surface_after_disconnect :
  step_fails manager1 nullptr service_ok /\
  startPreview manager1 "1" nullptr None service_ok disconnected
    = (false, disconnected, []) /\
  cameraDevice_ disconnected = 11%N /\
  currentCameraId_ disconnected = "0"%string.
Proof.
  split; [right; left; reflexivity |].
  split; [reflexivity |]. split; reflexivity.
Qed.

(** C2, as stated, fails: a stream bound to window 7 that is asked to start
    the camera it is already streaming on window 8 returns [true] at once,
    makes no native call and stays bound to window 7. *)
Lemma startPreview_same_id_other_target :
  streaming_ live = true /\ currentCameraId_ live = "0"%string /\
  surface_ live = 7%N /\ 7%N <> 8%N /\
  startPreview manager1 "0" 8%N None service_ok live = (true, live, []) /\
  freed (snd (startPreview manager1 "0" 8%N None service_ok live)) <> holdings live.
Proof. vm_compute. repeat split; discriminate. Qed.

Ltac same_run :=
  cbn [fst snd]; rewrite ?app_nil_r, <- ?app_assoc; cbn [app]; reflexivity.

Lemma eqb_false_of_ne (a b : string) : a <> b -> String.eqb a b = false.
Proof. intros H. destruct (String.eqb_spec a b); [contradiction | reflexivity]. Qed.

(** C2, amended. On a stream that is streaming: a start for the camera id it
    is streaming returns [true] immediately, makes no native call and
    changes nothing, whichever output target is passed; a start for another
    camera id first runs the full clean-up, which releases every handle
    held and leaves the stream idle, and then proceeds exactly as a start on
    that idle stream. *)
Theorem startPreview_while_streaming
    (manager : CameraManager.t) (cameraId : string) (surface : ptr)
    (statsCallback : CameraStatsCallback) (svc : CameraService) (s : t) :
  streaming_ s = true ->
  (currentCameraId_ s = cameraId ->
   startPreview manager cameraId surface statsCallback svc s = (true, s, [])) /\
  (currentCameraId_ s <> cameraId ->
   freed (snd (cleanup s)) = holdings s /\
   idle (fst (cleanup s)) /\
   startPreview manager cameraId surface statsCallback svc s =
     (fst (startPreview manager cameraId surface statsCallback svc (fst (cleanup s))),
      snd (cleanup s)
      ++ snd (startPreview manager cameraId surface statsCallback svc (fst (cleanup s))))).
Proof.
  intros St. split.
  - intros E. unfold startPreview. rewrite St, E, String.eqb_refl. reflexivity.
  - intros NE. split; [apply cleanup_freed | split; [apply cleanup_idle |]].
    destruct (cleanup_idle s) as (_ & Hs & _).
    unfold startPreview. rewrite St, Hs, (eqb_false_of_ne _ _ NE). cbn [andb].
    destruct svc as [[st1 dev] [st2 tgt] [st3 req] st4 [st5 cont] [st6 out] st7 [st8 ses] st9].
    cbn [openCamera outputTarget_create createCaptureRequest addTarget
         outputContainer_create sessionOutput_create outputContainer_add
         createCaptureSession setRepeatingRequest].
    destruct (cleanup s) as [s0 tr]. cbn [fst snd].
    unfold abort.
    destruct s0 as [b0 id0 dev0 ses0 cont0 out0 tgt0 req0 sur0 cb0 fc0 df0 pv0 rt0 lt0 lc0].
    cbn [begin_start set_cameraDevice set_outputTarget set_captureRequest
         set_outputContainer set_sessionOutput set_captureSession set_streaming
         streaming_ currentCameraId_ cameraDevice_ captureSession_ outputContainer_
         sessionOutput_ outputTarget_ captureRequest_ surface_ statsCallback_
         frameCount_ droppedFrames_ prevFrameTimestampNs_ lastFrameRateHz_
         lastLatencyMs_ lastCallbackTimeNs_].
    destruct (CameraManager.isValid manager); cbn [negb]; [| same_run].
    destruct (is_null surface); [same_run |].
    destruct (failed st1); cbn [orb]; [same_run |].
    destruct (is_null dev); [same_run |].
    destruct (failed st2); [same_run |].
    destruct (failed st3); [same_run |].
    destruct (failed st4); [same_run |].
    destruct (failed st5); [same_run |].
    destruct (failed st6); [same_run |].
    destruct (failed st7); [same_run |].
    destruct (failed st8); cbn [orb]; [same_run |].
    destruct (is_null ses); [same_run |].
    destruct (failed st9); same_run.
Qed.

Lemma startPreview_while_streaming_witness :
  streaming_ live = true /\
  (currentCameraId_ live = "0"%string ->
   startPreview manager1 "0" 8%N None service_ok live = (true, live, [])).
Proof.
  assert (St : streaming_ live = true) by reflexivity.
  split; [exact St |].
  exact (proj1 (startPreview_while_streaming manager1 "0" 8%N None service_ok live St)).
Defined.

(** C3. A disconnect or error notification makes [isStreaming] false at
    once and touches no handle; [cleanup] tolerates null handles (on an idle
    stream it makes no call at all).  But the [stopPreview] that follows
    returns at its not-streaming check: it makes no native call and the
    stream keeps every handle it held. *)
Theorem stopPreview_after_disconnect (error : Z) (s : t) :
  isStreaming (onDeviceDisconnected s) = false /\
  isStreaming (onDeviceError error s) = false /\
  holdings (onDeviceDisconnected s) = holdings s /\
  stopPreview (onDeviceDisconnected s) = (onDeviceDisconnected s, []) /\
  stopPreview (onDeviceError error s) = (onDeviceError error s, []) /\
  snd (cleanup init) = [] /\
  holdings (fst (stopPreview disconnected)) =
    [CaptureSession 16%N; Device 11%N; CaptureRequest 13%N; OutputTarget 12%N;
     SessionOutput 15%N; OutputContainer 14%N; Window 7%N].
Proof. repeat split. Qed.

(** C7. [stopPreview] on a stream that is not streaming makes no native
    call and returns the stream unchanged; hence the second of two
    consecutive calls does nothing. *)
Theorem stopPreview_idempotent (s : t) :
  (streaming_ s = false -> stopPreview s = (s, [])) /\
  stopPreview (fst (stopPreview s)) = (fst (stopPreview s), []).
Proof.
  assert (H : forall u, streaming_ u = false -> stopPreview u = (u, [])).
  { intros u E. unfold stopPreview. rewrite E. reflexivity. }
  split; [apply H |]. apply H. unfold stopPreview.
  destruct (streaming_ s) eqn:E; cbn [negb fst]; [apply cleanup_idle | exact E].
Qed.

Lemma stopPreview_idempotent_witness :
  streaming_ disconnected = false /\ stopPreview disconnected = (disconnected, []).
Proof.
  assert (E : streaming_ disconnected = false) by reflexivity.
  split; [exact E | exact (proj1 (stopPreview_idempotent disconnected) E)].
Defined.


(** *** Frame statistics *)

(** C8, as stated, fails: a notification whose timestamp is 0 arrives 5 ms
    later on the clock; the clock exceeds the timestamp, yet the stored
    latency stays at its previous value instead of becoming 5 ms. *)
Lemma updateStats_zero_timestamp :
  (5000000 >? 0) = true /\
  lastLatencyMs_ (fst (updateStats 5000000 0 live)) = IEEE.zero /\
  IEEE.float_of_double
    (IEEE.double_div (IEEE.double_of_int (5000000 - 0)) IEEE.kNsToMs)
    = S754_finite false 10485760 (-21) /\
  lastLatencyMs_ (fst (updateStats 5000000 0 live))
    <> IEEE.float_of_double
         (IEEE.double_div (IEEE.double_of_int (5000000 - 0)) IEEE.kNsToMs).
Proof. vm_compute. repeat split; discriminate. Qed.

(** A 30 Hz stream: frames 33 333 333 ns apart, delivered 5 ms late. *)
Example updateStats_30Hz :
  let s1 := fst (updateStats 1005000000 1000000000 live) in
  let s2 := fst (updateStats 1038333333 1033333333 s1) in
  lastFrameRateHz_ s1 = IEEE.zero /\
  lastFrameRateHz_ s2 = S754_finite false 15728640 (-19) /\
  lastLatencyMs_ s2 = S754_finite false 10485760 (-21) /\
  frameCount_ s2 = 2.
Proof. vm_compute. repeat split. Qed.

(** C8, amended. On a capture-start notification with timestamp [t] at
    clock reading [now] (64-bit values): the frame counter goes up by
    exactly one (below the [int64] maximum); the previous timestamp becomes
    [t]; the stored frame rate becomes the reciprocal of [t - prev] seconds
    when the previous timestamp is positive and [t] is greater, and is
    otherwise left as it was, so the first notification after a (re)start
    stores no rate; the stored latency becomes [now - t] milliseconds when
    [t] is positive and [now] is greater, and is otherwise left as it was.
    Both values depend on this notification only: they are last-observed
    values, not averages. *)
Theorem updateStats_last_observed (now timestampNs : Z) (s : t) :
  Int.in_int64 now -> Int.in_int64 timestampNs ->
  Int.in_int64 (prevFrameTimestampNs_ s) -> Int.in_int64 (frameCount_ s) ->
  (frameCount_ s < Int.INT64_MAX ->
   frameCount_ (fst (updateStats now timestampNs s)) = frameCount_ s + 1) /\
  prevFrameTimestampNs_ (fst (updateStats now timestampNs s)) = timestampNs /\
  (0 < prevFrameTimestampNs_ s -> prevFrameTimestampNs_ s < timestampNs ->
   lastFrameRateHz_ (fst (updateStats now timestampNs s)) =
     IEEE.float_of_double
       (IEEE.double_div (IEEE.double_of_int 1)
          (IEEE.double_div
             (IEEE.double_of_int (timestampNs - prevFrameTimestampNs_ s))
             (IEEE.double_of_int 1000000000)))) /\
  (prevFrameTimestampNs_ s <= 0 \/ timestampNs <= prevFrameTimestampNs_ s ->
   lastFrameRateHz_ (fst (updateStats now timestampNs s)) = lastFrameRateHz_ s) /\
  (forall cameraId surface callback,
   lastFrameRateHz_
     (fst (updateStats now timestampNs (begin_start cameraId surface callback s)))
     = IEEE.zero) /\
  (0 < timestampNs -> timestampNs < now ->
   lastLatencyMs_ (fst (updateStats now timestampNs s)) =
     IEEE.float_of_double
       (IEEE.double_div (IEEE.double_of_int (now - timestampNs))
                        (IEEE.double_of_int 1000000))) /\
  (timestampNs <= 0 \/ now <= timestampNs ->
   lastLatencyMs_ (fst (updateStats now timestampNs s)) = lastLatencyMs_ s).
Proof.
  intros Hnow Ht Hprev Hfc.
  apply (proj1 (in_int64_bounds _)) in Hnow. apply (proj1 (in_int64_bounds _)) in Ht.
  apply (proj1 (in_int64_bounds _)) in Hprev. apply (proj1 (in_int64_bounds _)) in Hfc.
  unfold updateStats.
  cbn [fst frameCount_ prevFrameTimestampNs_ lastFrameRateHz_ lastLatencyMs_].
  split; [| split; [reflexivity | split; [| split; [| split; [| split]]]]].
  - intros Hmax. unfold Int.INT64_MAX in Hmax.
    change (2 ^ 63) with 9223372036854775808 in Hmax.
    apply int64_in_range, in_int64_bounds. lia.
  - intros H1 H2.
    destruct (Z.gtb_spec (prevFrameTimestampNs_ s) 0); [| lia].
    destruct (Z.gtb_spec timestampNs (prevFrameTimestampNs_ s)); [| lia].
    cbn [andb]. rewrite int64_in_range by (apply in_int64_bounds; lia).
    reflexivity.
  - intros H.
    destruct (Z.gtb_spec (prevFrameTimestampNs_ s) 0);
      destruct (Z.gtb_spec timestampNs (prevFrameTimestampNs_ s));
      cbn [andb]; try reflexivity; lia.
  - intros cameraId surface callback. reflexivity.
  - intros H1 H2.
    destruct (Z.gtb_spec timestampNs 0); [| lia].
    destruct (Z.gtb_spec now timestampNs); [| lia].
    cbn [andb]. rewrite int64_in_range by (apply in_int64_bounds; lia).
    reflexivity.
  - intros H.
    destruct (Z.gtb_spec timestampNs 0); destruct (Z.gtb_spec now timestampNs);
      cbn [andb]; try reflexivity; lia.
Qed.

Lemma updateStats_last_observed_witness :
  Int.in_int64 1038333333 /\ Int.in_int64 1033333333 /\
  lastLatencyMs_ (fst (updateStats 1038333333 1033333333
                         (fst (updateStats 1005000000 1000000000 live))))
    = IEEE.float_of_double
        (IEEE.double_div (IEEE.double_of_int (1038333333 - 1033333333))
                         (IEEE.double_of_int 1000000)).
Proof.
  assert (A : Int.in_int64 1038333333) by (apply in_int64_bounds; lia).
  assert (B : Int.in_int64 1033333333) by (apply in_int64_bounds; lia).
  assert (C : Int.in_int64
                (prevFrameTimestampNs_ (fst (updateStats 1005000000 1000000000 live))))
    by (apply in_int64_bounds; vm_compute; split; [discriminate | reflexivity]).
  assert (D : Int.in_int64
                (frameCount_ (fst (updateStats 1005000000 1000000000 live))))
    by (apply in_int64_bounds; vm_compute; split; [discriminate | reflexivity]).
  split; [exact A | split; [exact B |]].
  pose proof (updateStats_last_observed 1038333333 1033333333
                (fst (updateStats 1005000000 1000000000 live)) A B C D)
    as (_ & _ & _ & _ & _ & L & _).
  apply L; lia.
Defined.

End CameraStreamFacts.

(** ** IEEE-754 facts used by the statistics *)

Section IEEEFacts.
Local Open Scope Z_scope.

Lemma binary_round_aux_signed (prec emax : Z) (s : bool) (m e : Z) (l : location) :
  signed s (binary_round_aux prec emax s m e l).
Proof.
  unfold binary_round_aux.
  destruct (shr_fexp prec emax m e l) as [mrs' e'].
  destruct (shr_fexp prec emax _ e' loc_Exact) as [mrs'' e''].
  destruct (shr_m mrs''); cbn; [reflexivity | | exact I].
  destruct (e'' <=? emax - prec); reflexivity.
Qed.

Lemma binary_round_signed (prec emax : Z) (s : bool) (m : positive) (e : Z) :
  signed s (binary_round prec emax s m e).
Proof.
  unfold binary_round. destruct (shl_align _ _ _) as [mz ez].
  apply binary_round_aux_signed.
Qed.

Lemma double_of_int_neg_signed (z : Z) : z < 0 -> signed true (IEEE.double_of_int z).
Proof.
  intros H. destruct z as [| p | p]; try lia.
  unfold IEEE.double_of_int, binary_normalize. apply binary_round_signed.
Qed.

Lemma double_div_signed (s : bool) (x : spec_float) (m : positive) (e : Z) :
  signed s x -> signed s (IEEE.double_div x (S754_finite false m e)).
Proof.
  unfold IEEE.double_div, SFdiv. destruct x as [s' | s' | | s' mx ex]; cbn [signed]; intros H.
  - subst. destruct s; reflexivity.
  - subst. destruct s; reflexivity.
  - exact I.
  - subst. destruct (SFdiv_core_binary _ _ _ _ _ _) as [[mz ez] lz].
    replace (xorb s false) with s by (destruct s; reflexivity).
    apply binary_round_aux_signed.
Qed.

Lemma not_gt_zero_of_negative (x : spec_float) :
  signed true x -> IEEE.double_gt x IEEE.zero = false.
Proof.
  unfold IEEE.double_gt, IEEE.zero, SFltb, SFcompare.
  destruct x as [s | s | | s m e]; cbn [signed]; intros H; subst; reflexivity.
Qed.

Lemma one_billion : IEEE.double_of_int IEEE.kNsPerSecond = S754_finite false 8388608000000000 (-23).
Proof. vm_compute. reflexivity. Qed.

(** The guard [dtSeconds > 0.0] fails when the elapsed time is not positive. *)
Lemma elapsed_nonpositive (d : Z) :
  d <= 0 ->
  IEEE.double_gt
    (IEEE.double_div (IEEE.double_of_int d) (IEEE.double_of_int IEEE.kNsPerSecond))
    IEEE.zero = false.
Proof.
  intros H. rewrite one_billion.
  destruct (Z.eq_dec d 0) as [-> | N]; [vm_compute; reflexivity |].
  apply not_gt_zero_of_negative, double_div_signed, double_of_int_neg_signed. lia.
Qed.

(** Past the guard, a count of zero gives a rate of zero. *)
Lemma zero_count_rate (dt : spec_float) :
  IEEE.double_gt dt IEEE.zero = true ->
  IEEE.float_of_double (IEEE.double_div (IEEE.double_of_int 0) dt) = IEEE.zero.
Proof.
  unfold IEEE.double_gt, IEEE.zero, SFltb, SFcompare.
  destruct dt as [s | [|] | | [|] m e]; intros H; try discriminate; reflexivity.
Qed.


(** *** Positive results *)

Lemma digits2_pos_bounds (p : positive) :
  2 ^ (Zpos (digits2_pos p) - 1) <= Zpos p < 2 ^ Zpos (digits2_pos p).
Proof.
  induction p as [p IH | p IH |]; cbn [digits2_pos].
  - rewrite Pos2Z.inj_succ.
    replace (Z.succ (Zpos (digits2_pos p)) - 1) with (Z.succ (Zpos (digits2_pos p) - 1)) by lia.
    rewrite !Z.pow_succ_r by lia. lia.
  - rewrite Pos2Z.inj_succ.
    replace (Z.succ (Zpos (digits2_pos p)) - 1) with (Z.succ (Zpos (digits2_pos p) - 1)) by lia.
    rewrite !Z.pow_succ_r by lia. lia.
  - cbn. lia.
Qed.

Lemma shr_1_m (mrs : shr_record) :
  0 <= shr_m mrs -> shr_m (shr_1 mrs) = shr_m mrs / 2.
Proof.
  destruct mrs as [m r s]. cbn [shr_m shr_1]. intros H.
  rewrite <- Z.div2_div.
  destruct m as [| [p | p |] | p]; try reflexivity; lia.
Qed.

Lemma pow2_xO (n : positive) : 2 ^ Zpos n~0 = 2 ^ Zpos n * 2 ^ Zpos n.
Proof. rewrite Pos2Z.inj_xO, <- Z.pow_add_r by lia. f_equal. lia. Qed.

Lemma pow2_xI (n : positive) : 2 ^ Zpos n~1 = 2 * (2 ^ Zpos n * 2 ^ Zpos n).
Proof.
  rewrite Pos2Z.inj_xI, <- Z.pow_add_r by lia.
  replace (2 * Zpos n + 1) with (Z.succ (Zpos n + Zpos n)) by lia.
  rewrite Z.pow_succ_r by lia. reflexivity.
Qed.

Lemma iter_shr_1_m (n : positive) (mrs : shr_record) :
  0 <= shr_m mrs -> shr_m (SpecFloat.iter_pos shr_1 n mrs) = shr_m mrs / 2 ^ Zpos n.
Proof.
  revert mrs. induction n as [n IH | n IH |]; intros mrs H; cbn [SpecFloat.iter_pos].
  - assert (Hp : 0 < 2 ^ Zpos n) by (apply Z.pow_pos_nonneg; lia).
    assert (H1 : 0 <= shr_m (shr_1 mrs)) by (rewrite shr_1_m by lia; apply Z.div_pos; lia).
    assert (H2 : 0 <= shr_m (SpecFloat.iter_pos shr_1 n (shr_1 mrs)))
      by (rewrite IH by lia; apply Z.div_pos; lia).
    rewrite IH by lia. rewrite IH by lia. rewrite shr_1_m by lia.
    rewrite !Z.div_div by lia. rewrite pow2_xI. reflexivity.
  - assert (Hp : 0 < 2 ^ Zpos n) by (apply Z.pow_pos_nonneg; lia).
    assert (H2 : 0 <= shr_m (SpecFloat.iter_pos shr_1 n mrs))
      by (rewrite IH by lia; apply Z.div_pos; lia).
    rewrite IH by lia. rewrite IH by lia.
    rewrite !Z.div_div by lia. rewrite pow2_xO. reflexivity.
  - rewrite shr_1_m by lia. reflexivity.
Qed.

Lemma shr_record_of_loc_m (m : Z) (l : location) : shr_m (shr_record_of_loc m l) = m.
Proof. destruct l as [| []]; reflexivity. Qed.

Section Format.
Variables prec emax : Z.
Hypothesis Hprec : 1 <= prec.

(** Shifting a positive mantissa to its format exponent keeps it positive,
    short of underflow. *)
Lemma shr_fexp_pos (m e : Z) (l : location) :
  0 < m -> emin prec emax <= e ->
  0 < shr_m (fst (shr_fexp prec emax m e l)) /\ e <= snd (shr_fexp prec emax m e l).
Proof using Hprec.
  intros Hm He. unfold shr_fexp, shr.
  destruct m as [| p | p]; try lia. cbn [Zdigits2].
  pose proof (digits2_pos_bounds p) as Hd.
  set (d := Zpos (digits2_pos p)) in *.
  assert (Hn : fexp prec emax (d + e) - e <= d - 1) by (unfold fexp; lia).
  destruct (fexp prec emax (d + e) - e) as [| n | n] eqn:En; cbn [fst snd].
  - rewrite shr_record_of_loc_m. lia.
  - rewrite iter_shr_1_m by (rewrite shr_record_of_loc_m; lia).
    rewrite shr_record_of_loc_m. split; [| lia].
    apply Z.div_str_pos. split; [apply Z.pow_pos_nonneg; lia |].
    apply Z.le_trans with (2 ^ (d - 1)); [apply Z.pow_le_mono_r; lia | lia].
  - rewrite shr_record_of_loc_m. lia.
Qed.

Lemma round_nearest_even_pos (m : Z) (l : location) : 0 < m -> 0 < round_nearest_even m l.
Proof.
  intros H. unfold round_nearest_even.
  destruct l as [| []]; try lia. destruct (Z.even m); lia.
Qed.

Lemma binary_round_aux_pos (s : bool) (m e : Z) (l : location) :
  0 < m -> emin prec emax <= e -> above s e (binary_round_aux prec emax s m e l).
Proof using Hprec.
  intros Hm He. unfold binary_round_aux.
  pose proof (shr_fexp_pos m e l Hm He) as H1.
  destruct (shr_fexp prec emax m e l) as [mrs' e']. cbn [fst snd] in H1.
  destruct H1 as [H1m H1e].
  pose proof (round_nearest_even_pos (shr_m mrs') (loc_of_shr_record mrs') H1m) as Hr.
  pose proof (shr_fexp_pos _ e' loc_Exact Hr ltac:(lia)) as H2.
  destruct (shr_fexp prec emax _ e' loc_Exact) as [mrs'' e'']. cbn [fst snd] in H2.
  destruct H2 as [H2m H2e].
  destruct (shr_m mrs'') as [| q | q]; try lia.
  destruct (e'' <=? emax - prec); cbn [above]; [split; [reflexivity | lia] | reflexivity].
Qed.

End Format.

Lemma above_weaken (s : bool) (e e0 : Z) (x : spec_float) :
  above s e x -> e0 <= e -> above s e0 x.
Proof. destruct x; cbn [above]; intros H L; try tauto. split; [tauto | lia]. Qed.

Lemma double_of_int_pos (z : Z) : 0 < z -> above false (-52) (IEEE.double_of_int z).
Proof.
  intros H. destruct z as [| p | p]; try lia.
  unfold IEEE.double_of_int, binary_normalize, binary_round, shl_align.
  pose proof (digits2_pos_bounds p) as Hd.
  set (d := Zpos (digits2_pos p)) in *.
  assert (Hf : -52 <= fexp 53 1024 (d + 0)) by (unfold fexp, emin; lia).
  assert (Hmin : emin 53 1024 = -1074) by reflexivity.
  destruct (fexp 53 1024 (d + 0) - 0) as [| n | n] eqn:En.
  - apply above_weaken with (e := 0); [apply binary_round_aux_pos |]; lia.
  - apply above_weaken with (e := 0); [apply binary_round_aux_pos |]; lia.
  - apply above_weaken with (e := fexp 53 1024 (d + 0)); [apply binary_round_aux_pos |]; lia.
Qed.

Lemma gt_zero_of_above (e : Z) (x : spec_float) :
  above false e x -> IEEE.double_gt x IEEE.zero = true.
Proof.
  unfold IEEE.double_gt, IEEE.zero, SFltb, SFcompare.
  destruct x as [s | s | | s m e']; cbn [above]; intros H; try tauto; subst; try reflexivity.
  destruct H as [-> _]. reflexivity.
Qed.

(** The guard [dtSeconds > 0.0] holds when the elapsed time is positive. *)
Lemma elapsed_positive (d : Z) :
  0 < d ->
  IEEE.double_gt
    (IEEE.double_div (IEEE.double_of_int d) (IEEE.double_of_int IEEE.kNsPerSecond))
    IEEE.zero = true.
Proof.
  intros H. rewrite one_billion.
  pose proof (double_of_int_pos d H) as Hx.
  destruct (IEEE.double_of_int d) as [s | s | | s mx ex]; cbn [above] in Hx; try tauto.
  - subst. reflexivity.
  - destruct Hx as [-> Hex].
    apply gt_zero_of_above with (e := emin 53 1024).
    unfold IEEE.double_div, SFdiv, SFdiv_core_binary.
    cbn [Zdigits2].
    pose proof (digits2_pos_bounds mx) as Hd.
    set (d1 := Zpos (digits2_pos mx)) in *.
    change (Zpos (digits2_pos 8388608000000000)) with 53.
    assert (Hmin : emin 53 1024 = -1074) by reflexivity.
    set (e' := Z.min (fexp 53 1024 (d1 + ex - (53 + -23))) (ex - -23)).
    assert (He' : emin 53 1024 <= e' /\ e' <= ex + 23 /\ e' <= d1 + ex - 83)
      by (unfold e', fexp; lia).
    set (sh := ex - -23 - e') in *.
    set (m' := match sh with Z0 => Zpos mx | Zpos _ => Z.shiftl (Zpos mx) sh | Zneg _ => 0 end).
    assert (Hm' : 2 ^ 53 <= m').
    { assert (Hsh : 0 <= sh /\ 105 <= d1 - 1 + sh) by (unfold sh; lia).
      assert (Hm : m' = Zpos mx * 2 ^ sh).
      { unfold m'. destruct sh as [| q | q]; [lia | | lia].
        rewrite Z.shiftl_mul_pow2 by lia. reflexivity. }
      rewrite Hm.
      apply Z.le_trans with (2 ^ (d1 - 1) * 2 ^ sh).
      - rewrite <- Z.pow_add_r by lia. apply Z.pow_le_mono_r; lia.
      - apply Z.mul_le_mono_nonneg_r; [apply Z.pow_nonneg; lia | lia]. }
    pose proof (Z.div_eucl_eq m' 8388608000000000 ltac:(lia)) as Hq.
    pose proof (Z.mod_pos_bound m' 8388608000000000 ltac:(lia)) as Hr.
    unfold Z.modulo in Hr.
    destruct (Z.div_eucl m' 8388608000000000) as [q r].
    change (2 ^ 53) with 9007199254740992 in Hm'.
    apply above_weaken with (e := e'); [| lia].
    apply binary_round_aux_pos; [lia | nia | lia].
Qed.

End IEEEFacts.

(** ** The inertial engine *)

Section ImuManagerFacts.
Import ImuManager.
Local Open Scope Z_scope.

Lemma wrap_add_l (bits a b : Z) :
  0 < bits -> Int.wrap bits (Int.wrap bits a + b) = Int.wrap bits (a + b).
Proof.
  intros H. unfold Int.wrap. f_equal.
  replace ((a + 2 ^ (bits - 1)) mod 2 ^ bits - 2 ^ (bits - 1) + b + 2 ^ (bits - 1))
    with ((a + 2 ^ (bits - 1)) mod 2 ^ bits + b) by lia.
  rewrite Zplus_mod_idemp_l. f_equal. lia.
Qed.

Lemma int32_range (z : Z) : Int.in_int32 (Int.int32 z).
Proof.
  unfold Int.in_int32, Int.int32, Int.wrap.
  change (2 ^ (32 - 1)) with 2147483648. change (2 ^ 31) with 2147483648.
  change (2 ^ 32) with 4294967296.
  pose proof (Z.mod_pos_bound (z + 2147483648) 4294967296). lia.
Qed.

Lemma int64_range (z : Z) : Int.in_int64 (Int.int64 z).
Proof.
  unfold Int.in_int64, Int.int64, Int.wrap.
  change (2 ^ (64 - 1)) with 9223372036854775808.
  change (2 ^ 63) with 9223372036854775808.
  change (2 ^ 64) with 18446744073709551616.
  pose proof (Z.mod_pos_bound (z + 9223372036854775808) 18446744073709551616). lia.
Qed.

Lemma latencySum_cons (now : Z) (ev : ASensorEvent) (rest : list ASensorEvent) :
  latencySum now (ev :: rest) = Int.int64 (now - event_timestamp ev) + latencySum now rest.
Proof. reflexivity. Qed.

Lemma length_cons_Z (ev : ASensorEvent) (rest : list ASensorEvent) :
  Z.of_nat (length (ev :: rest)) = 1 + Z.of_nat (length rest).
Proof. cbn [length]. lia. Qed.

Lemma drainEvents_cons (now : Z) (ev : ASensorEvent) (rest : list ASensorEvent) (s : t) :
  fst (drainEvents now (ev :: rest) s)
  = fst (drainEvents now rest (fst (drainEvent now ev s))).
Proof.
  cbn [drainEvents]. destruct (drainEvent now ev s) as [s1 o1].
  cbn [fst]. destruct (drainEvents now rest s1) as [s2 o2]. reflexivity.
Qed.

Lemma drainEvents_accumulates (now : Z) (events : list ASensorEvent) (s : t) :
  stats_in_range (stats_ s) ->
  stats_ (fst (drainEvents now events s)) =
    {| statsWindowStart_ := statsWindowStart_ (stats_ s);
       accelCount_ :=
         Int.int32 (accelCount_ (stats_ s) + Z.of_nat (length (accelEvents s events)));
       gyroCount_ :=
         Int.int32 (gyroCount_ (stats_ s) + Z.of_nat (length (gyroEvents s events)));
       accelLatencyTotal_ :=
         Int.int64 (accelLatencyTotal_ (stats_ s) + latencySum now (accelEvents s events));
       gyroLatencyTotal_ :=
         Int.int64 (gyroLatencyTotal_ (stats_ s) + latencySum now (gyroEvents s events)) |}.
Proof.
  revert s. induction events as [| ev rest IH]; intros s (Hw & Hac & Hgc & Hat & Hgt).
  - cbn. rewrite !Z.add_0_r.
    rewrite !int32_in_range, !int64_in_range by assumption.
    destruct (stats_ s); reflexivity.
  - rewrite drainEvents_cons.
    unfold accelEvents, gyroEvents. cbn [List.filter].
    unfold drainEvent.
    destruct (hasType (currentAccel_ s) (event_type ev)) eqn:A; cbn [negb andb].
    + rewrite IH by (unfold stats_in_range; cbn; auto 10 using int32_range, int64_range).
      unfold accelEvents, gyroEvents.
      cbn [fst stats_ currentAccel_ currentGyro_ statsWindowStart_ accelCount_
           gyroCount_ accelLatencyTotal_ gyroLatencyTotal_].
      rewrite latencySum_cons, length_cons_Z.
      unfold Int.int32, Int.int64. rewrite !wrap_add_l by lia.
      f_equal; try reflexivity; apply f_equal; lia.
    + destruct (hasType (currentGyro_ s) (event_type ev)) eqn:G.
      * rewrite IH by (unfold stats_in_range; cbn; auto 10 using int32_range, int64_range).
        unfold accelEvents, gyroEvents.
        cbn [fst stats_ currentAccel_ currentGyro_ statsWindowStart_ accelCount_
             gyroCount_ accelLatencyTotal_ gyroLatencyTotal_].
        rewrite latencySum_cons, length_cons_Z.
        unfold Int.int32, Int.int64. rewrite !wrap_add_l by lia.
        f_equal; try reflexivity; apply f_equal; lia.
      * cbn [fst]. apply IH. exact (conj Hw (conj Hac (conj Hgc (conj Hat Hgt)))).
Qed.


(** *** Statistics reads *)

(** C4, as stated, fails: of two consecutive reads with no event delivered
    in between, the first reports the five events of its window at 5 Hz;
    only the second reports zero. *)
Lemma getStats_first_read_nonzero :
  accelFrequencyHz (fst (getStats 1000000000 sampled))
    = S754_finite false 10485760 (-21) /\
  accelFrequencyHz (fst (getStats 1000000000 sampled)) <> IEEE.zero /\
  fst (getStats 2000000000 (snd (getStats 1000000000 sampled))) = zeroStats.
Proof. vm_compute. repeat split; discriminate. Qed.

Lemma getStats_second_read (now now2 : Z) (s : t) :
  fst (getStats now2 (snd (getStats now s))) = zeroStats.
Proof.
  unfold getStats at 1. cbn [fst snd getStats with_stats stats_ resetWindow
    statsWindowStart_ accelCount_ gyroCount_ accelLatencyTotal_ gyroLatencyTotal_].
  change (0 >? 0) with false. cbv iota.
  destruct (IEEE.double_gt _ IEEE.zero) eqn:G; [| reflexivity].
  rewrite (zero_count_rate _ G). reflexivity.
Qed.

(** C4, amended. [getStats] read at clock value [now] (the elapsed time
    fitting [int64]): each rate is 0 when the elapsed time since the window
    start is zero or negative and otherwise the event count divided by the
    elapsed seconds; each mean latency is 0 when the channel counted no
    event and otherwise the latency total divided by the count, in
    milliseconds; the window is then reset, starting at [now] with all
    counts and totals zero.  Events drained afterwards are counted per
    channel and their [now - timestamp] summed.  Of two consecutive reads
    with no event in between, the second returns zero rates and latencies
    and finds the window started at the first read's clock value; the first
    returns a zero rate for a channel whose window counted no event. *)
Theorem getStats_consuming_read (now : Z) (s : t) :
  Int.in_int64 now ->
  Int.in_int64 (now - statsWindowStart_ (stats_ s)) ->
  (now - statsWindowStart_ (stats_ s) <= 0 ->
   accelFrequencyHz (fst (getStats now s)) = IEEE.zero /\
   gyroFrequencyHz (fst (getStats now s)) = IEEE.zero) /\
  (0 < now - statsWindowStart_ (stats_ s) ->
   accelFrequencyHz (fst (getStats now s)) =
     IEEE.float_of_double
       (IEEE.double_div (IEEE.double_of_int (accelCount_ (stats_ s)))
          (IEEE.double_div (IEEE.double_of_int (now - statsWindowStart_ (stats_ s)))
                           (IEEE.double_of_int 1000000000))) /\
   gyroFrequencyHz (fst (getStats now s)) =
     IEEE.float_of_double
       (IEEE.double_div (IEEE.double_of_int (gyroCount_ (stats_ s)))
          (IEEE.double_div (IEEE.double_of_int (now - statsWindowStart_ (stats_ s)))
                           (IEEE.double_of_int 1000000000)))) /\
  (accelCount_ (stats_ s) = 0 ->
   accelFrequencyHz (fst (getStats now s)) = IEEE.zero) /\
  (gyroCount_ (stats_ s) = 0 ->
   gyroFrequencyHz (fst (getStats now s)) = IEEE.zero) /\
  (accelCount_ (stats_ s) <= 0 -> accelLatencyMs (fst (getStats now s)) = IEEE.zero) /\
  (0 < accelCount_ (stats_ s) ->
   accelLatencyMs (fst (getStats now s)) =
     IEEE.float_of_double
       (IEEE.double_div
          (IEEE.double_div (IEEE.double_of_int (accelLatencyTotal_ (stats_ s)))
                           (IEEE.double_of_int (accelCount_ (stats_ s))))
          (IEEE.double_of_int 1000000))) /\
  (gyroCount_ (stats_ s) <= 0 -> gyroLatencyMs (fst (getStats now s)) = IEEE.zero) /\
  (0 < gyroCount_ (stats_ s) ->
   gyroLatencyMs (fst (getStats now s)) =
     IEEE.float_of_double
       (IEEE.double_div
          (IEEE.double_div (IEEE.double_of_int (gyroLatencyTotal_ (stats_ s)))
                           (IEEE.double_of_int (gyroCount_ (stats_ s))))
          (IEEE.double_of_int 1000000))) /\
  snd (getStats now s) = with_stats (resetWindow now) s /\
  stats_ (snd (getStats now s)) =
    {| statsWindowStart_ := now; accelCount_ := 0; gyroCount_ := 0;
       accelLatencyTotal_ := 0; gyroLatencyTotal_ := 0 |} /\
  (forall nowd events,
   stats_ (fst (drainEvents nowd events (snd (getStats now s)))) =
     {| statsWindowStart_ := now;
        accelCount_ := Int.int32 (Z.of_nat (length (accelEvents s events)));
        gyroCount_ := Int.int32 (Z.of_nat (length (gyroEvents s events)));
        accelLatencyTotal_ := Int.int64 (latencySum nowd (accelEvents s events));
        gyroLatencyTotal_ := Int.int64 (latencySum nowd (gyroEvents s events)) |}) /\
  (forall now2,
   fst (getStats now2 (snd (getStats now s))) = zeroStats /\
   statsWindowStart_ (stats_ (snd (getStats now s))) = now).
Proof.
  intros Hnow Hd.
  assert (Hrate : forall count,
    (now - statsWindowStart_ (stats_ s) <= 0 ->
     (if IEEE.double_gt
           (IEEE.double_div
              (IEEE.double_of_int (Int.int64 (now - statsWindowStart_ (stats_ s))))
              (IEEE.double_of_int IEEE.kNsPerSecond)) IEEE.zero
      then IEEE.float_of_double
             (IEEE.double_div (IEEE.double_of_int count)
                (IEEE.double_div
                   (IEEE.double_of_int (Int.int64 (now - statsWindowStart_ (stats_ s))))
                   (IEEE.double_of_int IEEE.kNsPerSecond)))
      else IEEE.zero) = IEEE.zero) /\
    (0 < now - statsWindowStart_ (stats_ s) ->
     (if IEEE.double_gt
           (IEEE.double_div
              (IEEE.double_of_int (Int.int64 (now - statsWindowStart_ (stats_ s))))
              (IEEE.double_of_int IEEE.kNsPerSecond)) IEEE.zero
      then IEEE.float_of_double
             (IEEE.double_div (IEEE.double_of_int count)
                (IEEE.double_div
                   (IEEE.double_of_int (Int.int64 (now - statsWindowStart_ (stats_ s))))
                   (IEEE.double_of_int IEEE.kNsPerSecond)))
      else IEEE.zero) =
     IEEE.float_of_double
       (IEEE.double_div (IEEE.double_of_int count)
          (IEEE.double_div (IEEE.double_of_int (now - statsWindowStart_ (stats_ s)))
                           (IEEE.double_of_int 1000000000))))).
  { intros count. rewrite (int64_in_range _ Hd). split; intros H.
    - rewrite (elapsed_nonpositive _ H). reflexivity.
    - rewrite (elapsed_positive _ H). reflexivity. }
  assert (Hlat : forall total count,
    (count <= 0 ->
     (if count >? 0
      then IEEE.float_of_double
             (IEEE.double_div
                (IEEE.double_div (IEEE.double_of_int total) (IEEE.double_of_int count))
                IEEE.kNsToMs)
      else IEEE.zero) = IEEE.zero) /\
    (0 < count ->
     (if count >? 0
      then IEEE.float_of_double
             (IEEE.double_div
                (IEEE.double_div (IEEE.double_of_int total) (IEEE.double_of_int count))
                IEEE.kNsToMs)
      else IEEE.zero) =
     IEEE.float_of_double
       (IEEE.double_div
          (IEEE.double_div (IEEE.double_of_int total) (IEEE.double_of_int count))
          (IEEE.double_of_int 1000000)))).
  { intros total count. destruct (Z.gtb_spec count 0) as [P | P]; split; intros H;
      try reflexivity; lia. }
  assert (Hzero : forall dt,
    (if IEEE.double_gt dt IEEE.zero
     then IEEE.float_of_double (IEEE.double_div (IEEE.double_of_int 0) dt)
     else IEEE.zero) = IEEE.zero).
  { intros dt. destruct (IEEE.double_gt dt IEEE.zero) eqn:G; [| reflexivity].
    apply zero_count_rate, G. }
  unfold getStats at 1 2 3 4 5 6 7 8 9 10 11 12.
  cbn [fst snd accelFrequencyHz gyroFrequencyHz accelLatencyMs gyroLatencyMs].
  split; [intros H; split; apply Hrate, H |].
  split; [intros H; split; apply Hrate, H |].
  split; [intros H; rewrite H; apply Hzero |].
  split; [intros H; rewrite H; apply Hzero |].
  split; [apply Hlat |]. split; [apply Hlat |].
  split; [apply Hlat |]. split; [apply Hlat |].
  split; [reflexivity |]. split; [reflexivity |].
  split.
  - intros nowd events.
    rewrite drainEvents_accumulates
      by (unfold getStats, stats_in_range; cbn;
          repeat (split; [first [assumption | apply (proj2 (in_int64_bounds _)); lia
                                | apply (proj2 (in_int32_bounds _)); lia] |]);
          apply (proj2 (in_int64_bounds _)); lia).
    reflexivity.
  - intros now2. split; [apply getStats_second_read | reflexivity].
Qed.


Lemma getStats_consuming_read_witness :
  Int.in_int64 1000000000 /\
  Int.in_int64 (1000000000 - statsWindowStart_ (stats_ sampled)) /\
  accelFrequencyHz (fst (getStats 1000000000 sampled)) =
    IEEE.float_of_double
      (IEEE.double_div (IEEE.double_of_int (accelCount_ (stats_ sampled)))
         (IEEE.double_div
            (IEEE.double_of_int (1000000000 - statsWindowStart_ (stats_ sampled)))
            (IEEE.double_of_int 1000000000))) /\
  fst (getStats 2000000000 (snd (getStats 1000000000 sampled))) = zeroStats.
Proof.
  assert (A : Int.in_int64 1000000000) by (apply in_int64_bounds; lia).
  assert (B : Int.in_int64 (1000000000 - statsWindowStart_ (stats_ sampled)))
    by (apply in_int64_bounds; vm_compute; split; [discriminate | reflexivity]).
  pose proof (getStats_consuming_read 1000000000 sampled A B)
    as (_ & R & _ & _ & _ & _ & _ & _ & _ & _ & _ & Z2).
  split; [exact A | split; [exact B | split]].
  - apply R. vm_compute. reflexivity.
  - apply (Z2 2000000000).
Defined.

(** *** start, stop, switchSensors *)

(** C5. [start] on a running engine returns it unchanged: the statistics
    window keeps its start and its counters.  [start] on an engine that is
    not running and has a sensor manager makes it running, stores the
    callback, spawns the worker and resets the window: it starts at [now]
    and all counts and latency totals are zero.  [stop] leaves the window as
    it is. *)
Theorem start_resets_window_unless_running
    (p : Platform) (now : Z) (callback : ImuCallback) (s : t) :
  (running_ s = true -> start now callback s = s) /\
  (running_ s = false -> sensorManager_ s <> nullptr ->
   running_ (start now callback s) = true /\
   callback_ (start now callback s) = callback /\
   sensorThread_ (start now callback s) = Spawned /\
   stats_ (start now callback s) =
     {| statsWindowStart_ := now; accelCount_ := 0; gyroCount_ := 0;
        accelLatencyTotal_ := 0; gyroLatencyTotal_ := 0 |}) /\
  stats_ (stop p s) = stats_ s /\
  running_ (stop p s) = false.
Proof.
  split; [| split; [| split]].
  - intros R. unfold start. rewrite R. reflexivity.
  - intros R M. unfold start. rewrite R.
    destruct (is_null (sensorManager_ s)) eqn:N.
    + apply N.eqb_eq in N. contradiction.
    + repeat split.
  - unfold stop. destruct (running_ s); cbn [negb]; [| reflexivity].
    cbn [sensorThread_]. destruct (sensorThread_ s); try reflexivity.
    unfold sensorThreadLoop_setup.
    destruct (is_null (ALooper_prepare p)); [reflexivity |].
    destruct (is_null (ASensorManager_createEventQueue p)); reflexivity.
  - unfold stop. destruct (running_ s) eqn:R; cbn [negb]; [| exact R].
    cbn [sensorThread_]. destruct (sensorThread_ s); try reflexivity.
    unfold sensorThreadLoop_setup.
    destruct (is_null (ALooper_prepare p)); [reflexivity |].
    destruct (is_null (ASensorManager_createEventQueue p)); reflexivity.
Qed.

Lemma start_resets_window_unless_running_witness :
  running_ sampled = true /\ start 777 None sampled = sampled /\
  running_ (stop platform0 sampled) = false /\
  sensorManager_ (stop platform0 sampled) <> nullptr /\
  stats_ (start 777 None (stop platform0 sampled)) =
    {| statsWindowStart_ := 777; accelCount_ := 0; gyroCount_ := 0;
       accelLatencyTotal_ := 0; gyroLatencyTotal_ := 0 |}.
Proof.
  assert (R : running_ sampled = true) by reflexivity.
  assert (R' : running_ (stop platform0 sampled) = false) by reflexivity.
  assert (M : sensorManager_ (stop platform0 sampled) <> nullptr) by discriminate.
  split; [exact R |].
  split; [exact (proj1 (start_resets_window_unless_running platform0 777 None sampled) R) |].
  split; [exact R' | split; [exact M |]].
  pose proof (start_resets_window_unless_running platform0 777 None
                (stop platform0 sampled)) as (_ & S & _).
  apply S; assumption.
Defined.

(** C9. [switchSensors] records both selectors and returns a manager, never
    an error; a running engine with a sensor manager is restarted (running
    again, worker spawned).  When the worker then sets itself up (looper and
    event queue obtained), each channel gets the catalog entry at its
    selector if the selector lies in [0, catalog size), and the platform
    default sensor of that channel otherwise; the unspecified selector -1
    is such a case. *)
Theorem switchSensors_selector_fallback
    (p : Platform) (now : Z) (accelHandle gyroHandle : Z) (s : t) :
  ALooper_prepare p <> nullptr -> ASensorManager_createEventQueue p <> nullptr ->
  targetAccelHandle_ (switchSensors p now accelHandle gyroHandle s) = accelHandle /\
  targetGyroHandle_ (switchSensors p now accelHandle gyroHandle s) = gyroHandle /\
  (running_ s = true -> sensorManager_ s <> nullptr ->
   running_ (switchSensors p now accelHandle gyroHandle s) = true /\
   sensorThread_ (switchSensors p now accelHandle gyroHandle s) = Spawned) /\
  (0 <= accelHandle < Z.of_nat (length (ASensorManager_getSensorList p)) ->
   currentAccel_ (sensorThreadLoop_setup p (switchSensors p now accelHandle gyroHandle s))
     = nth_error (ASensorManager_getSensorList p) (Z.to_nat accelHandle) /\
   currentAccel_ (sensorThreadLoop_setup p (switchSensors p now accelHandle gyroHandle s))
     <> None) /\
  (~ 0 <= accelHandle < Z.of_nat (length (ASensorManager_getSensorList p)) ->
   currentAccel_ (sensorThreadLoop_setup p (switchSensors p now accelHandle gyroHandle s))
     = ASensorManager_getDefaultSensor p ASENSOR_TYPE_ACCELEROMETER) /\
  (0 <= gyroHandle < Z.of_nat (length (ASensorManager_getSensorList p)) ->
   currentGyro_ (sensorThreadLoop_setup p (switchSensors p now accelHandle gyroHandle s))
     = nth_error (ASensorManager_getSensorList p) (Z.to_nat gyroHandle) /\
   currentGyro_ (sensorThreadLoop_setup p (switchSensors p now accelHandle gyroHandle s))
     <> None) /\
  (~ 0 <= gyroHandle < Z.of_nat (length (ASensorManager_getSensorList p)) ->
   currentGyro_ (sensorThreadLoop_setup p (switchSensors p now accelHandle gyroHandle s))
     = ASensorManager_getDefaultSensor p ASENSOR_TYPE_GYROSCOPE) /\
  selectSensor p (-1) ASENSOR_TYPE_ACCELEROMETER
    = ASensorManager_getDefaultSensor p ASENSOR_TYPE_ACCELEROMETER /\
  selectSensor p (-1) ASENSOR_TYPE_GYROSCOPE
    = ASensorManager_getDefaultSensor p ASENSOR_TYPE_GYROSCOPE.
Proof.
  intros HL HQ.
  assert (NL : is_null (ALooper_prepare p) = false)
    by (destruct (is_null (ALooper_prepare p)) eqn:E;
        [apply N.eqb_eq in E; contradiction | reflexivity]).
  assert (NQ : is_null (ASensorManager_createEventQueue p) = false)
    by (destruct (is_null (ASensorManager_createEventQueue p)) eqn:E;
        [apply N.eqb_eq in E; contradiction | reflexivity]).
  assert (Hsel : forall handle type,
    (0 <= handle < Z.of_nat (length (ASensorManager_getSensorList p)) ->
     selectSensor p handle type
       = nth_error (ASensorManager_getSensorList p) (Z.to_nat handle) /\
     selectSensor p handle type <> None) /\
    (~ 0 <= handle < Z.of_nat (length (ASensorManager_getSensorList p)) ->
     selectSensor p handle type = ASensorManager_getDefaultSensor p type)).
  { intros handle type. unfold selectSensor.
    destruct (Z.geb_spec handle 0) as [G | G];
      destruct (Z.ltb_spec handle (Z.of_nat (length (ASensorManager_getSensorList p))))
        as [L | L]; cbn [andb]; split; intros H; try lia; try reflexivity.
    split; [reflexivity |]. apply nth_error_Some. lia. }
  assert (Hsetup : forall u,
    currentAccel_ (sensorThreadLoop_setup p u)
      = selectSensor p (targetAccelHandle_ u) ASENSOR_TYPE_ACCELEROMETER /\
    currentGyro_ (sensorThreadLoop_setup p u)
      = selectSensor p (targetGyroHandle_ u) ASENSOR_TYPE_GYROSCOPE).
  { intros u. unfold sensorThreadLoop_setup. rewrite NL, NQ. split; reflexivity. }
  assert (Hstop : forall u,
    targetAccelHandle_ (stop p u) = targetAccelHandle_ u /\
    targetGyroHandle_ (stop p u) = targetGyroHandle_ u /\
    running_ (stop p u) = false /\ sensorManager_ (stop p u) = sensorManager_ u).
  { intros u. unfold stop. destruct (running_ u) eqn:R; cbn [negb]; [| auto].
    cbn [sensorThread_]. destruct (sensorThread_ u); try (repeat split; reflexivity).
    unfold sensorThreadLoop_setup. rewrite NL, NQ. repeat split; reflexivity. }
  assert (Hstart : forall u cb,
    targetAccelHandle_ (start now cb u) = targetAccelHandle_ u /\
    targetGyroHandle_ (start now cb u) = targetGyroHandle_ u).
  { intros u cb. unfold start. destruct (running_ u); [auto |].
    destruct (is_null (sensorManager_ u)); auto. }
  assert (Ht : targetAccelHandle_ (switchSensors p now accelHandle gyroHandle s)
                 = accelHandle /\
               targetGyroHandle_ (switchSensors p now accelHandle gyroHandle s)
                 = gyroHandle).
  { unfold switchSensors. cbn [running_ callback_].
    destruct (running_ s); [| auto].
    destruct (Hstart (stop p (mk true (sensorThread_ s) (callback_ s) accelHandle
      gyroHandle true (sensorManager_ s) (looper_ s) (eventQueue_ s) (currentAccel_ s)
      (currentGyro_ s) (latestAccel_ s) (latestGyro_ s) (stats_ s) (metadata_ s)))
      (callback_ s)) as [-> ->].
    destruct (Hstop (mk true (sensorThread_ s) (callback_ s) accelHandle
      gyroHandle true (sensorManager_ s) (looper_ s) (eventQueue_ s) (currentAccel_ s)
      (currentGyro_ s) (latestAccel_ s) (latestGyro_ s) (stats_ s) (metadata_ s)))
      as (-> & -> & _). auto. }
  destruct Ht as [Ha Hg].
  destruct (Hsetup (switchSensors p now accelHandle gyroHandle s)) as [Ea Eg].
  rewrite Ea, Eg, Ha, Hg.
  split; [reflexivity | split; [reflexivity |]].
  split.
  { intros R M. unfold switchSensors. cbn [running_ callback_]. rewrite R.
    set (u := mk true _ _ _ _ _ _ _ _ _ _ _ _ _ _).
    destruct (Hstop u) as (_ & _ & Rs & Ms).
    unfold start. rewrite Rs, Ms. cbn [sensorManager_ u].
    destruct (is_null (sensorManager_ s)) eqn:N;
      [apply N.eqb_eq in N; contradiction | split; reflexivity]. }
  split; [apply Hsel |]. split; [apply Hsel |].
  split; [apply Hsel |]. split; [apply Hsel |].
  split; apply Hsel; lia.
Qed.

Lemma switchSensors_selector_fallback_witness :
  ALooper_prepare platform0 <> nullptr /\
  ASensorManager_createEventQueue platform0 <> nullptr /\
  currentAccel_ (sensorThreadLoop_setup platform0 (switchSensors platform0 5 2 7 sampled))
    = Some accel1 /\
  currentGyro_ (sensorThreadLoop_setup platform0 (switchSensors platform0 5 2 7 sampled))
    = Some gyro0.
Proof.
  assert (L : ALooper_prepare platform0 <> nullptr) by discriminate.
  assert (Q : ASensorManager_createEventQueue platform0 <> nullptr) by discriminate.
  pose proof (switchSensors_selector_fallback platform0 5 2 7 sampled L Q)
    as (_ & _ & _ & A & _ & _ & G & _).
  split; [exact L | split; [exact Q | split]].
  - apply A. cbn. lia.
  - apply G. cbn. lia.
Defined.

End ImuManagerFacts.

(** ** The ring buffer: overwriting writes and clearing *)

Section RingBufferMore.
Context {T : Type} `{!Inhabited T}.
Variable C : Z.
Variable k : Z.
Hypothesis Hk : (0 <= k < 64)%Z.
Hypothesis HC : C = (2 ^ k)%Z.
Local Open Scope Z_scope.

Lemma lastn_all (n : nat) (l : list T) : (length l <= n)%nat -> lastn n l = l.
Proof. intros H. unfold lastn. replace (length l - n)%nat with 0%nat by lia. reflexivity. Qed.

Lemma lastn_app (n : nat) (a b : list T) :
  lastn n (lastn n a ++ b) = lastn n (a ++ b).
Proof.
  unfold lastn. destruct (Nat.le_gt_cases (length a) n) as [L | G].
  - replace (length a - n)%nat with 0%nat by lia. reflexivity.
  - rewrite !length_app, length_drop.
    replace (length a - (length a - n) + length b - n)%nat with (length b) by lia.
    replace (length a + length b - n)%nat with ((length a - n) + length b)%nat by lia.
    rewrite <- drop_drop. f_equal.
    rewrite drop_app_le by lia. reflexivity.
Qed.

Lemma lastn_snoc_full (n : nat) (l : list T) (x : T) :
  length l = n -> lastn n (l ++ [x]) = tl (l ++ [x]).
Proof.
  intros H. unfold lastn. rewrite length_app. cbn [length].
  replace (length l + 1 - n)%nat with 1%nat by lia.
  destruct (l ++ [x]); reflexivity.
Qed.

Lemma pushOverwrite_lastn (rb : RingBuffer.t T) (x : T) :
  RingBuffer.wf C rb ->
  RingBuffer.wf C (RingBuffer.pushOverwrite C x rb) /\
  RingBuffer.contents C (RingBuffer.pushOverwrite C x rb)
    = lastn (Z.to_nat (C - 1)) (RingBuffer.contents C rb ++ [x]).
Proof using Hk HC.
  intros Hwf.
  destruct (pushOverwrite_spec C k Hk HC rb x Hwf) as (Hw & _ & Hfull & Hfree).
  split; [exact Hw |].
  pose proof (size_bound C k Hk HC rb) as Hs.
  pose proof (length_contents C k Hk HC rb) as Hl.
  destruct (Z.eq_dec (RingBuffer.size C rb) (C - 1)) as [E | NE].
  - destruct (Hfull E) as (_ & _ & ->). symmetry. apply lastn_snoc_full. lia.
  - destruct (Hfree ltac:(lia)) as (_ & ->). symmetry. apply lastn_all.
    rewrite length_app. cbn [length]. lia.
Qed.

(** X1. For a capacity C = 2^k (0 <= k < 64) and a well-formed buffer, writing the elements of
    a list in order with [pushOverwrite] keeps the buffer well formed and leaves as
    contents the last C-1 elements of the old contents followed by the list: the
    buffer is a sliding window over the most recent C-1 writes. *)
Theorem pushOverwrite_keeps_most_recent (items : list T) (rb : RingBuffer.t T) :
  RingBuffer.wf C rb ->
  RingBuffer.wf C (pushOverwriteAll C items rb) /\
  RingBuffer.contents C (pushOverwriteAll C items rb)
    = lastn (Z.to_nat (C - 1)) (RingBuffer.contents C rb ++ items).
Proof using Hk HC.
  revert rb. induction items as [| x xs IH]; intros rb Hwf.
  - cbn [pushOverwriteAll]. split; [exact Hwf |]. rewrite app_nil_r.
    symmetry. apply lastn_all.
    pose proof (size_bound C k Hk HC rb). pose proof (length_contents C k Hk HC rb). lia.
  - cbn [pushOverwriteAll].
    destruct (pushOverwrite_lastn rb x Hwf) as [Hw Hc].
    destruct (IH _ Hw) as [Hw' Hc'].
    split; [exact Hw' |]. rewrite Hc', Hc, lastn_app, <- app_assoc. reflexivity.
Qed.

Lemma clear_spec (rb : RingBuffer.t T) :
  RingBuffer.wf C rb ->
  RingBuffer.wf C (RingBuffer.clear rb) /\ RingBuffer.contents C (RingBuffer.clear rb) = [].
Proof using Hk HC.
  intros Hwf.
  assert (Hwfc : RingBuffer.wf C (RingBuffer.clear rb)).
  { destruct Hwf as (A & B & _). unfold RingBuffer.wf, RingBuffer.clear. cbn. auto. }
  split; [exact Hwfc |].
  apply contents_empty. apply (size_zero_iff C k Hk HC _ Hwfc). reflexivity.
Qed.

Lemma ringStep_refines (op : RingOp) (rb : RingBuffer.t T) :
  RingBuffer.wf C rb ->
  fst (ringStep C op rb) = fst (queueStep C op (RingBuffer.contents C rb)) /\
  RingBuffer.wf C (snd (ringStep C op rb)) /\
  RingBuffer.contents C (snd (ringStep C op rb))
  = snd (queueStep C op (RingBuffer.contents C rb)).
Proof using Hk HC.
  intros Hwf.
  pose proof (size_bound C k Hk HC rb) as Hs.
  pose proof (length_contents C k Hk HC rb) as Hl.
  destruct op as [x | x | |]; cbn [ringStep queueStep fst snd].
  - destruct (push_spec C k Hk HC rb x Hwf) as (Hfull & Hsame & Hok).
    rewrite Hl.
    destruct (fst (RingBuffer.push C x rb)) eqn:E.
    + destruct (Hok eq_refl) as [Hw Hc].
      destruct (Z.ltb_spec (RingBuffer.size C rb) (C - 1)) as [L | G]; cbn [fst snd].
      * auto.
      * exfalso. assert (RingBuffer.size C rb = C - 1) by lia.
        apply Hfull in H. discriminate H.
    + rewrite (Hsame eq_refl).
      destruct (Z.ltb_spec (RingBuffer.size C rb) (C - 1)) as [L | G]; cbn [fst snd].
      * exfalso. pose proof (proj1 Hfull eq_refl). lia.
      * auto.
  - destruct (pushOverwrite_lastn rb x Hwf) as [Hw Hc]. auto.
  - destruct (pop_spec C k Hk HC rb Hwf) as [Hnone Hsome].
    destruct (RingBuffer.contents C rb) as [| y ys] eqn:E.
    + rewrite (Hnone eq_refl). cbn [fst snd]. auto.
    + destruct (Hsome y ys eq_refl) as (Hy & Hw & Hc). rewrite Hy. cbn [fst snd]. auto.
  - destruct (clear_spec rb Hwf) as [Hw Hc]. auto.
Qed.

(** X2. For a capacity C = 2^k, over any sequence of [push], [pushOverwrite], [pop] and
    [clear] from a well-formed buffer, the buffer answers as a first-in first-out
    queue of at most C-1 elements does: the results of every [push] and [pop] are
    the queue's, the contents are the queue's, the buffer stays well formed and never
    holds more than C-1 elements. *)
Theorem ring_buffer_refines_bounded_queue (ops : list RingOp) (rb : RingBuffer.t T) :
  RingBuffer.wf C rb ->
  fst (ringRun C ops rb) = fst (queueRun C ops (RingBuffer.contents C rb)) /\
  RingBuffer.contents C (snd (ringRun C ops rb))
  = snd (queueRun C ops (RingBuffer.contents C rb)) /\
  RingBuffer.wf C (snd (ringRun C ops rb)) /\
  (Z.of_nat (length (snd (queueRun C ops (RingBuffer.contents C rb)))) <= C - 1)%Z.
Proof using Hk HC.
  revert rb. induction ops as [| op rest IH]; intros rb Hwf.
  - cbn [ringRun queueRun fst snd]. split; [reflexivity |]. split; [reflexivity |].
    split; [exact Hwf |].
    pose proof (size_bound C k Hk HC rb). pose proof (length_contents C k Hk HC rb). lia.
  - cbn [ringRun queueRun].
    destruct (ringStep_refines op rb Hwf) as (Ha & Hw & Hc).
    destruct (ringStep C op rb) as [a rb1].
    destruct (queueStep C op (RingBuffer.contents C rb)) as [a' q1].
    cbn [fst snd] in Ha, Hw, Hc. subst a' q1.
    destruct (IH rb1 Hw) as (I1 & I2 & I3 & I4).
    destruct (ringRun C rest rb1) as [answers rb2].
    destruct (queueRun C rest (RingBuffer.contents C rb1)) as [answers' q2].
    cbn [fst snd] in *. subst answers'. auto.
Qed.

(** X3. On a well-formed buffer of capacity C = 2^k, [empty] holds exactly when the
    contents are empty, exactly when [size] is 0, and exactly when [pop] fails.
    [clear] keeps the buffer well formed, does not touch the slots, and leaves no
    contents: [empty] is true and the next [pop] fails and changes nothing. *)
Theorem clear_and_empty (rb : RingBuffer.t T) :
  RingBuffer.wf C rb ->
  (RingBuffer.empty rb = true <-> RingBuffer.contents C rb = []) /\
  (RingBuffer.empty rb = true <-> RingBuffer.size C rb = 0) /\
  (RingBuffer.empty rb = true <-> fst (RingBuffer.pop C rb) = None) /\
  RingBuffer.wf C (RingBuffer.clear rb) /\
  RingBuffer.contents C (RingBuffer.clear rb) = [] /\
  RingBuffer.empty (RingBuffer.clear rb) = true /\
  RingBuffer.pop C (RingBuffer.clear rb) = (None, RingBuffer.clear rb) /\
  RingBuffer.buffer_ (RingBuffer.clear rb) = RingBuffer.buffer_ rb.
Proof using Hk HC.
  intros Hwf.
  pose proof (size_zero_iff C k Hk HC rb Hwf) as Hz.
  pose proof (length_contents C k Hk HC rb) as Hl.
  assert (He : RingBuffer.empty rb = true <-> RingBuffer.size C rb = 0).
  { unfold RingBuffer.empty. rewrite Z.eqb_eq. split; intros E.
    - apply Hz. congruence.
    - symmetry. apply Hz, E. }
  assert (Hc : RingBuffer.size C rb = 0 <-> RingBuffer.contents C rb = []).
  { split; intros E.
    - apply contents_empty, E.
    - rewrite E in Hl. cbn [length] in Hl. lia. }
  assert (Hwfc : RingBuffer.wf C (RingBuffer.clear rb)).
  { destruct Hwf as (A & B & _). unfold RingBuffer.wf, RingBuffer.clear. cbn. auto. }
  assert (Hcc : RingBuffer.contents C (RingBuffer.clear rb) = []).
  { apply contents_empty. apply (size_zero_iff C k Hk HC _ Hwfc). reflexivity. }
  split; [tauto |]. split; [exact He |]. split.
  { rewrite (pop_unfold C k Hk HC). unfold RingBuffer.empty.
    destruct (Z.eqb_spec (RingBuffer.tail_ rb) (RingBuffer.head_ rb)) as [E | NE];
      cbn [fst]; rewrite Z.eqb_eq; split; intros H; try congruence; try discriminate. }
  split; [exact Hwfc |]. split; [exact Hcc |].
  split; [unfold RingBuffer.empty, RingBuffer.clear; cbn; apply Z.eqb_refl |].
  split; [| reflexivity].
  apply (pop_spec C k Hk HC _ Hwfc). exact Hcc.
Qed.

End RingBufferMore.

Lemma pushOverwrite_keeps_most_recent_witness :
  (0 <= 2 < 64)%Z /\ 4%Z = (2 ^ 2)%Z /\ RingBuffer.wf 4 ring4_full /\
  RingBuffer.contents 4 (pushOverwriteAll 4 [4; 5]%Z ring4_full) = [3; 4; 5]%Z.
Proof.
  assert (Hk : (0 <= 2 < 64)%Z) by lia.
  assert (HC : 4%Z = (2 ^ 2)%Z) by reflexivity.
  assert (Hwf : RingBuffer.wf 4 ring4_full) by (vm_compute; intuition congruence).
  pose proof (pushOverwrite_keeps_most_recent 4 2 Hk HC [4; 5]%Z ring4_full Hwf) as [_ H].
  split; [exact Hk | split; [exact HC | split; [exact Hwf |]]].
  rewrite H. reflexivity.
Defined.

Lemma ring_buffer_refines_bounded_queue_witness :
  (0 <= 2 < 64)%Z /\ 4%Z = (2 ^ 2)%Z /\ RingBuffer.wf 4 (RingBuffer.init (T:=Z) 4) /\
  fst (ringRun 4 [Push 1; Push 2; Push 3; Push 4; Pop; PushOverwrite 5; Clear; Pop]%Z
         (RingBuffer.init 4))
  = [Pushed true; Pushed true; Pushed true; Pushed false; Popped (Some 1%Z); Done; Done;
     Popped None].
Proof.
  assert (Hk : (0 <= 2 < 64)%Z) by lia.
  assert (HC : 4%Z = (2 ^ 2)%Z) by reflexivity.
  assert (Hwf : RingBuffer.wf 4 (RingBuffer.init (T:=Z) 4))
    by (vm_compute; intuition congruence).
  pose proof (ring_buffer_refines_bounded_queue 4 2 Hk HC
                [Push 1; Push 2; Push 3; Push 4; Pop; PushOverwrite 5; Clear; Pop]%Z
                (RingBuffer.init 4) Hwf) as (H & _).
  split; [exact Hk | split; [exact HC | split; [exact Hwf |]]].
  rewrite H. reflexivity.
Defined.

Lemma clear_and_empty_witness :
  (0 <= 2 < 64)%Z /\ 4%Z = (2 ^ 2)%Z /\ RingBuffer.wf 4 ring4_full /\
  RingBuffer.contents 4 (RingBuffer.clear ring4_full) = [] /\
  RingBuffer.pop 4 (RingBuffer.clear ring4_full) = (None, RingBuffer.clear ring4_full) /\
  fst (RingBuffer.pop 4 (RingBuffer.init (T:=Z) 4)) = None.
Proof.
  assert (Hk : (0 <= 2 < 64)%Z) by lia.
  assert (HC : 4%Z = (2 ^ 2)%Z) by reflexivity.
  assert (Hwf : RingBuffer.wf 4 ring4_full) by (vm_compute; intuition congruence).
  assert (Hwi : RingBuffer.wf 4 (RingBuffer.init (T:=Z) 4)) by (vm_compute; intuition congruence).
  pose proof (clear_and_empty 4 2 Hk HC ring4_full Hwf) as (_ & _ & _ & _ & Hc & _ & Hp & _).
  pose proof (clear_and_empty 4 2 Hk HC (RingBuffer.init (T:=Z) 4) Hwi) as (_ & _ & He & _).
  split; [exact Hk | split; [exact HC | split; [exact Hwf |]]].
  split; [exact Hc |]. split; [exact Hp |].
  apply He. reflexivity.
Defined.

(** ** The camera stream: clean-up, lifecycle and statistics *)

Section CameraStreamMore.
Import CameraStream.
Local Open Scope Z_scope.

Lemma released_acquires_nothing (p : ptr) (calls : list NativeCall) :
  acquired calls = [] -> acquired (released p calls) = [].
Proof. unfold released. destruct (is_null p); auto. Qed.

(** X4. [cleanup] releases exactly the handles the stream holds -- each non-null handle
    once, a null handle never -- and acquires nothing.  Afterwards the stream is idle
    (seven null handles, no camera id), not streaming, and without statistics
    callback, while [getStats] still returns what it returned before.  A second
    [cleanup], or the [cleanup] of an idle stream, makes no native call. *)
Theorem cleanup_releases_each_handle_once (s : t) :
  freed (snd (cleanup s)) = holdings s /\
  acquired (snd (cleanup s)) = [] /\
  idle (fst (cleanup s)) /\ streaming_ (fst (cleanup s)) = false /\
  statsCallback_ (fst (cleanup s)) = None /\
  getStats (fst (cleanup s)) = getStats s /\
  snd (cleanup (fst (cleanup s))) = [] /\
  (idle s -> snd (cleanup s) = []).
Proof.
  destruct (cleanup_idle s) as (Hi & Hs & Hc).
  split; [apply cleanup_freed |]. split; [apply cleanup_acquired |].
  split; [exact Hi |]. split; [exact Hs |]. split; [exact Hc |].
  split; [reflexivity |].
  assert (Hidle : forall u, idle u -> snd (cleanup u) = []).
  { intros u (A & B & C & D & E & F & G & _). unfold cleanup. cbn [snd].
    rewrite A, B, C, D, E, F, G. reflexivity. }
  split; [apply Hidle, Hi | apply Hidle].
Qed.

(** The shape of a successful start. *)
Lemma startPreview_success_shape
    (manager : CameraManager.t) (cameraId : string) (surface : ptr)
    (statsCallback : CameraStatsCallback) (svc : CameraService) (s : t) :
  (streaming_ s && String.eqb (currentCameraId_ s) cameraId)%bool = false ->
  fst (fst (startPreview manager cameraId surface statsCallback svc s)) = true ->
  surface <> nullptr /\ snd (openCamera svc) <> nullptr /\
  snd (createCaptureSession svc) <> nullptr /\
  snd (fst (startPreview manager cameraId surface statsCallback svc s)) =
    mk true cameraId (snd (openCamera svc)) (snd (createCaptureSession svc))
       (snd (outputContainer_create svc)) (snd (sessionOutput_create svc))
       (snd (outputTarget_create svc)) (snd (createCaptureRequest svc))
       surface statsCallback 0 0 0 IEEE.zero IEEE.zero 0 /\
  freed (snd (startPreview manager cameraId surface statsCallback svc s)) =
    (if streaming_ s then holdings s else []) /\
  acquired (snd (startPreview manager cameraId surface statsCallback svc s)) =
    held (Window surface) ++ held (Device (snd (openCamera svc)))
    ++ held (OutputTarget (snd (outputTarget_create svc)))
    ++ held (CaptureRequest (snd (createCaptureRequest svc)))
    ++ held (OutputContainer (snd (outputContainer_create svc)))
    ++ held (SessionOutput (snd (sessionOutput_create svc)))
    ++ held (CaptureSession (snd (createCaptureSession svc))).
Proof.
  intros Hguard. unfold startPreview. rewrite Hguard.
  destruct svc as [[st1 dev] [st2 tgt] [st3 req] st4 [st5 cont] [st6 out] st7 [st8 ses] st9].
  cbn [openCamera outputTarget_create createCaptureRequest addTarget
       outputContainer_create sessionOutput_create outputContainer_add
       createCaptureSession setRepeatingRequest fst snd].
  assert (He : acquired (snd (if streaming_ s then cleanup s else (s, []))) = [] /\
               freed (snd (if streaming_ s then cleanup s else (s, [])))
                 = (if streaming_ s then holdings s else [])).
  { destruct (streaming_ s).
    - split; [apply cleanup_acquired | apply cleanup_freed].
    - split; reflexivity. }
  destruct (if streaming_ s then cleanup s else (s, [])) as [s0 tr].
  cbn [fst snd] in He. destruct He as (Hacq & Hfreed).
  destruct (CameraManager.isValid manager) eqn:V; cbn [negb]; [| discriminate].
  destruct (is_null surface) eqn:NS; [discriminate |].
  cbn [cameraDevice_ set_cameraDevice begin_start].
  destruct (failed st1) eqn:F1; cbn [orb]; [discriminate |].
  destruct (is_null dev) eqn:N1; [discriminate |].
  destruct (failed st2) eqn:F2; [discriminate |].
  destruct (failed st3) eqn:F3; [discriminate |].
  destruct (failed st4) eqn:F4; [discriminate |].
  destruct (failed st5) eqn:F5; [discriminate |].
  destruct (failed st6) eqn:F6; [discriminate |].
  destruct (failed st7) eqn:F7; [discriminate |].
  cbn [captureSession_ set_captureSession].
  destruct (failed st8) eqn:F8; cbn [orb]; [discriminate |].
  destruct (is_null ses) eqn:N8; [discriminate |].
  destruct (failed st9) eqn:F9; [discriminate |].
  intros _. cbn [fst snd].
  split; [intros E; apply is_null_true in E; congruence |].
  split; [intros E; apply is_null_true in E; congruence |].
  split; [intros E; apply is_null_true in E; congruence |].
  split; [reflexivity |].
  unfold acquired, freed in *. rewrite !flat_map_app, Hacq, Hfreed.
  cbn [flat_map acquires releases app]. rewrite ?app_nil_r, <- ?app_assoc.
  split; reflexivity.
Qed.

Lemma holdings_acquired (w d tg rq ct ou se : list Resource) :
  Permutation (w ++ d ++ tg ++ rq ++ ct ++ ou ++ se) (se ++ d ++ rq ++ tg ++ ou ++ ct ++ w).
Proof. solve_Permutation. Qed.

(** X5. When [startPreview] goes through a start (the stream is not already streaming the
    requested id) and returns [true], the stream streams that id, and the
    [stopPreview] that follows releases exactly what the start acquired (as
    multisets), acquires nothing, and leaves the stream idle and not streaming. *)
Theorem startPreview_stopPreview_round_trip
    (manager : CameraManager.t) (cameraId : string) (surface : ptr)
    (statsCallback : CameraStatsCallback) (svc : CameraService) (s : t) :
  (streaming_ s && String.eqb (currentCameraId_ s) cameraId)%bool = false ->
  fst (fst (startPreview manager cameraId surface statsCallback svc s)) = true ->
  let started := startPreview manager cameraId surface statsCallback svc s in
  let stopped := stopPreview (snd (fst started)) in
  isStreaming (snd (fst started)) = true /\
  getCurrentCameraId (snd (fst started)) = cameraId /\
  Permutation (acquired (snd started)) (freed (snd stopped)) /\
  acquired (snd stopped) = [] /\
  isStreaming (fst stopped) = false /\ idle (fst stopped).
Proof.
  intros Hguard Hok started stopped.
  destruct (startPreview_success_shape manager cameraId surface statsCallback svc s
              Hguard Hok) as (_ & _ & _ & Hs & _ & Hacq).
  fold started in Hs, Hacq.
  assert (St : streaming_ (snd (fst started)) = true) by (rewrite Hs; reflexivity).
  split; [exact St |]. split; [rewrite Hs; reflexivity |].
  subst stopped. unfold stopPreview. rewrite St. cbn [negb].
  destruct (cleanup_idle (snd (fst started))) as (Hi & Hst & _).
  split.
  { rewrite cleanup_freed, Hacq, Hs. unfold holdings.
    cbn [captureSession_ cameraDevice_ captureRequest_ outputTarget_ sessionOutput_
         outputContainer_ surface_].
    apply holdings_acquired. }
  split; [apply cleanup_acquired |].
  split; [exact Hst | exact Hi].
Qed.

(** X6. A successful start releases the handles the stream held before only when the
    stream was streaming at entry; on a stream that is not streaming it releases
    nothing, so that handles left by a disconnect are overwritten unreleased.  In
    both cases the stream then holds exactly what the call acquired, and its
    statistics are zero. *)
Theorem startPreview_releases_only_when_streaming
    (manager : CameraManager.t) (cameraId : string) (surface : ptr)
    (statsCallback : CameraStatsCallback) (svc : CameraService) (s : t) :
  (streaming_ s && String.eqb (currentCameraId_ s) cameraId)%bool = false ->
  fst (fst (startPreview manager cameraId surface statsCallback svc s)) = true ->
  let started := startPreview manager cameraId surface statsCallback svc s in
  freed (snd started) = (if streaming_ s then holdings s else []) /\
  Permutation (holdings (snd (fst started))) (acquired (snd started)) /\
  getStats (snd (fst started)) = zeroCameraStats.
Proof.
  intros Hguard Hok started.
  destruct (startPreview_success_shape manager cameraId surface statsCallback svc s
              Hguard Hok) as (_ & _ & _ & Hs & Hfr & Hacq).
  fold started in Hs, Hfr, Hacq.
  split; [exact Hfr |]. split; [| rewrite Hs; reflexivity].
  rewrite Hacq, Hs. unfold holdings.
  cbn [captureSession_ cameraDevice_ captureRequest_ outputTarget_ sessionOutput_
       outputContainer_ surface_].
  symmetry. apply holdings_acquired.
Qed.

Lemma cleanup_consistent (s : t) : consistent s -> consistent (fst (cleanup s)).
Proof.
  intros (_ & D & F). unfold consistent, cleanup.
  cbn [fst streaming_ droppedFrames_ frameCount_]. split; [discriminate | auto].
Qed.

Lemma abort_consistent (s : t) (tr : list NativeCall) :
  droppedFrames_ s = 0 -> Int.in_int64 (frameCount_ s) ->
  consistent (snd (fst (abort s tr))).
Proof.
  intros D F. unfold consistent, abort, cleanup.
  cbn [fst snd streaming_ droppedFrames_ frameCount_]. split; [discriminate | auto].
Qed.

Lemma startPreview_consistent
    (manager : CameraManager.t) (cameraId : string) (surface : ptr)
    (statsCallback : CameraStatsCallback) (svc : CameraService) (s : t) :
  consistent s ->
  consistent (snd (fst (startPreview manager cameraId surface statsCallback svc s))).
Proof.
  intros Hc.
  destruct (streaming_ s && String.eqb (currentCameraId_ s) cameraId)%bool eqn:Hguard.
  { unfold startPreview. rewrite Hguard. exact Hc. }
  destruct (fst (fst (startPreview manager cameraId surface statsCallback svc s))) eqn:Hok.
  { destruct (startPreview_success_shape manager cameraId surface statsCallback svc s
                Hguard Hok) as (A & B & C & Hs & _).
    rewrite Hs. unfold consistent.
    cbn [streaming_ cameraDevice_ captureSession_ surface_ droppedFrames_ frameCount_].
    split; [auto | split; [reflexivity | apply in_int64_bounds; lia]]. }
  revert Hok. unfold startPreview. rewrite Hguard.
  assert (He : consistent (fst (if streaming_ s then cleanup s else (s, []))) /\
               streaming_ (fst (if streaming_ s then cleanup s else (s, []))) = false).
  { destruct (streaming_ s) eqn:St.
    - split; [apply cleanup_consistent, Hc | reflexivity].
    - split; [exact Hc | exact St]. }
  destruct (if streaming_ s then cleanup s else (s, [])) as [s0 tr].
  cbn [fst] in He. destruct He as [Hc0 St0].
  destruct (negb (CameraManager.isValid manager)); [intros _; exact Hc0 |].
  destruct (is_null surface); [intros _; exact Hc0 |].
  destruct (openCamera svc) as [st1 dev].
  match goal with |- context [if ?c then _ else _] => destruct c end;
    [intros _; apply abort_consistent; [reflexivity | apply in_int64_bounds; cbn; lia] |].
  destruct (outputTarget_create svc) as [st2 tgt].
  destruct (failed st2); [intros _; apply abort_consistent; [reflexivity | apply in_int64_bounds; cbn; lia] |].
  destruct (createCaptureRequest svc) as [st3 req].
  destruct (failed st3); [intros _; apply abort_consistent; [reflexivity | apply in_int64_bounds; cbn; lia] |].
  destruct (failed (addTarget svc)); [intros _; apply abort_consistent; [reflexivity | apply in_int64_bounds; cbn; lia] |].
  destruct (outputContainer_create svc) as [st5 cont].
  destruct (failed st5); [intros _; apply abort_consistent; [reflexivity | apply in_int64_bounds; cbn; lia] |].
  destruct (sessionOutput_create svc) as [st6 out].
  destruct (failed st6); [intros _; apply abort_consistent; [reflexivity | apply in_int64_bounds; cbn; lia] |].
  destruct (failed (outputContainer_add svc));
    [intros _; apply abort_consistent; [reflexivity | apply in_int64_bounds; cbn; lia] |].
  destruct (createCaptureSession svc) as [st8 ses].
  match goal with |- context [if ?c then _ else _] => destruct c end;
    [intros _; apply abort_consistent; [reflexivity | apply in_int64_bounds; cbn; lia] |].
  destruct (failed (setRepeatingRequest svc));
    [intros _; apply abort_consistent; [reflexivity | apply in_int64_bounds; cbn; lia] |].
  discriminate.
Qed.

Lemma handle_consistent (e : Event) (s : t) : consistent s -> consistent (handle e s).
Proof.
  intros Hc. destruct e as [manager cameraId surface cb svc | | | error | now ts];
    cbn [handle].
  - apply startPreview_consistent, Hc.
  - unfold stopPreview. destruct (negb (streaming_ s)); [exact Hc |].
    apply cleanup_consistent, Hc.
  - destruct Hc as (_ & D & F). unfold consistent, onDeviceDisconnected, set_streaming.
    cbn [streaming_ droppedFrames_ frameCount_]. split; [discriminate | auto].
  - destruct Hc as (_ & D & F). unfold consistent, onDeviceError, set_streaming.
    cbn [streaming_ droppedFrames_ frameCount_]. split; [discriminate | auto].
  - destruct Hc as (H & D & F). unfold consistent, onCaptureStarted, updateStats.
    cbn [fst streaming_ cameraDevice_ captureSession_ surface_ droppedFrames_ frameCount_].
    split; [exact H | split; [exact D | apply int64_range]].
Qed.

(** X7. In every state reached from a fresh stream by any sequence of [startPreview],
    [stopPreview], disconnect, error and capture-start notifications: a streaming
    stream has a device, a capture session and a surface; the dropped-frame count
    reported by [getStats] is 0 (nothing ever increments it); and the frame count is
    a 64-bit value. *)
Theorem streaming_implies_live_handles (events : list Event) :
  let s := run events init in
  (isStreaming s = true ->
   cameraDevice_ s <> nullptr /\ captureSession_ s <> nullptr /\
   surface_ s <> nullptr) /\
  droppedFrames (getStats s) = 0 /\
  Int.in_int64 (frameCount (getStats s)).
Proof.
  cbn zeta. unfold isStreaming, getStats. cbn [droppedFrames frameCount].
  change (consistent (run events init)).
  assert (H : consistent init).
  { unfold consistent, init. cbn [streaming_ droppedFrames_ frameCount_].
    split; [discriminate | split; [reflexivity | apply in_int64_bounds; lia]]. }
  revert H. generalize init. unfold run.
  induction events as [| e es IH]; intros s Hc; cbn [fold_left]; [exact Hc |].
  apply IH, handle_consistent, Hc.
Qed.

Lemma updateStats_callback_time (now timestamp : Z) (s : t) :
  0 <= lastCallbackTimeNs_ s < 2 ^ 62 -> 0 <= now < 2 ^ 62 ->
  let s' := fst (onCaptureStarted now timestamp s) in
  statsCallback_ s' = statsCallback_ s /\
  match snd (onCaptureStarted now timestamp s) with
  | [] => lastCallbackTimeNs_ s' = lastCallbackTimeNs_ s /\
          (statsCallback_ s = None \/ now - lastCallbackTimeNs_ s < IEEE.kNsPerSecond)
  | _ :: _ => lastCallbackTimeNs_ s' = now /\ statsCallback_ s <> None /\
              IEEE.kNsPerSecond <= now - lastCallbackTimeNs_ s
  end.
Proof.
  intros Hl Hn. unfold onCaptureStarted, updateStats.
  cbn [fst snd statsCallback_ lastCallbackTimeNs_]. split; [reflexivity |].
  assert (E : Int.int64 (now - lastCallbackTimeNs_ s) = now - lastCallbackTimeNs_ s).
  { apply int64_in_range, in_int64_bounds.
    change (2 ^ 62) with 4611686018427387904 in Hl, Hn. lia. }
  rewrite E.
  destruct (statsCallback_ s) as [cb |]; [| auto].
  destruct (Z.geb_spec (now - lastCallbackTimeNs_ s) IEEE.kNsPerSecond) as [G | L].
  - split; [reflexivity | split; [discriminate | lia]].
  - split; [reflexivity | right; lia].
Qed.

(** X8. Over a run of capture-start notifications, with the clock readings and the last
    callback time in [0, 2^62): the instants at which the statistics callback is
    invoked are each at least one second after the one before (the first after the
    stored last callback time); without a registered callback there is no
    invocation; and a notification that comes at least one second after the last
    invocation does invoke a registered callback. *)
Theorem statsCallback_at_most_once_per_second (frames : list (Z * Z)) (s : t) :
  0 <= lastCallbackTimeNs_ s < 2 ^ 62 ->
  Forall (fun frame => 0 <= fst frame < 2 ^ 62) frames ->
  spaced IEEE.kNsPerSecond (lastCallbackTimeNs_ s) (callbackTimes frames s) /\
  (statsCallback_ s = None -> callbackTimes frames s = []) /\
  (forall now timestamp rest, frames = (now, timestamp) :: rest ->
     statsCallback_ s <> None ->
     IEEE.kNsPerSecond <= now - lastCallbackTimeNs_ s ->
     callbackTimes frames s
     = now :: callbackTimes rest (fst (onCaptureStarted now timestamp s))).
Proof.
  intros Hl Hf. split; [| split].
  - revert s Hl. induction Hf as [| [now ts] rest Hn _ IH]; intros s Hl;
      cbn [callbackTimes]; [exact I |].
    cbn [fst] in Hn.
    destruct (updateStats_callback_time now ts s Hl Hn) as [_ H].
    destruct (snd (onCaptureStarted now ts s)) as [| snapshot more].
    + destruct H as [E _]. cbn [app].
      pose proof (IH (fst (onCaptureStarted now ts s))) as H'.
      rewrite E in H'. apply H', Hl.
    + destruct H as (E & _ & G). cbn [app spaced]. split; [exact G |].
      pose proof (IH (fst (onCaptureStarted now ts s))) as H'.
      rewrite E in H'. apply H', Hn.
  - revert s Hl. induction Hf as [| [now ts] rest Hn _ IH]; intros s Hl Hc;
      cbn [callbackTimes]; [reflexivity |].
    cbn [fst] in Hn.
    destruct (updateStats_callback_time now ts s Hl Hn) as [Hcb H].
    destruct (snd (onCaptureStarted now ts s)) as [| snapshot more].
    + destruct H as [E _]. cbn [app]. apply IH; [rewrite E; exact Hl | congruence].
    + destruct H as (_ & N & _). contradiction.
  - intros now ts rest -> Hc G. cbn [callbackTimes].
    apply Forall_cons_1 in Hf. destruct Hf as [Hn _]. cbn [fst] in Hn.
    destruct (updateStats_callback_time now ts s Hl Hn) as [_ H].
    destruct (snd (onCaptureStarted now ts s)) as [| snapshot more]; [| reflexivity].
    destruct H as [_ [N | L]]; [contradiction | lia].
Qed.

(** X9. A capture-start notification touches neither the streaming flag, the camera id
    nor a handle, and the snapshot it hands to the callback, when it invokes it, is
    what [getStats] returns right after.  [stopPreview] and the disconnect and error
    notifications leave what [getStats] returns unchanged. *)
Theorem statistics_changed_only_by_frames (now timestamp : Z) (error : Z) (s : t) :
  let s' := fst (onCaptureStarted now timestamp s) in
  (snd (onCaptureStarted now timestamp s) = [] \/
   snd (onCaptureStarted now timestamp s) = [getStats s']) /\
  isStreaming s' = isStreaming s /\
  getCurrentCameraId s' = getCurrentCameraId s /\
  holdings s' = holdings s /\
  getStats (fst (stopPreview s)) = getStats s /\
  getStats (onDeviceDisconnected s) = getStats s /\
  getStats (onDeviceError error s) = getStats s.
Proof.
  cbn zeta. split.
  { unfold onCaptureStarted, updateStats. cbn [fst snd].
    match goal with |- context [if ?c then _ else _] => destruct c end;
      [right; reflexivity | left; reflexivity]. }
  split; [reflexivity |]. split; [reflexivity |]. split; [reflexivity |].
  split; [| split; reflexivity].
  unfold stopPreview. destruct (negb (streaming_ s)); reflexivity.
Qed.

End CameraStreamMore.

Section CameraStreamConservation.
Import CameraStream.
Local Open Scope Z_scope.

Lemma idle_holdings (s : t) : idle s -> holdings s = [].
Proof.
  intros (A & B & C & D & E & F & G & _). unfold holdings.
  rewrite A, B, C, D, E, F, G. reflexivity.
Qed.

Lemma holdings_nil (s : t) :
  holdings s = [] ->
  held (CaptureSession (captureSession_ s)) = [] /\
  held (Device (cameraDevice_ s)) = [] /\
  held (CaptureRequest (captureRequest_ s)) = [] /\
  held (OutputTarget (outputTarget_ s)) = [] /\
  held (SessionOutput (sessionOutput_ s)) = [] /\
  held (OutputContainer (outputContainer_ s)) = [] /\
  held (Window (surface_ s)) = [].
Proof.
  unfold holdings. intros H.
  repeat (apply app_eq_nil in H; destruct H as [? H]). auto 10.
Qed.

Ltac conserved Hacq Hfreed Hs Hd Hr Ht Ho Hc :=
  intros _;
  match goal with
  | |- context [abort ?st ?tr] =>
      destruct (abort_spec st tr) as (_ & _ & Hi & -> & ->);
      rewrite (idle_holdings _ Hi)
  end;
  unfold acquired, freed in *; rewrite ?flat_map_app, Hacq, Hfreed;
  cbn [flat_map acquires releases app];
  unfold holdings;
  cbn [captureSession_ cameraDevice_ captureRequest_ outputTarget_ sessionOutput_
       outputContainer_ surface_ set_cameraDevice set_captureSession
       set_outputContainer set_sessionOutput set_outputTarget set_captureRequest
       begin_start];
  rewrite ?Hs, ?Hd, ?Hr, ?Ht, ?Ho, ?Hc, ?app_nil_r; cbn [app];
  solve_Permutation.

Lemma startPreview_balance
    (manager : CameraManager.t) (cameraId : string) (surface : ptr)
    (statsCallback : CameraStatsCallback) (svc : CameraService) (s : t) :
  streaming_ s = true \/ holdings s = [] ->
  Permutation
    (acquired (snd (startPreview manager cameraId surface statsCallback svc s))
     ++ holdings s)
    (freed (snd (startPreview manager cameraId surface statsCallback svc s))
     ++ holdings (snd (fst (startPreview manager cameraId surface statsCallback svc s)))).
Proof.
  intros Hs.
  destruct (streaming_ s && String.eqb (currentCameraId_ s) cameraId)%bool eqn:Hguard.
  { unfold startPreview. rewrite Hguard. reflexivity. }
  destruct (fst (fst (startPreview manager cameraId surface statsCallback svc s))) eqn:Hok.
  { destruct (startPreview_success_shape manager cameraId surface statsCallback svc s
                Hguard Hok) as (_ & _ & _ & Hst & Hfr & Hacq).
    rewrite Hacq, Hfr, Hst. unfold holdings at 3.
    cbn [captureSession_ cameraDevice_ captureRequest_ outputTarget_ sessionOutput_
         outputContainer_ surface_].
    destruct (streaming_ s) eqn:St.
    - solve_Permutation.
    - destruct Hs as [? | ->]; [discriminate |]. solve_Permutation. }
  revert Hok. unfold startPreview. rewrite Hguard.
  assert (He : acquired (snd (if streaming_ s then cleanup s else (s, []))) = [] /\
               freed (snd (if streaming_ s then cleanup s else (s, []))) = holdings s /\
               holdings (fst (if streaming_ s then cleanup s else (s, []))) = []).
  { destruct (streaming_ s) eqn:St.
    - split; [apply cleanup_acquired | split; [apply cleanup_freed |]].
      apply idle_holdings, cleanup_idle.
    - destruct Hs as [? | Hh]; [discriminate |]. cbn [fst snd]. rewrite Hh. auto. }
  destruct (if streaming_ s then cleanup s else (s, [])) as [s0 tr0].
  cbn [fst snd] in He. destruct He as (Hacq & Hfreed & Hnil).
  destruct (holdings_nil s0 Hnil) as (Hs0 & Hd & Hr & Ht & Ho & Hc & Hw).
  clear Hs Hguard. generalize dependent (holdings s). intros before Hfreed.
  destruct (negb (CameraManager.isValid manager)).
  { intros _. cbn [fst snd]. rewrite Hacq, Hfreed, Hnil. rewrite app_nil_r. reflexivity. }
  destruct (is_null surface).
  { intros _. cbn [fst snd]. rewrite Hacq, Hfreed, Hnil. rewrite app_nil_r. reflexivity. }
  destruct (openCamera svc) as [st1 dev].
  match goal with |- context [if ?c then _ else _] => destruct c end;
    [conserved Hacq Hfreed Hs0 Hd Hr Ht Ho Hc |].
  destruct (outputTarget_create svc) as [st2 tgt].
  destruct (failed st2); [conserved Hacq Hfreed Hs0 Hd Hr Ht Ho Hc |].
  destruct (createCaptureRequest svc) as [st3 req].
  destruct (failed st3); [conserved Hacq Hfreed Hs0 Hd Hr Ht Ho Hc |].
  destruct (failed (addTarget svc)); [conserved Hacq Hfreed Hs0 Hd Hr Ht Ho Hc |].
  destruct (outputContainer_create svc) as [st5 cont].
  destruct (failed st5); [conserved Hacq Hfreed Hs0 Hd Hr Ht Ho Hc |].
  destruct (sessionOutput_create svc) as [st6 out].
  destruct (failed st6); [conserved Hacq Hfreed Hs0 Hd Hr Ht Ho Hc |].
  destruct (failed (outputContainer_add svc));
    [conserved Hacq Hfreed Hs0 Hd Hr Ht Ho Hc |].
  destruct (createCaptureSession svc) as [st8 ses].
  match goal with |- context [if ?c then _ else _] => destruct c end;
    [conserved Hacq Hfreed Hs0 Hd Hr Ht Ho Hc |].
  destruct (failed (setRepeatingRequest svc));
    [conserved Hacq Hfreed Hs0 Hd Hr Ht Ho Hc |].
  discriminate.
Qed.

(** X10. Conservation of handles.  For a stream that is streaming or holds nothing,
    [startPreview] -- whether it returns at once, succeeds, or fails at any step --
    and [stopPreview] satisfy: what the call acquired plus what the stream held
    before is, as a multiset, what the call released plus what the stream holds
    after.  Nothing leaks and nothing is released twice. *)
Theorem stream_conserves_handles
    (manager : CameraManager.t) (cameraId : string) (surface : ptr)
    (statsCallback : CameraStatsCallback) (svc : CameraService) (s : t) :
  streaming_ s = true \/ holdings s = [] ->
  let started := startPreview manager cameraId surface statsCallback svc s in
  let stopped := stopPreview s in
  Permutation (acquired (snd started) ++ holdings s)
              (freed (snd started) ++ holdings (snd (fst started))) /\
  Permutation (acquired (snd stopped) ++ holdings s)
              (freed (snd stopped) ++ holdings (fst stopped)).
Proof.
  intros Hs. split; [apply startPreview_balance, Hs |].
  unfold stopPreview. destruct (streaming_ s) eqn:St; cbn [negb].
  - rewrite cleanup_acquired, cleanup_freed.
    rewrite (idle_holdings _ (proj1 (cleanup_idle s))), app_nil_r. reflexivity.
  - reflexivity.
Qed.

End CameraStreamConservation.

(** *** Concrete runs *)

Section CameraStreamConcreteRuns.
Import CameraStream.
Local Open Scope Z_scope.

Lemma cleanup_releases_each_handle_once_witness :
  freed (snd (cleanup live)) = holdings live /\
  idle init /\ snd (cleanup init) = [].
Proof.
  pose proof (cleanup_releases_each_handle_once live) as (A & _).
  pose proof (cleanup_releases_each_handle_once init) as (_ & _ & _ & _ & _ & _ & _ & B).
  assert (I : idle init) by (unfold idle; cbn; repeat split).
  split; [exact A | split; [exact I | exact (B I)]].
Defined.

Lemma startPreview_stopPreview_round_trip_witness :
  (streaming_ init && String.eqb (currentCameraId_ init) "0")%bool = false /\
  fst (fst (startPreview manager1 "0" 7%N None service_ok init)) = true /\
  Permutation (acquired (snd (startPreview manager1 "0" 7%N None service_ok init)))
              (freed (snd (stopPreview live))) /\
  idle (fst (stopPreview live)).
Proof.
  assert (G : (streaming_ init && String.eqb (currentCameraId_ init) "0")%bool = false)
    by reflexivity.
  assert (S : fst (fst (startPreview manager1 "0" 7%N None service_ok init)) = true)
    by reflexivity.
  pose proof (startPreview_stopPreview_round_trip manager1 "0" 7%N None service_ok init G S)
    as (_ & _ & P & _ & _ & I).
  split; [exact G | split; [exact S | split; [exact P | exact I]]].
Defined.

Lemma startPreview_releases_only_when_streaming_witness :
  (streaming_ disconnected && String.eqb (currentCameraId_ disconnected) "0")%bool = false /\
  fst (fst (startPreview manager1 "0" 9%N None service_ok disconnected)) = true /\
  holdings disconnected <> [] /\
  freed (snd (startPreview manager1 "0" 9%N None service_ok disconnected)) = [].
Proof.
  assert (G : (streaming_ disconnected
               && String.eqb (currentCameraId_ disconnected) "0")%bool = false)
    by reflexivity.
  assert (S : fst (fst (startPreview manager1 "0" 9%N None service_ok disconnected)) = true)
    by reflexivity.
  pose proof (startPreview_releases_only_when_streaming manager1 "0" 9%N None service_ok
                disconnected G S) as (F & _).
  split; [exact G | split; [exact S | split; [vm_compute; discriminate | exact F]]].
Defined.

Lemma streaming_implies_live_handles_witness :
  isStreaming (run [StartPreview manager1 "0" 7%N None service_ok; CaptureStarted 5 3] init)
    = true /\
  cameraDevice_ (run [StartPreview manager1 "0" 7%N None service_ok; CaptureStarted 5 3] init)
    <> nullptr.
Proof.
  assert (S : isStreaming
                (run [StartPreview manager1 "0" 7%N None service_ok; CaptureStarted 5 3] init)
              = true) by reflexivity.
  pose proof (streaming_implies_live_handles
                [StartPreview manager1 "0" 7%N None service_ok; CaptureStarted 5 3])
    as (H & _).
  split; [exact S | exact (proj1 (H S))].
Defined.

Lemma statsCallback_at_most_once_per_second_witness :
  0 <= lastCallbackTimeNs_ watched < 2 ^ 62 /\
  callbackTimes [(1000000000, 1); (1500000000, 2); (2000000000, 3)] watched
  = 1000000000 :: callbackTimes [(1500000000, 2); (2000000000, 3)]
                    (fst (onCaptureStarted 1000000000 1 watched)) /\
  spaced IEEE.kNsPerSecond (lastCallbackTimeNs_ watched)
    (callbackTimes [(1000000000, 1); (1500000000, 2); (2000000000, 3)] watched).
Proof.
  assert (L : 0 <= lastCallbackTimeNs_ watched < 2 ^ 62) by (vm_compute; split; congruence).
  assert (F : Forall (fun frame : Z * Z => 0 <= fst frame < 2 ^ 62)
                [(1000000000, 1); (1500000000, 2); (2000000000, 3)]).
  { repeat constructor; cbn [fst]; try discriminate; reflexivity. }
  pose proof (statsCallback_at_most_once_per_second
                [(1000000000, 1); (1500000000, 2); (2000000000, 3)] watched L F)
    as (Sp & _ & Hd).
  split; [exact L |]. split; [| exact Sp].
  apply Hd; [reflexivity | vm_compute; discriminate | vm_compute; discriminate].
Defined.

Lemma stream_conserves_handles_witness :
  (streaming_ live = true \/ holdings live = []) /\
  Permutation
    (acquired (snd (startPreview manager1 "1" 9%N None service_refusing_request live))
     ++ holdings live)
    (freed (snd (startPreview manager1 "1" 9%N None service_refusing_request live))
     ++ holdings (snd (fst (startPreview manager1 "1" 9%N None service_refusing_request
                              live)))).
Proof.
  assert (S : streaming_ live = true \/ holdings live = []) by (left; reflexivity).
  pose proof (stream_conserves_handles manager1 "1" 9%N None service_refusing_request
                live S) as (P & _).
  split; [exact S | exact P].
Defined.

End CameraStreamConcreteRuns.

(** ** The inertial engine: lifecycle, delivery, metadata and enumeration *)

Section ImuManagerMore.
Import ImuManager.
Local Open Scope Z_scope.

Lemma is_null_false (q : ptr) : is_null q = false <-> q <> nullptr.
Proof.
  unfold is_null, nullptr. destruct (N.eqb_spec q 0); split; congruence.
Qed.

(** *** The worker's event drain *)

Lemma last_cons_default {A : Type} (a : A) (l : list A) (d : A) :
  List.last (a :: l) d = List.last l a.
Proof.
  revert a d. induction l as [| b l IH]; intros a d; [reflexivity |].
  change (List.last (a :: b :: l) d) with (List.last (b :: l) d).
  rewrite (IH b d), (IH b a). reflexivity.
Qed.

Lemma drainEvent_frame (now : Z) (event : ASensorEvent) (s : t) :
  let s' := fst (drainEvent now event s) in
  running_ s' = running_ s /\ sensorThread_ s' = sensorThread_ s /\
  callback_ s' = callback_ s /\ targetAccelHandle_ s' = targetAccelHandle_ s /\
  targetGyroHandle_ s' = targetGyroHandle_ s /\
  needsSensorSwitch_ s' = needsSensorSwitch_ s /\
  sensorManager_ s' = sensorManager_ s /\ looper_ s' = looper_ s /\
  eventQueue_ s' = eventQueue_ s /\ currentAccel_ s' = currentAccel_ s /\
  currentGyro_ s' = currentGyro_ s /\ metadata_ s' = metadata_ s.
Proof.
  cbn zeta. unfold drainEvent.
  destruct (hasType (currentAccel_ s) (event_type event));
    [cbn; auto 12 |].
  destruct (hasType (currentGyro_ s) (event_type event)); cbn; auto 12.
Qed.

Lemma drainEvents_frame (now : Z) (events : list ASensorEvent) (s : t) :
  let s' := fst (drainEvents now events s) in
  running_ s' = running_ s /\ sensorThread_ s' = sensorThread_ s /\
  callback_ s' = callback_ s /\ targetAccelHandle_ s' = targetAccelHandle_ s /\
  targetGyroHandle_ s' = targetGyroHandle_ s /\
  needsSensorSwitch_ s' = needsSensorSwitch_ s /\
  sensorManager_ s' = sensorManager_ s /\ looper_ s' = looper_ s /\
  eventQueue_ s' = eventQueue_ s /\ currentAccel_ s' = currentAccel_ s /\
  currentGyro_ s' = currentGyro_ s /\ metadata_ s' = metadata_ s.
Proof.
  cbn zeta. revert s. induction events as [| ev rest IH]; intros s.
  - cbn. auto 12.
  - rewrite drainEvents_cons.
    destruct (IH (fst (drainEvent now ev s)))
      as (A1 & A2 & A3 & A4 & A5 & A6 & A7 & A8 & A9 & A10 & A11 & A12).
    destruct (drainEvent_frame now ev s)
      as (B1 & B2 & B3 & B4 & B5 & B6 & B7 & B8 & B9 & B10 & B11 & B12).
    cbn zeta in *.
    rewrite A1, A2, A3, A4, A5, A6, A7, A8, A9, A10, A11, A12. auto 12.
Qed.

Lemma drainEvents_out_cons (now : Z) (ev : ASensorEvent) (rest : list ASensorEvent)
    (s : t) :
  snd (drainEvents now (ev :: rest) s)
  = snd (drainEvent now ev s) ++ snd (drainEvents now rest (fst (drainEvent now ev s))).
Proof.
  cbn [drainEvents]. destruct (drainEvent now ev s) as [s1 o1].
  cbn [fst snd]. destruct (drainEvents now rest s1) as [s2 o2]. reflexivity.
Qed.

(** X11. [drainEvents] hands the callback one sample per pending event whose type is that
    of the selected accelerometer or gyroscope, in queue order, tagged as
    accelerometer when the type matches the accelerometer (tested first) and as
    gyroscope otherwise; without callback nothing is handed over.  Afterwards
    [getLatestAccel] and [getLatestGyro] return the sample of the last event of
    their channel, or what they returned before when the channel had no event.  A
    drain in which no event matches changes nothing. *)
Theorem drainEvents_delivers_in_queue_order
    (now : Z) (events : list ASensorEvent) (s : t) :
  snd (drainEvents now events s)
  = match callback_ s with
    | Some _ =>
        flat_map (fun event =>
                    if hasType (currentAccel_ s) (event_type event)
                    then [accelSample event]
                    else if hasType (currentGyro_ s) (event_type event)
                         then [gyroSample event] else []) events
    | None => []
    end /\
  getLatestAccel (fst (drainEvents now events s))
  = List.last (map accelSample (accelEvents s events)) (getLatestAccel s) /\
  getLatestGyro (fst (drainEvents now events s))
  = List.last (map gyroSample (gyroEvents s events)) (getLatestGyro s) /\
  (accelEvents s events = [] -> gyroEvents s events = [] ->
   drainEvents now events s = (s, [])).
Proof.
  revert s. induction events as [| ev rest IH]; intros s.
  - cbn. destruct (callback_ s); auto.
  - rewrite drainEvents_out_cons, drainEvents_cons.
    destruct (IH (fst (drainEvent now ev s))) as (Hout & Ha & Hg & Hnone).
    destruct (drainEvent_frame now ev s)
      as (_ & _ & Hcb & _ & _ & _ & _ & _ & _ & Hca & Hcg & _).
    cbn zeta in Hcb, Hca, Hcg.
    unfold accelEvents, gyroEvents in *. rewrite Hcb, Hca, Hcg in *.
    rewrite Hout, Ha, Hg. clear Hout Ha Hg.
    cbn [flat_map List.filter map].
    unfold drainEvent, getLatestAccel, getLatestGyro.
    destruct (hasType (currentAccel_ s) (event_type ev)) eqn:A; cbn [negb andb].
    + cbn [fst snd latestAccel_ latestGyro_ map].
      split; [destruct (callback_ s); reflexivity |].
      split; [| split; [reflexivity | discriminate]].
      fold (accelSample ev). symmetry. apply last_cons_default.
    + destruct (hasType (currentGyro_ s) (event_type ev)) eqn:G.
      * cbn [fst snd latestAccel_ latestGyro_ map].
        split; [destruct (callback_ s); reflexivity |].
        split; [reflexivity |]. split; [| discriminate].
        fold (gyroSample ev). symmetry. apply last_cons_default.
      * cbn [fst snd app].
        split; [destruct (callback_ s); reflexivity |].
        split; [reflexivity |]. split; [reflexivity |].
        intros Ea Eg.
        assert (E : drainEvent now ev s = (s, []))
          by (unfold drainEvent; rewrite A, G; reflexivity).
        rewrite E in Hnone. cbn [fst] in Hnone.
        cbn [drainEvents]. rewrite E, (Hnone Ea Eg). reflexivity.
Qed.


(** *** stop *)

Lemma setup_cases (p : Platform) (s : t) :
  (sensorThread_ (sensorThreadLoop_setup p s) = Returned /\
   (ALooper_prepare p = nullptr \/ ASensorManager_createEventQueue p = nullptr) /\
   currentAccel_ (sensorThreadLoop_setup p s) = currentAccel_ s /\
   currentGyro_ (sensorThreadLoop_setup p s) = currentGyro_ s /\
   metadata_ (sensorThreadLoop_setup p s) = metadata_ s) \/
  (sensorThread_ (sensorThreadLoop_setup p s) = Polling /\
   ALooper_prepare p <> nullptr /\ ASensorManager_createEventQueue p <> nullptr /\
   looper_ (sensorThreadLoop_setup p s) = ALooper_prepare p /\
   eventQueue_ (sensorThreadLoop_setup p s) = ASensorManager_createEventQueue p /\
   currentAccel_ (sensorThreadLoop_setup p s)
     = selectSensor p (targetAccelHandle_ s) ASENSOR_TYPE_ACCELEROMETER /\
   currentGyro_ (sensorThreadLoop_setup p s)
     = selectSensor p (targetGyroHandle_ s) ASENSOR_TYPE_GYROSCOPE /\
   metadata_ (sensorThreadLoop_setup p s)
     = {| accelMinDelay_ := minDelayOf (currentAccel_ (sensorThreadLoop_setup p s));
          accelFifo_ := fifoOf (currentAccel_ (sensorThreadLoop_setup p s));
          gyroMinDelay_ := minDelayOf (currentGyro_ (sensorThreadLoop_setup p s));
          gyroFifo_ := fifoOf (currentGyro_ (sensorThreadLoop_setup p s)) |}).
Proof.
  unfold sensorThreadLoop_setup.
  destruct (is_null (ALooper_prepare p)) eqn:L.
  { left. apply N.eqb_eq in L. cbn. auto 6. }
  destruct (is_null (ASensorManager_createEventQueue p)) eqn:Q.
  { left. apply N.eqb_eq in Q. cbn. auto 6. }
  right. apply is_null_false in L, Q. cbn. auto 10.
Qed.

Lemma setup_frame (p : Platform) (s : t) :
  running_ (sensorThreadLoop_setup p s) = running_ s /\
  callback_ (sensorThreadLoop_setup p s) = callback_ s /\
  targetAccelHandle_ (sensorThreadLoop_setup p s) = targetAccelHandle_ s /\
  targetGyroHandle_ (sensorThreadLoop_setup p s) = targetGyroHandle_ s /\
  sensorManager_ (sensorThreadLoop_setup p s) = sensorManager_ s /\
  latestAccel_ (sensorThreadLoop_setup p s) = latestAccel_ s /\
  latestGyro_ (sensorThreadLoop_setup p s) = latestGyro_ s /\
  stats_ (sensorThreadLoop_setup p s) = stats_ s.
Proof.
  unfold sensorThreadLoop_setup.
  destruct (is_null (ALooper_prepare p)); [cbn; auto 10 |].
  destruct (is_null (ASensorManager_createEventQueue p)); cbn; auto 10.
Qed.

Lemma stop_frame (p : Platform) (s : t) :
  callback_ (stop p s) = callback_ s /\
  targetAccelHandle_ (stop p s) = targetAccelHandle_ s /\
  targetGyroHandle_ (stop p s) = targetGyroHandle_ s /\
  sensorManager_ (stop p s) = sensorManager_ s /\
  latestAccel_ (stop p s) = latestAccel_ s /\
  latestGyro_ (stop p s) = latestGyro_ s /\
  stats_ (stop p s) = stats_ s /\
  running_ (stop p s) = false.
Proof.
  unfold stop. destruct (running_ s) eqn:R; cbn [negb]; [| auto 10].
  cbn [sensorThread_]. destruct (sensorThread_ s); try (cbn; auto 10; fail).
  match goal with |- context [sensorThreadLoop_setup p ?u] =>
    destruct (setup_frame p u) as (A1 & A2 & A3 & A4 & A5 & A6 & A7 & A8);
    destruct (sensorThread_ (sensorThreadLoop_setup p u))
  end; cbn; cbn in A1, A2, A3, A4, A5, A6, A7, A8; auto 10.
Qed.

(** X12. [stop] leaves the engine not running and is idempotent; on an engine that is not
    running it does nothing.  On a running engine the worker is joined; when the
    worker was polling, or was spawned and gets its looper and event queue, the
    looper and the queue are null afterwards and no sensor is selected.  The
    callback, the latest samples and the statistics window are untouched. *)
Theorem stop_joins_worker_and_unregisters (p : Platform) (s : t) :
  isRunning (stop p s) = false /\
  stop p (stop p s) = stop p s /\
  (isRunning s = false -> stop p s = s) /\
  (isRunning s = true ->
   sensorThread_ (stop p s) = NotJoinable /\
   (sensorThread_ s = Polling \/
    (sensorThread_ s = Spawned /\ ALooper_prepare p <> nullptr /\
     ASensorManager_createEventQueue p <> nullptr) ->
    looper_ (stop p s) = nullptr /\ eventQueue_ (stop p s) = nullptr /\
    currentAccel_ (stop p s) = None /\ currentGyro_ (stop p s) = None)) /\
  callback_ (stop p s) = callback_ s /\
  getLatestAccel (stop p s) = getLatestAccel s /\
  getLatestGyro (stop p s) = getLatestGyro s /\
  stats_ (stop p s) = stats_ s.
Proof.
  destruct (stop_frame p s) as (F1 & F2 & F3 & F4 & F5 & F6 & F7 & F8).
  unfold isRunning, getLatestAccel, getLatestGyro.
  split; [exact F8 |].
  split; [unfold stop at 1; rewrite F8; reflexivity |].
  split; [intros R; unfold stop; rewrite R; reflexivity |].
  split; [| auto].
  intros R. unfold stop. rewrite R. cbn [negb sensorThread_].
  split; [reflexivity |].
  intros [E | (E & L & Q)]; rewrite E.
  - cbn. auto.
  - match goal with |- context [sensorThreadLoop_setup p ?u] =>
      destruct (setup_cases p u) as [(_ & [C | C] & _) | (-> & _)];
        [contradiction | contradiction |]
    end.
    cbn. auto.
Qed.

(** *** The engine over a run *)

Lemma start_settled (now : Z) (callback : ImuCallback) (s : t) :
  settled s -> settled (start now callback s).
Proof.
  intros Hs. unfold start.
  destruct (running_ s) eqn:R; [exact Hs |].
  destruct (is_null (sensorManager_ s)) eqn:M; [exact Hs |].
  destruct Hs as (A & B & C & D).
  apply is_null_false in M. unfold settled. cbn.
  split; [auto |]. split; [discriminate |]. split; [discriminate |].
  intros _. apply D. rewrite (B R). discriminate.
Qed.

Lemma stop_settled (p : Platform) (s : t) : settled s -> settled (stop p s).
Proof.
  intros Hs. unfold stop.
  destruct (running_ s) eqn:R; cbn [negb]; [| exact Hs].
  destruct Hs as (A & B & C & D).
  cbn [sensorThread_]. destruct (sensorThread_ s) eqn:Th.
  - unfold settled. cbn. split; [discriminate |]. split; [reflexivity |].
    split; [discriminate |]. intros _. apply D. discriminate.
  - match goal with |- context [sensorThreadLoop_setup p ?u] =>
      destruct (setup_cases p u) as [(E & _ & Ea & Eg & _) | (E & _)]; rewrite E
    end.
    + unfold settled. cbn [running_ sensorThread_ sensorManager_ looper_ eventQueue_
        currentAccel_ currentGyro_].
      match goal with |- context [sensorThreadLoop_setup p ?u] =>
        destruct (setup_frame p u) as (F1 & _)
      end.
      rewrite F1, Ea, Eg. cbn.
      split; [discriminate |]. split; [reflexivity |]. split; [discriminate |].
      intros _. apply D. discriminate.
    + unfold settled. cbn.
      match goal with |- context [sensorThreadLoop_setup p ?u] =>
        destruct (setup_frame p u) as (F1 & _)
      end.
      rewrite F1. cbn.
      split; [discriminate |]. split; [reflexivity |]. split; [discriminate |]. auto.
  - unfold settled. cbn. split; [discriminate |]. split; [reflexivity |].
    split; [discriminate |]. auto.
  - unfold settled. cbn. split; [discriminate |]. split; [reflexivity |].
    split; [discriminate |]. intros _. apply D. discriminate.
Qed.

Lemma act_settled (p : Platform) (a : Action) (s : t) :
  settled s -> settled (act p a s).
Proof.
  intros Hs. destruct a as [now cb | | now ah gh | now | | now events]; cbn [act].
  - apply start_settled, Hs.
  - apply stop_settled, Hs.
  - unfold switchSensors. cbn [running_ callback_].
    destruct (running_ s) eqn:R.
    + apply start_settled, stop_settled.
      destruct Hs as (A & B & C & D). unfold settled. cbn.
      split; [intros _; apply A, R |]. split; [discriminate |].
      split; [exact C | exact D].
    + destruct Hs as (A & B & C & D). unfold settled. cbn.
      split; [discriminate |]. split; [intros _; apply B, R |].
      split; [exact C | exact D].
  - destruct Hs as (A & B & C & D). unfold settled, getStats, with_stats. cbn. auto.
  - destruct (sensorThread_ s) eqn:Th; try exact Hs.
    destruct Hs as (A & B & C & D).
    assert (R : running_ s = true).
    { destruct (running_ s); [reflexivity |]. rewrite (B eq_refl) in Th. discriminate. }
    destruct (setup_frame p s) as (F1 & _ & _ & _ & F5 & _).
    destruct (setup_cases p s) as [(E & _ & Ea & Eg & _) | (E & L & Q & El & Eq & _)];
      unfold settled; rewrite F1, F5, E, R.
    + rewrite Ea, Eg. split; [auto |]. split; [discriminate |].
      split; [discriminate |]. intros _. apply D. rewrite Th. discriminate.
    + rewrite El, Eq. split; [auto |]. split; [discriminate |].
      split; [auto |]. intros N. contradiction.
  - destruct (sensorThread_ s) eqn:Th; try exact Hs.
    destruct Hs as (A & B & C & D).
    destruct (drainEvents_frame now events s)
      as (F1 & F2 & _ & _ & _ & _ & F7 & F8 & F9 & F10 & F11 & _).
    cbn zeta in *. unfold settled. rewrite F1, F2, F7, F8, F9, F10, F11, Th.
    rewrite Th in B, C, D. auto.
Qed.

(** X13. In every state reached from a fresh engine by any sequence of [start], [stop],
    [switchSensors], [getStats], worker set-ups and event drains: the sensor manager
    is the one of the construction; without a sensor manager the engine never runs;
    an engine that does not run has no joinable worker, and [getMetadata] names both
    sensors "None"; a polling worker means a running engine with a looper and an
    event queue. *)
Theorem engine_stopped_has_no_worker
    (p : Platform) (sensorManager : ptr) (actions : list Action) :
  let s := runActions p actions (init sensorManager) in
  sensorManager_ s = sensorManager /\
  (sensorManager = nullptr -> isRunning s = false) /\
  (isRunning s = false ->
   sensorThread_ s = NotJoinable /\
   accelName (getMetadata s) = "None"%string /\
   gyroName (getMetadata s) = "None"%string) /\
  (sensorThread_ s = Polling ->
   isRunning s = true /\ looper_ s <> nullptr /\ eventQueue_ s <> nullptr).
Proof.
  cbn zeta.
  assert (H : settled (runActions p actions (init sensorManager)) /\
              sensorManager_ (runActions p actions (init sensorManager)) = sensorManager).
  { assert (H0 : settled (init sensorManager) /\
                 sensorManager_ (init sensorManager) = sensorManager).
    { unfold settled, init. cbn. split; [| reflexivity].
      split; [discriminate |]. split; [reflexivity |]. split; [discriminate |]. auto. }
    revert H0. generalize (init sensorManager). unfold runActions.
    induction actions as [| a rest IH]; intros s [Hs Hm]; cbn [fold_left]; [auto |].
    apply IH. split; [apply act_settled, Hs |].
    rewrite <- Hm. clear IH Hm Hs.
    destruct a as [now cb | | now ah gh | now | | now events]; cbn [act].
    - unfold start. destruct (running_ s); [reflexivity |].
      destruct (is_null (sensorManager_ s)); reflexivity.
    - apply stop_frame.
    - unfold switchSensors. cbn [running_ callback_]. destruct (running_ s); [| reflexivity].
      match goal with |- sensorManager_ (start _ _ (stop p ?u)) = _ =>
        destruct (stop_frame p u) as (_ & _ & _ & F4 & _ & _ & _ & F8);
        unfold start; rewrite F8, F4;
        destruct (is_null (sensorManager_ u)); cbn; [exact F4 | reflexivity]
      end.
    - reflexivity.
    - destruct (sensorThread_ s); try reflexivity. apply setup_frame.
    - destruct (sensorThread_ s); try reflexivity. apply drainEvents_frame. }
  destruct H as ((A & B & C & D) & M).
  unfold isRunning, getMetadata. cbn [accelName gyroName].
  split; [exact M |]. split; [| split].
  - intros ->. destruct (running_ _) eqn:R; [| reflexivity].
    exfalso. apply (A eq_refl). exact M.
  - intros R. pose proof (B R) as Th. split; [exact Th |].
    destruct D as [-> ->]; [rewrite Th; discriminate | auto].
  - intros Th. split; [| apply C, Th].
    destruct (running_ _) eqn:R; [reflexivity |]. rewrite (B eq_refl) in Th. discriminate.
Qed.


(** *** Enumeration and metadata *)

Lemma enumerateFrom_spec (i : Z) (sensors : list ASensor) (info : SensorInfo) :
  In info (enumerateFrom i sensors) <->
  exists (n : nat) (sensor : ASensor),
    nth_error sensors n = Some sensor /\
    isImuType (ASensor_getType sensor) = true /\
    info = sensorInfo (i + Z.of_nat n) sensor.
Proof.
  revert i. induction sensors as [| a rest IH]; intros i; cbn [enumerateFrom].
  - split; [intros [] | intros (n & sensor & H & _)]. destruct n; discriminate.
  - rewrite in_app_iff, IH. split.
    + intros [H | (n & sensor & Hn & Ht & ->)].
      * destruct (isImuType (ASensor_getType a)) eqn:E; [| destruct H].
        destruct H as [<- | []]. exists 0%nat, a.
        rewrite Z.add_0_r. auto.
      * exists (S n), sensor. split; [exact Hn |]. split; [exact Ht |].
        f_equal. lia.
    + intros (n & sensor & Hn & Ht & ->). destruct n as [| n].
      * left. injection Hn as ->. rewrite Ht, Z.add_0_r. left. reflexivity.
      * right. exists n, sensor. split; [exact Hn |]. split; [exact Ht |].
        f_equal. lia.
Qed.

Lemma enumerateFrom_sorted (i : Z) (sensors : list ASensor) :
  StronglySorted Z.lt (map handle (enumerateFrom i sensors)).
Proof.
  revert i. induction sensors as [| a rest IH]; intros i; cbn [enumerateFrom];
    [constructor |].
  assert (Hlater : Forall (fun h => i < h) (map handle (enumerateFrom (i + 1) rest))).
  { apply List.Forall_forall. intros h Hin. apply in_map_iff in Hin.
    destruct Hin as (info & <- & Hin). apply enumerateFrom_spec in Hin.
    destruct Hin as (n & sensor & _ & _ & ->). cbn. lia. }
  destruct (isImuType (ASensor_getType a)); cbn [app map]; [| apply IH].
  constructor; [apply IH | exact Hlater].
Qed.

Lemma selectSensor_in_catalog (p : Platform) (n : nat) (sensor : ASensor) (type' : Z) :
  nth_error (ASensorManager_getSensorList p) n = Some sensor ->
  selectSensor p (Z.of_nat n) type' = Some sensor.
Proof.
  intros H. unfold selectSensor.
  assert (L : (n < length (ASensorManager_getSensorList p))%nat)
    by (apply nth_error_Some; congruence).
  destruct (Z.geb_spec (Z.of_nat n) 0) as [_ | G]; [| lia].
  destruct (Z.ltb_spec (Z.of_nat n) (Z.of_nat (length (ASensorManager_getSensorList p))))
    as [_ | G]; [| lia].
  cbn [andb]. rewrite Nat2Z.id. exact H.
Qed.

(** X14. [enumerateSensors] returns nothing without a sensor manager.  Otherwise it
    returns exactly the catalog entries of type 1, 4, 35 or 16, each with its catalog
    index as handle, in strictly increasing order of handle.  Every handle it
    returns lies in [0, catalog size) and, used as a selector, selects the sensor it
    describes, whatever the type of the fallback. *)
Theorem enumerateSensors_lists_the_imu_sensors
    (p : Platform) (s : t) (info : SensorInfo) :
  (sensorManager_ s = nullptr -> enumerateSensors p s = []) /\
  (sensorManager_ s <> nullptr ->
   (In info (enumerateSensors p s) <->
    exists (n : nat) (sensor : ASensor),
      nth_error (ASensorManager_getSensorList p) n = Some sensor /\
      isImuType (ASensor_getType sensor) = true /\
      info = sensorInfo (Z.of_nat n) sensor)) /\
  StronglySorted Z.lt (map handle (enumerateSensors p s)) /\
  (In info (enumerateSensors p s) ->
   0 <= handle info < Z.of_nat (length (ASensorManager_getSensorList p)) /\
   In (type info) [1; 4; 35; 16] /\
   forall fallback,
     option_map (sensorInfo (handle info)) (selectSensor p (handle info) fallback)
     = Some info).
Proof.
  unfold enumerateSensors.
  split; [intros ->; reflexivity |].
  split.
  { intros M. apply is_null_false in M. rewrite M. apply enumerateFrom_spec. }
  split.
  { destruct (is_null (sensorManager_ s)); [constructor | apply enumerateFrom_sorted]. }
  destruct (is_null (sensorManager_ s)); [intros [] |].
  intros Hin. apply enumerateFrom_spec in Hin.
  destruct Hin as (n & sensor & Hn & Ht & ->). cbn [handle type sensorInfo].
  rewrite Z.add_0_l.
  split.
  { assert (L : (n < length (ASensorManager_getSensorList p))%nat)
      by (apply nth_error_Some; congruence). lia. }
  split.
  { unfold isImuType, ASENSOR_TYPE_ACCELEROMETER, ASENSOR_TYPE_GYROSCOPE,
      ASENSOR_TYPE_ACCELEROMETER_UNCALIBRATED, ASENSOR_TYPE_GYROSCOPE_UNCALIBRATED in Ht.
    cbn [In].
    destruct (Z.eqb_spec (ASensor_getType sensor) 1); [auto |].
    destruct (Z.eqb_spec (ASensor_getType sensor) 4); [auto |].
    destruct (Z.eqb_spec (ASensor_getType sensor) 35); [auto |].
    destruct (Z.eqb_spec (ASensor_getType sensor) 16); [auto 6 | discriminate]. }
  intros fallback. rewrite (selectSensor_in_catalog p n sensor fallback Hn). reflexivity.
Qed.

Lemma switchSensors_targets (p : Platform) (now accelHandle gyroHandle : Z) (s : t) :
  targetAccelHandle_ (switchSensors p now accelHandle gyroHandle s) = accelHandle /\
  targetGyroHandle_ (switchSensors p now accelHandle gyroHandle s) = gyroHandle.
Proof.
  unfold switchSensors. cbn [running_ callback_].
  destruct (running_ s); [| auto].
  match goal with |- context [start now ?cb (stop p ?u)] =>
    destruct (stop_frame p u) as (_ & F2 & F3 & F4 & _ & _ & _ & F8);
    unfold start; rewrite F8;
    destruct (is_null (sensorManager_ (stop p u))); cbn; rewrite ?F2, ?F3; auto
  end.
Qed.

(** X15. Enumerate, switch, read back.  When the worker gets its looper and its event
    queue, then after [switchSensors] with the handles of two enumerated sensors and
    the set-up of the worker, [getMetadata] reports for each channel the name, the
    minimum delay and the FIFO size that [enumerateSensors] listed under that
    handle, and the selected sensors have the listed types. *)
Theorem enumerated_sensor_can_be_selected
    (p : Platform) (now : Z) (s : t) (accel gyro : SensorInfo) :
  ALooper_prepare p <> nullptr -> ASensorManager_createEventQueue p <> nullptr ->
  In accel (enumerateSensors p s) -> In gyro (enumerateSensors p s) ->
  let s' := sensorThreadLoop_setup p (switchSensors p now (handle accel) (handle gyro) s) in
  accelName (getMetadata s') = name accel /\
  accelMinDelayUs (getMetadata s') = minDelayUs accel /\
  accelFifoReserved (getMetadata s') = fifoReserved accel /\
  gyroName (getMetadata s') = name gyro /\
  gyroMinDelayUs (getMetadata s') = minDelayUs gyro /\
  gyroFifoReserved (getMetadata s') = fifoReserved gyro /\
  option_map ASensor_getType (currentAccel_ s') = Some (type accel) /\
  option_map ASensor_getType (currentGyro_ s') = Some (type gyro).
Proof.
  intros L Q Ha Hg. cbn zeta.
  unfold enumerateSensors in Ha, Hg.
  destruct (is_null (sensorManager_ s)); [destruct Ha |].
  apply enumerateFrom_spec in Ha, Hg.
  destruct Ha as (na & sa & Hna & _ & ->). destruct Hg as (ng & sg & Hng & _ & ->).
  cbn [handle name minDelayUs fifoReserved type sensorInfo]. rewrite !Z.add_0_l.
  destruct (switchSensors_targets p now (Z.of_nat na) (Z.of_nat ng) s) as [Ta Tg].
  destruct (setup_cases p (switchSensors p now (Z.of_nat na) (Z.of_nat ng) s))
    as [(_ & [C | C] & _) | (_ & _ & _ & _ & _ & Ea & Eg & Em)];
    [contradiction | contradiction |].
  unfold getMetadata. rewrite Em.
  cbn [accelName accelMinDelayUs accelFifoReserved gyroName gyroMinDelayUs
       gyroFifoReserved accelMinDelay_ accelFifo_ gyroMinDelay_ gyroFifo_].
  rewrite Ea, Eg, Ta, Tg.
  rewrite (selectSensor_in_catalog p na sa _ Hna), (selectSensor_in_catalog p ng sg _ Hng).
  cbn. auto 10.
Qed.

(** X16. [switchSensors] keeps the callback and the latest samples, and sets the
    switch-pending flag.  On an engine that does not run, the worker, the statistics
    window and the metadata stay as they are.  On a running engine with a sensor
    manager the engine runs again, with a freshly spawned worker and a statistics
    window that starts at the time of the restart with zero counts. *)
Theorem switchSensors_restart_keeps_callback
    (p : Platform) (now accelHandle gyroHandle : Z) (s : t) :
  let s' := switchSensors p now accelHandle gyroHandle s in
  callback_ s' = callback_ s /\
  getLatestAccel s' = getLatestAccel s /\ getLatestGyro s' = getLatestGyro s /\
  needsSensorSwitch_ s' = true /\
  (isRunning s = false ->
   isRunning s' = false /\ sensorThread_ s' = sensorThread_ s /\ stats_ s' = stats_ s /\
   getMetadata s' = getMetadata s) /\
  (isRunning s = true -> sensorManager_ s <> nullptr ->
   isRunning s' = true /\ sensorThread_ s' = Spawned /\
   stats_ s' = resetWindow now).
Proof.
  cbn zeta. unfold switchSensors, isRunning, getLatestAccel, getLatestGyro.
  cbn [running_ callback_].
  destruct (running_ s) eqn:R.
  2:{ cbn. split; [reflexivity |]. split; [reflexivity |]. split; [reflexivity |].
      split; [reflexivity |]. split; [auto | discriminate]. }
  match goal with |- context [start now ?cb (stop p ?u)] =>
    destruct (stop_frame p u) as (F1 & F2 & F3 & F4 & F5 & F6 & F7 & F8);
    set (v := stop p u) in *
  end.
  cbn [callback_ sensorManager_ latestAccel_ latestGyro_] in F1, F4, F5, F6.
  assert (N : needsSensorSwitch_ v = true).
  { subst v. unfold stop. cbn [running_ negb sensorThread_].
    destruct (sensorThread_ s); try reflexivity.
    unfold sensorThreadLoop_setup.
    destruct (is_null (ALooper_prepare p)); [reflexivity |].
    destruct (is_null (ASensorManager_createEventQueue p)); reflexivity. }
  unfold start. rewrite F8, F4.
  destruct (is_null (sensorManager_ s)) eqn:M.
  - split; [exact F1 |]. split; [exact F5 |]. split; [exact F6 |].
    split; [exact N |]. split; [discriminate |].
    intros _ Hm. apply is_null_false in Hm. congruence.
  - cbn. split; [reflexivity |]. split; [exact F5 |]. split; [exact F6 |].
    split; [exact N |]. split; [discriminate |]. auto.
Qed.

End ImuManagerMore.

(** *** Concrete runs *)

Section ImuManagerConcreteRuns.
Import ImuManager.
Local Open Scope Z_scope.

Lemma drainEvents_delivers_in_queue_order_witness :
  accelEvents engine0 [{| event_type := 99; event_timestamp := 5; event_x := IEEE.zero;
                          event_y := IEEE.zero; event_z := IEEE.zero |}] = [] /\
  gyroEvents engine0 [{| event_type := 99; event_timestamp := 5; event_x := IEEE.zero;
                         event_y := IEEE.zero; event_z := IEEE.zero |}] = [] /\
  drainEvents 9 [{| event_type := 99; event_timestamp := 5; event_x := IEEE.zero;
                    event_y := IEEE.zero; event_z := IEEE.zero |}] engine0
  = (engine0, []) /\
  getLatestAccel (fst (drainEvents 1000 [accelEventAt 100; accelEventAt 200] engine0))
  = accelSample (accelEventAt 200).
Proof.
  assert (A : accelEvents engine0
                [{| event_type := 99; event_timestamp := 5; event_x := IEEE.zero;
                    event_y := IEEE.zero; event_z := IEEE.zero |}] = []) by reflexivity.
  assert (G : gyroEvents engine0
                [{| event_type := 99; event_timestamp := 5; event_x := IEEE.zero;
                    event_y := IEEE.zero; event_z := IEEE.zero |}] = []) by reflexivity.
  pose proof (drainEvents_delivers_in_queue_order 9
                [{| event_type := 99; event_timestamp := 5; event_x := IEEE.zero;
                    event_y := IEEE.zero; event_z := IEEE.zero |}] engine0)
    as (_ & _ & _ & N).
  pose proof (drainEvents_delivers_in_queue_order 1000
                [accelEventAt 100; accelEventAt 200] engine0) as (_ & L & _).
  split; [exact A | split; [exact G | split; [exact (N A G) |]]].
  rewrite L. reflexivity.
Defined.

Lemma stop_joins_worker_and_unregisters_witness :
  isRunning sampled = true /\ sensorThread_ sampled = Polling /\
  sensorThread_ (stop platform0 sampled) = NotJoinable /\
  eventQueue_ (stop platform0 sampled) = nullptr /\
  currentAccel_ (stop platform0 sampled) = None /\
  stop platform0 (stop platform0 sampled) = stop platform0 sampled.
Proof.
  assert (R : isRunning sampled = true) by reflexivity.
  assert (P : sensorThread_ sampled = Polling) by reflexivity.
  pose proof (stop_joins_worker_and_unregisters platform0 sampled)
    as (_ & I & _ & H & _).
  destruct (H R) as (T & U). destruct (U (or_introl P)) as (_ & Q & A & _).
  split; [exact R | split; [exact P | split; [exact T | split; [exact Q |]]]].
  split; [exact A | exact I].
Defined.

Lemma engine_stopped_has_no_worker_witness :
  isRunning (runActions platform0 [Start 0 None; WorkerSetup; Stop] (init 1%N)) = false /\
  accelName (getMetadata (runActions platform0 [Start 0 None; WorkerSetup; Stop] (init 1%N)))
  = "None"%string /\
  isRunning (runActions platform0 [Start 0 None; WorkerSetup] (init nullptr)) = false.
Proof.
  assert (R : isRunning (runActions platform0 [Start 0 None; WorkerSetup; Stop] (init 1%N))
              = false) by reflexivity.
  pose proof (engine_stopped_has_no_worker platform0 1%N [Start 0 None; WorkerSetup; Stop])
    as (_ & _ & H & _).
  pose proof (engine_stopped_has_no_worker platform0 nullptr [Start 0 None; WorkerSetup])
    as (_ & N & _).
  split; [exact R | split; [exact (proj1 (proj2 (H R))) | exact (N eq_refl)]].
Defined.

Lemma enumerateSensors_lists_the_imu_sensors_witness :
  In (sensorInfo 2 accel1) (enumerateSensors platform0 (init 1%N)) /\
  option_map (sensorInfo 2) (selectSensor platform0 2 ASENSOR_TYPE_GYROSCOPE)
  = Some (sensorInfo 2 accel1) /\
  enumerateSensors platform0 (init nullptr) = [].
Proof.
  assert (I : In (sensorInfo 2 accel1) (enumerateSensors platform0 (init 1%N)))
    by (right; right; left; reflexivity).
  pose proof (enumerateSensors_lists_the_imu_sensors platform0 (init 1%N) (sensorInfo 2 accel1))
    as (_ & _ & _ & H).
  pose proof (enumerateSensors_lists_the_imu_sensors platform0 (init nullptr)
                (sensorInfo 2 accel1)) as (N & _).
  destruct (H I) as (_ & _ & S).
  split; [exact I |]. split; [exact (S ASENSOR_TYPE_GYROSCOPE) | exact (N eq_refl)].
Defined.

Lemma enumerated_sensor_can_be_selected_witness :
  ALooper_prepare platform0 <> nullptr /\
  ASensorManager_createEventQueue platform0 <> nullptr /\
  In (sensorInfo 2 accel1) (enumerateSensors platform0 sampled) /\
  In (sensorInfo 1 gyro0) (enumerateSensors platform0 sampled) /\
  accelName (getMetadata (sensorThreadLoop_setup platform0
                            (switchSensors platform0 5 2 1 sampled)))
  = "accel-uncal"%string /\
  gyroMinDelayUs (getMetadata (sensorThreadLoop_setup platform0
                                 (switchSensors platform0 5 2 1 sampled)))
  = 2500.
Proof.
  assert (L : ALooper_prepare platform0 <> nullptr) by discriminate.
  assert (Q : ASensorManager_createEventQueue platform0 <> nullptr) by discriminate.
  assert (A : In (sensorInfo 2 accel1) (enumerateSensors platform0 sampled))
    by (right; right; left; reflexivity).
  assert (G : In (sensorInfo 1 gyro0) (enumerateSensors platform0 sampled))
    by (right; left; reflexivity).
  pose proof (enumerated_sensor_can_be_selected platform0 5 sampled
                (sensorInfo 2 accel1) (sensorInfo 1 gyro0) L Q A G)
    as (N & _ & _ & _ & D & _).
  split; [exact L | split; [exact Q | split; [exact A | split; [exact G |]]]].
  split; [exact N | exact D].
Defined.

Lemma switchSensors_restart_keeps_callback_witness :
  isRunning sampled = true /\ sensorManager_ sampled <> nullptr /\
  isRunning (switchSensors platform0 5 2 1 sampled) = true /\
  stats_ (switchSensors platform0 5 2 1 sampled) = resetWindow 5 /\
  callback_ (switchSensors platform0 5 2 1 sampled) = callback_ sampled.
Proof.
  assert (R : isRunning sampled = true) by reflexivity.
  assert (M : sensorManager_ sampled <> nullptr) by discriminate.
  pose proof (switchSensors_restart_keeps_callback platform0 5 2 1 sampled)
    as (C & _ & _ & _ & _ & H).
  destruct (H R M) as (R' & _ & S).
  split; [exact R | split; [exact M | split; [exact R' | split; [exact S | exact C]]]].
Defined.

End ImuManagerConcreteRuns.

(** ** Camera characteristics and enumeration *)

Section CameraEnumeration.
Import CameraManager.
Local Open Scope Z_scope.

Lemma largerOutput_fold (configs : list (Z * Z * Z * Z)) (best : Z * Z) :
  let r := fold_left largerOutput configs best in
  (r = best \/
   exists format isInput,
     In (format, fst r, snd r, isInput) configs /\
     isCandidate (format, fst r, snd r, isInput) = true) /\
  area (fst best) (snd best) <= area (fst r) (snd r) /\
  (forall format width height isInput,
     In (format, width, height, isInput) configs ->
     isCandidate (format, width, height, isInput) = true ->
     area width height <= area (fst r) (snd r)).
Proof.
  cbn zeta. revert best. induction configs as [| c rest IH]; intros best.
  - cbn. split; [auto |]. split; [lia |]. intros ? ? ? ? [].
  - cbn [fold_left]. destruct (IH (largerOutput best c)) as (Hr & Hb & Hall).
    destruct best as [mw mh]. destruct c as [[[f w] h] i].
    unfold largerOutput in Hr, Hb, Hall |- *. cbn [fst snd] in *.
    destruct (isCandidate (f, w, h, i)) eqn:Cand.
    + fold (area w h) in Hr, Hb, Hall |- *. fold (area mw mh) in Hr, Hb, Hall |- *.
      destruct (Z.gtb_spec (area w h) (area mw mh)) as [G | G].
      * split.
        { right. destruct Hr as [-> | (f' & i' & Hin & Hc)].
          - exists f, i. cbn [fst snd]. split; [left; reflexivity | exact Cand].
          - exists f', i'. split; [right; exact Hin | exact Hc]. }
        cbn [fst snd] in Hb. split; [lia |].
        intros f' w' h' i' [E | Hin] Hc.
        { injection E as <- <- <- <-. exact Hb. }
        eapply Hall; eassumption.
      * split.
        { destruct Hr as [-> | (f' & i' & Hin & Hc)]; [left; reflexivity |].
          right. exists f', i'. split; [right; exact Hin | exact Hc]. }
        cbn [fst snd] in Hb. split; [lia |].
        intros f' w' h' i' [E | Hin] Hc.
        { injection E as <- <- <- <-. lia. }
        eapply Hall; eassumption.
    + split.
      { destruct Hr as [-> | (f' & i' & Hin & Hc)]; [left; reflexivity |].
        right. exists f', i'. split; [right; exact Hin | exact Hc]. }
      cbn [fst snd] in Hb. split; [lia |].
      intros f' w' h' i' [E | Hin] Hc.
      { injection E as <- <- <- <-. congruence. }
      eapply Hall; eassumption.
Qed.

Lemma highestFps_fold (ranges : list (Z * Z)) (start : Z) :
  let r := fold_left (fun maxFps range => Z.max maxFps (snd range)) ranges start in
  start <= r /\
  (forall range, In range ranges -> snd range <= r) /\
  (r = start \/ exists range, In range ranges /\ snd range = r).
Proof.
  cbn zeta. revert start. induction ranges as [| a rest IH]; intros start.
  - cbn. split; [lia |]. split; [intros ? [] | auto].
  - cbn [fold_left]. destruct (IH (Z.max start (snd a))) as (A & B & C).
    split; [lia |]. split.
    + intros range [<- | Hin]; [lia | apply B, Hin].
    + destruct C as [C | (range & Hin & E)].
      * destruct (Z.max_spec start (snd a)) as [[_ M] | [_ M]].
        -- right. exists a. split; [left; reflexivity | congruence].
        -- left. congruence.
      * right. exists range. split; [right; exact Hin | exact E].
Qed.

(** X17. For a camera whose characteristics are available with stream configurations and
    frame-rate ranges, [queryCharacteristics] keeps the id; returns [true] exactly
    when the chosen width and height are positive; chooses either 0x0 or the size of
    an output configuration of format 0x23 or 0x22 whose 32-bit pixel count is at
    least that of every such configuration; and reports as [maxFps] a non-negative
    value that bounds the upper end of every range and is 0 or one of these upper
    ends. *)
Theorem queryCharacteristics_picks_largest_output
    (catalog : CameraCatalog) (cameraId : string) (outInfo : CameraInfo)
    (metadata : ACameraMetadata) (configs : list (Z * Z * Z * Z))
    (ranges : list (Z * Z)) :
  ACameraManager_getCameraCharacteristics catalog cameraId = (ACAMERA_OK, Some metadata) ->
  streamConfigurations metadata = Some configs ->
  targetFpsRanges metadata = Some ranges ->
  let r := queryCharacteristics catalog cameraId outInfo in
  id (snd r) = id outInfo /\
  (fst r = true <-> 0 < width (snd r) /\ 0 < height (snd r)) /\
  ((width (snd r) = 0 /\ height (snd r) = 0) \/
   exists format,
     In (format, width (snd r), height (snd r), 0) configs /\
     (format = 35 \/ format = 34)) /\
  (forall format width' height',
     In (format, width', height', 0) configs -> format = 35 \/ format = 34 ->
     area width' height' <= area (width (snd r)) (height (snd r))) /\
  0 <= maxFps (snd r) /\
  (forall range, In range ranges -> snd range <= maxFps (snd r)) /\
  (maxFps (snd r) = 0 \/ exists range, In range ranges /\ snd range = maxFps (snd r)).
Proof.
  intros Hc Hs Hf. cbn zeta. unfold queryCharacteristics. rewrite Hc, Hs, Hf.
  cbn [negb Z.eqb ACAMERA_OK].
  destruct (largerOutput_fold configs (0, 0)) as (Hr & _ & Hall).
  destruct (highestFps_fold ranges 0) as (F1 & F2 & F3).
  fold (largestOutput configs) in Hr, Hall. fold (highestFps ranges) in F1, F2, F3.
  destruct (largestOutput configs) as [w h]. cbn [fst snd] in Hr, Hall.
  destruct (physicalIds metadata) as [ids |]; cbn [fst snd id width height maxFps].
  all: split; [reflexivity |].
  all: split;
    [rewrite andb_true_iff; split;
       [intros [A B]; split; [destruct (Z.gtb_spec w 0) | destruct (Z.gtb_spec h 0)];
          (lia || discriminate)
       | intros [A B]; split;
          [destruct (Z.gtb_spec w 0) | destruct (Z.gtb_spec h 0)]; (reflexivity || lia)] |].
  all: split;
    [destruct Hr as [E | (f & i & Hin & Cand)];
       [left; injection E as -> ->; auto
       | right; exists f; unfold isCandidate in Cand;
         apply andb_true_iff in Cand; destruct Cand as [Ci Cf];
         apply Z.eqb_eq in Ci; subst i; split; [exact Hin |];
         apply orb_true_iff in Cf; destruct Cf as [Cf | Cf]; apply Z.eqb_eq in Cf; auto] |].
  all: split;
    [intros f w' h' Hin Hfmt; apply (Hall f w' h' 0 Hin);
     unfold isCandidate; destruct Hfmt as [-> | ->]; reflexivity |].
  all: auto.
Qed.


Lemma classifyCamera_positive (info : CameraInfo) (cameraId : string) :
  0 < width info -> 0 < height info -> Int.in_int32 (width info * height info) ->
  classifyCamera info cameraId <> CameraClusterType.Unknown.
Proof.
  intros W H R. unfold classifyCamera. cbn zeta.
  rewrite (int32_in_range _ R).
  assert (P : 0 < width info * height info) by nia.
  destruct (_ || _ || _)%bool; [discriminate |].
  destruct (_ || _)%bool; [discriminate |].
  destruct (_ || _)%bool; [discriminate |].
  destruct (Z.geb_spec (width info * height info) kHighResThreshold) as [_ | L];
    [discriminate |].
  destruct (Z.gtb_spec (width info * height info) 0) as [_ | G]; [| lia].
  destruct (facing_eqb (facing info) CameraFacing.Front); cbn [andb]; [discriminate |].
  destruct (facing_eqb (facing info) CameraFacing.External); [discriminate |].
  destruct (Z.ltb_spec (width info * height info) kHighResThreshold) as [_ | G];
    [discriminate | lia].
Qed.

Lemma queryCharacteristics_id (catalog : CameraCatalog) (cameraId : string)
    (outInfo : CameraInfo) :
  id (snd (queryCharacteristics catalog cameraId outInfo)) = id outInfo /\
  (fst (queryCharacteristics catalog cameraId outInfo) = true ->
   exists metadata,
     ACameraManager_getCameraCharacteristics catalog cameraId
     = (ACAMERA_OK, Some metadata)).
Proof.
  unfold queryCharacteristics.
  destruct (ACameraManager_getCameraCharacteristics catalog cameraId) as [status [m |]];
    [| split; [reflexivity | discriminate]].
  destruct (Z.eqb_spec status ACAMERA_OK) as [-> | N]; cbn [negb];
    [| split; [reflexivity | discriminate]].
  destruct (match streamConfigurations m with Some c => _ | None => _ end) as [w h].
  destruct (match physicalIds m with Some c => _ | None => _ end) as [ph ids].
  split; [reflexivity | intros _; exists m; reflexivity].
Qed.

Lemma enumerateCamera_spec (catalog : CameraCatalog) (cameraId : string)
    (info : CameraInfo) :
  In info (enumerateCamera catalog cameraId) ->
  enumerateCamera catalog cameraId = [info] /\
  id info = cameraId /\ 0 < width info /\ 0 < height info /\
  clusterType info = classifyCamera info (id info) /\
  exists metadata,
    ACameraManager_getCameraCharacteristics catalog cameraId = (ACAMERA_OK, Some metadata).
Proof.
  unfold enumerateCamera.
  destruct (queryCharacteristics_id catalog cameraId (newCameraInfo cameraId)) as [Hid Hok].
  destruct (queryCharacteristics catalog cameraId (newCameraInfo cameraId)) as [ok q].
  cbn [fst snd] in Hid, Hok.
  destruct ok; cbn [andb]; [| intros []].
  destruct (Z.gtb_spec (width q) 0) as [W | W]; cbn [andb]; [| intros []].
  destruct (Z.gtb_spec (height q) 0) as [H | H]; [| intros []].
  intros [<- | []]. cbn [id width height clusterType].
  split; [reflexivity |]. split; [exact Hid |]. split; [lia |]. split; [lia |].
  split; [rewrite Hid; reflexivity | apply Hok; reflexivity].
Qed.

Lemma flat_map_sublist (catalog : CameraCatalog) (cameraIds : list string) :
  sublist (map id (flat_map (enumerateCamera catalog) cameraIds)) cameraIds.
Proof.
  induction cameraIds as [| c rest IH]; cbn [flat_map]; [constructor |].
  destruct (enumerateCamera catalog c) as [| info more] eqn:E.
  - cbn [app]. apply sublist_cons, IH.
  - destruct (enumerateCamera_spec catalog c info) as (E1 & Hid & _).
    { rewrite E. left. reflexivity. }
    rewrite E in E1. injection E1 as ->. cbn [app map]. rewrite Hid.
    apply sublist_skip, IH.
Qed.

(** X18. [enumerateCameras] returns nothing when the manager is invalid or the id list is
    refused.  Otherwise the ids of the returned cameras form a subsequence of the
    platform's id list, and each returned camera has characteristics, a positive
    width and height, the cluster type that [classifyCamera] gives its own
    description and, when width times height fits 32 bits, a cluster type other than
    Unknown. *)
Theorem enumerateCameras_lists_usable_cameras
    (catalog : CameraCatalog) (m : t) (info : CameraInfo) :
  (isValid m = false -> enumerateCameras catalog m = []) /\
  (fst (ACameraManager_getCameraIdList catalog) <> ACAMERA_OK ->
   enumerateCameras catalog m = []) /\
  sublist (map id (enumerateCameras catalog m))
          (default [] (snd (ACameraManager_getCameraIdList catalog))) /\
  (In info (enumerateCameras catalog m) ->
   0 < width info /\ 0 < height info /\
   clusterType info = classifyCamera info (id info) /\
   (Int.in_int32 (width info * height info) ->
    clusterType info <> CameraClusterType.Unknown) /\
   exists metadata,
     ACameraManager_getCameraCharacteristics catalog (id info)
     = (ACAMERA_OK, Some metadata)).
Proof.
  unfold enumerateCameras.
  split; [intros ->; reflexivity |].
  split.
  { intros N. destruct (negb (isValid m)); [reflexivity |].
    destruct (ACameraManager_getCameraIdList catalog) as [status [ids |]]; [| reflexivity].
    cbn [fst] in N. destruct (Z.eqb_spec status ACAMERA_OK); [contradiction | reflexivity]. }
  destruct (negb (isValid m)).
  { split; [apply sublist_nil_l | intros []]. }
  destruct (ACameraManager_getCameraIdList catalog) as [status [ids |]];
    [| split; [apply sublist_nil_l | intros []]].
  destruct (negb (status =? ACAMERA_OK)); [split; [apply sublist_nil_l | intros []] |].
  cbn [snd default]. split; [apply flat_map_sublist |].
  intros Hin. apply in_flat_map in Hin. destruct Hin as (c & _ & Hin).
  destruct (enumerateCamera_spec catalog c info Hin) as (_ & Hid & W & H & Hc & Hm).
  split; [exact W |]. split; [exact H |]. split; [exact Hc |].
  split; [| rewrite Hid; exact Hm].
  intros R. rewrite Hc. apply classifyCamera_positive; assumption.
Qed.

End CameraEnumeration.

(** *** A concrete catalog *)

Section CameraEnumerationRuns.
Import CameraManager.
Local Open Scope Z_scope.

Lemma queryCharacteristics_picks_largest_output_witness :
  ACameraManager_getCameraCharacteristics catalog0 "0" = (ACAMERA_OK, Some metadata0) /\
  fst (queryCharacteristics catalog0 "0" (newCameraInfo "0")) = true /\
  area 640 480
  <= area (width (snd (queryCharacteristics catalog0 "0" (newCameraInfo "0"))))
          (height (snd (queryCharacteristics catalog0 "0" (newCameraInfo "0")))) /\
  30 <= maxFps (snd (queryCharacteristics catalog0 "0" (newCameraInfo "0"))).
Proof.
  assert (C : ACameraManager_getCameraCharacteristics catalog0 "0"
              = (ACAMERA_OK, Some metadata0)) by reflexivity.
  pose proof (queryCharacteristics_picks_largest_output catalog0 "0" (newCameraInfo "0")
                metadata0 _ _ C eq_refl eq_refl) as (_ & Ok & _ & Hmax & _ & Hfps & _).
  split; [exact C |]. split; [| split].
  - apply Ok. vm_compute. split; reflexivity.
  - apply (Hmax 35); [left; reflexivity | left; reflexivity].
  - apply (Hfps (15, 30)). left. reflexivity.
Defined.

Lemma enumerateCameras_lists_usable_cameras_witness :
  In camera0 (enumerateCameras catalog0 manager1) /\
  Int.in_int32 (width camera0 * height camera0) /\
  clusterType camera0 <> CameraClusterType.Unknown /\
  enumerateCameras catalog0 {| cameraManager_ := 0 |} = [].
Proof.
  assert (I : In camera0 (enumerateCameras catalog0 manager1)) by (left; reflexivity).
  assert (R : Int.in_int32 (width camera0 * height camera0))
    by (apply in_int32_bounds; cbn; lia).
  pose proof (enumerateCameras_lists_usable_cameras catalog0 manager1 camera0)
    as (_ & _ & _ & H).
  pose proof (enumerateCameras_lists_usable_cameras catalog0 {| cameraManager_ := 0 |}
                camera0) as (E & _).
  destruct (H I) as (_ & _ & _ & U & _).
  split; [exact I | split; [exact R | split; [exact (U R) | exact (E eq_refl)]]].
Defined.

End CameraEnumerationRuns.

(** ** The JNI bridge: the registry of camera streams *)

Section JniBridgeFacts.
Import JniBridge.
Local Open Scope Z_scope.

Lemma stopPreview_not_streaming (s : CameraStream.t) :
  CameraStream.streaming_ (fst (CameraStream.stopPreview s)) = false.
Proof.
  unfold CameraStream.stopPreview. destruct (CameraStream.streaming_ s) eqn:St; cbn [negb].
  - apply cleanup_idle.
  - exact St.
Qed.

Lemma destroy_after_stop (s : CameraStream.t) :
  CameraStream.destroy (fst (CameraStream.stopPreview s)) = [].
Proof.
  unfold CameraStream.destroy.
  unfold CameraStream.stopPreview at 1. rewrite stopPreview_not_streaming. reflexivity.
Qed.

Lemma startPreview_keeps_id
    (manager : CameraManager.t) (cameraId : string) (surface : CameraStream.ptr)
    (cb : CameraStream.CameraStatsCallback) (svc : CameraStream.CameraService)
    (s : CameraStream.t) :
  (CameraStream.streaming_ s = true -> CameraStream.currentCameraId_ s = cameraId) ->
  CameraStream.streaming_
    (snd (fst (CameraStream.startPreview manager cameraId surface cb svc s))) = true ->
  CameraStream.currentCameraId_
    (snd (fst (CameraStream.startPreview manager cameraId surface cb svc s))) = cameraId.
Proof.
  intros Hk.
  destruct (CameraStream.streaming_ s && String.eqb (CameraStream.currentCameraId_ s) cameraId)%bool
    eqn:Hguard.
  { unfold CameraStream.startPreview. rewrite Hguard. cbn [fst snd]. exact Hk. }
  destruct (fst (fst (CameraStream.startPreview manager cameraId surface cb svc s))) eqn:Hok.
  { destruct (startPreview_success_shape manager cameraId surface cb svc s Hguard Hok)
      as (_ & _ & _ & -> & _). reflexivity. }
  intros St. exfalso.
  revert Hok St. unfold CameraStream.startPreview. rewrite Hguard.
  assert (He : CameraStream.streaming_
                 (fst (if CameraStream.streaming_ s then CameraStream.cleanup s else (s, [])))
               = false).
  { destruct (CameraStream.streaming_ s) eqn:E; [apply cleanup_idle | exact E]. }
  destruct (if CameraStream.streaming_ s then CameraStream.cleanup s else (s, [])) as [s0 tr].
  cbn [fst] in He.
  destruct (negb (CameraManager.isValid manager)); [cbn; congruence |].
  destruct (CameraStream.is_null surface); [cbn; congruence |].
  destruct (CameraStream.openCamera svc) as [st1 dev].
  match goal with |- context [if ?c then _ else _] => destruct c end; [discriminate |].
  destruct (CameraStream.outputTarget_create svc) as [st2 tgt].
  destruct (CameraStream.failed st2); [discriminate |].
  destruct (CameraStream.createCaptureRequest svc) as [st3 req].
  destruct (CameraStream.failed st3); [discriminate |].
  destruct (CameraStream.failed (CameraStream.addTarget svc)); [discriminate |].
  destruct (CameraStream.outputContainer_create svc) as [st5 cont].
  destruct (CameraStream.failed st5); [discriminate |].
  destruct (CameraStream.sessionOutput_create svc) as [st6 out].
  destruct (CameraStream.failed st6); [discriminate |].
  destruct (CameraStream.failed (CameraStream.outputContainer_add svc)); [discriminate |].
  destruct (CameraStream.createCaptureSession svc) as [st8 ses].
  match goal with |- context [if ?c then _ else _] => destruct c end; [discriminate |].
  destruct (CameraStream.failed (CameraStream.setRepeatingRequest svc)); discriminate.
Qed.

Lemma notify_keeps_id (n : Notification) (s : CameraStream.t) :
  CameraStream.currentCameraId_ (notify n s) = CameraStream.currentCameraId_ s /\
  (CameraStream.streaming_ (notify n s) = true -> CameraStream.streaming_ s = true).
Proof.
  destruct n as [| error | now ts]; cbn; split; (reflexivity || discriminate || auto).
Qed.

Lemma nativeStartPreview_unfold
    (manager : CameraManager.t) (svc : CameraStream.CameraService)
    (cameraId : string) (surface window : CameraStream.ptr) (streams : Streams) :
  CameraStream.is_null surface = false -> CameraStream.is_null window = false ->
  nativeStartPreview manager svc cameraId surface window streams
  = (fst (fst (CameraStream.startPreview manager cameraId window None svc
                 (streamOf cameraId streams))),
     <[cameraId := snd (fst (CameraStream.startPreview manager cameraId window None svc
                               (streamOf cameraId streams)))]> streams,
     [ANativeWindow_fromSurface surface window]
     ++ map Native (snd (CameraStream.startPreview manager cameraId window None svc
                           (streamOf cameraId streams)))
     ++ [Native (CameraStream.ANativeWindow_release window)]).
Proof.
  intros Hs Hw. unfold nativeStartPreview, getOrCreateCameraStream, streamOf.
  rewrite Hs, Hw.
  destruct (streams !! cameraId) as [stream |]; cbn [default from_option Datatypes.id];
    cbv beta iota zeta.
  - destruct (CameraStream.startPreview manager cameraId window None svc stream)
      as [[ok s'] tr]. reflexivity.
  - destruct (CameraStream.startPreview manager cameraId window None svc CameraStream.init)
      as [[ok s'] tr]. cbn [fst snd]. rewrite insert_insert_eq. reflexivity.
Qed.

Lemma serve_keyed (r : Request) (streams : Streams) : keyed streams -> keyed (serve r streams).
Proof.
  intros Hk. destruct r as [manager svc cameraId surface window | cameraId | | cameraId n];
    cbn [serve].
  - destruct (CameraStream.is_null surface) eqn:Hs;
      [unfold nativeStartPreview; rewrite Hs; exact Hk |].
    destruct (CameraStream.is_null window) eqn:Hw;
      [unfold nativeStartPreview; rewrite Hs, Hw; exact Hk |].
    rewrite (nativeStartPreview_unfold _ _ _ _ _ _ Hs Hw). cbn [fst snd].
    intros id' s'. destruct (decide (cameraId = id')) as [<- | Ne].
    + rewrite lookup_insert_eq. intros [= <-]. apply startPreview_keeps_id.
      unfold streamOf. destruct (streams !! cameraId) as [s0 |] eqn:E; cbn [default from_option Datatypes.id].
      * apply (Hk _ _ E).
      * discriminate.
    + rewrite lookup_insert_ne by exact Ne. apply Hk.
  - unfold nativeStopCameraPreview, stopCameraStream.
    destruct (streams !! cameraId) as [s0 |] eqn:E; [| exact Hk].
    destruct (CameraStream.stopPreview s0) as [s1 tr]. cbn [fst].
    intros id' s'. destruct (decide (cameraId = id')) as [<- | Ne].
    + rewrite lookup_delete_eq. discriminate.
    + rewrite lookup_delete_ne by exact Ne. apply Hk.
  - unfold nativeStopPreview, stopAllCameraStreams. cbn [fst].
    intros id' s'. rewrite lookup_empty. discriminate.
  - unfold deliver. destruct (streams !! cameraId) as [s0 |] eqn:E; [| exact Hk].
    intros id' s'. destruct (decide (cameraId = id')) as [<- | Ne].
    + rewrite lookup_insert_eq. intros [= <-] St.
      destruct (notify_keeps_id n s0) as [-> Hst]. apply (Hk _ _ E), Hst, St.
    + rewrite lookup_insert_ne by exact Ne. apply Hk.
Qed.

(** X19. In every state of the registry reached through the entry points and the
    notifications of the camera service, [nativeStartPreview] for a camera that is
    streaming, with a surface and a window, returns [true], changes nothing in the
    registry, and makes two native calls: it gets the window of the surface and
    releases it.  The new surface is not used. *)
Theorem nativeStartPreview_on_streaming_camera
    (requests : list Request) (manager : CameraManager.t)
    (svc : CameraStream.CameraService) (cameraId : string)
    (surface window : CameraStream.ptr) :
  nativeIsCameraStreaming cameraId (served requests) = true ->
  surface <> CameraStream.nullptr -> window <> CameraStream.nullptr ->
  nativeStartPreview manager svc cameraId surface window (served requests)
  = (true, served requests,
     [ANativeWindow_fromSurface surface window;
      Native (CameraStream.ANativeWindow_release window)]).
Proof.
  assert (Hk : keyed (served requests)).
  { unfold served.
    assert (H0 : keyed (∅ : Streams)) by (intros id' s'; rewrite lookup_empty; discriminate).
    revert H0. generalize (∅ : Streams).
    induction requests as [| r rest IH]; intros streams H; cbn [fold_left]; [exact H |].
    apply IH, serve_keyed, H. }
  generalize dependent (served requests). intros streams Hk.
  unfold nativeIsCameraStreaming, CameraStream.isStreaming.
  destruct (streams !! cameraId) as [s |] eqn:E; [| discriminate].
  intros St Hs Hw.
  assert (Ns : CameraStream.is_null surface = false).
  { destruct (CameraStream.is_null surface) eqn:N; [| reflexivity].
    apply is_null_true in N. contradiction. }
  assert (Nw : CameraStream.is_null window = false).
  { destruct (CameraStream.is_null window) eqn:N; [| reflexivity].
    apply is_null_true in N. contradiction. }
  rewrite (nativeStartPreview_unfold _ _ _ _ _ _ Ns Nw).
  unfold streamOf. rewrite E. cbn [default from_option Datatypes.id].
  unfold CameraStream.startPreview. rewrite St, (Hk _ _ E St), String.eqb_refl.
  cbn [andb fst snd map app]. rewrite (insert_id _ _ _ E). reflexivity.
Qed.

(** X20. The streams of different cameras are independent: [nativeStartPreview],
    [nativeStopCameraPreview] and a notification for one camera id leave the entry
    of every other id as it is, and with it what [nativeIsCameraStreaming] and
    [nativeGetCameraStatsById] answer for that id. *)
Theorem camera_streams_are_independent
    (manager : CameraManager.t) (svc : CameraStream.CameraService)
    (cameraId other : string) (surface window : CameraStream.ptr) (n : Notification)
    (streams : Streams) :
  cameraId <> other ->
  let started := snd (fst (nativeStartPreview manager svc cameraId surface window streams)) in
  let stopped := fst (nativeStopCameraPreview cameraId streams) in
  let notified := deliver cameraId (notify n) streams in
  started !! other = streams !! other /\
  stopped !! other = streams !! other /\
  notified !! other = streams !! other /\
  nativeIsCameraStreaming other started = nativeIsCameraStreaming other streams /\
  nativeIsCameraStreaming other stopped = nativeIsCameraStreaming other streams /\
  nativeGetCameraStatsById other started = nativeGetCameraStatsById other streams /\
  nativeGetCameraStatsById other stopped = nativeGetCameraStatsById other streams.
Proof.
  intros Ne. cbn zeta.
  assert (A : snd (fst (nativeStartPreview manager svc cameraId surface window streams))
              !! other = streams !! other).
  { destruct (CameraStream.is_null surface) eqn:Hs;
      [unfold nativeStartPreview; rewrite Hs; reflexivity |].
    destruct (CameraStream.is_null window) eqn:Hw;
      [unfold nativeStartPreview; rewrite Hs, Hw; reflexivity |].
    rewrite (nativeStartPreview_unfold _ _ _ _ _ _ Hs Hw). cbn [fst snd].
    apply lookup_insert_ne, Ne. }
  assert (B : fst (nativeStopCameraPreview cameraId streams) !! other = streams !! other).
  { unfold nativeStopCameraPreview, stopCameraStream.
    destruct (streams !! cameraId) as [s0 |]; [| reflexivity].
    destruct (CameraStream.stopPreview s0) as [s1 tr]. cbn [fst].
    apply lookup_delete_ne, Ne. }
  assert (C : deliver cameraId (notify n) streams !! other = streams !! other).
  { unfold deliver. destruct (streams !! cameraId) as [s0 |]; [| reflexivity].
    apply lookup_insert_ne, Ne. }
  unfold nativeIsCameraStreaming, nativeGetCameraStatsById. rewrite A, B, C. auto 10.
Qed.

Lemma acquired_Native (tr : list CameraStream.NativeCall) :
  acquired (map Native tr) = CameraStream.acquired tr.
Proof.
  unfold acquired, CameraStream.acquired.
  induction tr as [| c tr IH]; [reflexivity |]. cbn [map flat_map acquires].
  rewrite IH. reflexivity.
Qed.

Lemma freed_Native (tr : list CameraStream.NativeCall) :
  freed (map Native tr) = CameraStream.freed tr.
Proof.
  unfold freed, CameraStream.freed.
  induction tr as [| c tr IH]; [reflexivity |]. cbn [map flat_map releases].
  rewrite IH. reflexivity.
Qed.

Lemma stopPreview_trace (s : CameraStream.t) :
  CameraStream.acquired (snd (CameraStream.stopPreview s)) = [] /\
  CameraStream.freed (snd (CameraStream.stopPreview s))
  = (if CameraStream.streaming_ s then CameraStream.holdings s else []).
Proof.
  unfold CameraStream.stopPreview. destruct (CameraStream.streaming_ s); cbn [negb].
  - split; [apply cleanup_acquired | apply cleanup_freed].
  - split; reflexivity.
Qed.

(** X21. [nativeStopCameraPreview] removes the stream of the camera from the registry:
    afterwards [nativeIsCameraStreaming] answers [false] for it and
    [nativeGetCameraStatsById] four zeros.  The call acquires nothing, and releases
    the handles of the stream when it was streaming and nothing otherwise.  For a
    camera without stream it does nothing. *)
Theorem nativeStopCameraPreview_forgets_the_stream (cameraId : string) (streams : Streams) :
  let stopped := nativeStopCameraPreview cameraId streams in
  fst stopped !! cameraId = None /\
  nativeIsCameraStreaming cameraId (fst stopped) = false /\
  nativeGetCameraStatsById cameraId (fst stopped)
  = [IEEE.zero; IEEE.zero; IEEE.zero; IEEE.zero] /\
  acquired (snd stopped) = [] /\
  freed (snd stopped)
  = (if nativeIsCameraStreaming cameraId streams
     then CameraStream.holdings (streamOf cameraId streams) else []) /\
  (streams !! cameraId = None -> stopped = (streams, [])).
Proof.
  cbn zeta. unfold nativeStopCameraPreview, stopCameraStream, nativeIsCameraStreaming,
    nativeGetCameraStatsById, streamOf, CameraStream.isStreaming.
  destruct (streams !! cameraId) as [s0 |] eqn:E.
  2:{ cbn [fst snd]. rewrite E. cbn. auto 10. }
  pose proof (destroy_after_stop s0) as Hd.
  destruct (stopPreview_trace s0) as [Ha Hf].
  destruct (CameraStream.stopPreview s0) as [s1 tr]. cbn [fst snd] in *.
  rewrite lookup_delete_eq, Hd, app_nil_r, acquired_Native, freed_Native, Ha, Hf.
  cbn [default from_option Datatypes.id].
  split; [reflexivity |]. split; [reflexivity |]. split; [reflexivity |].
  split; [reflexivity |]. split; [reflexivity | discriminate].
Qed.

(** *** The aggregate queries *)

Lemma count_fold (entries : list (string * CameraStream.t)) (count : Z) :
  0 <= count -> count + Z.of_nat (length entries) < 2 ^ 31 ->
  fold_left (fun count entry =>
               if CameraStream.isStreaming (snd entry)
               then Int.int32 (count + 1) else count) entries count
  = count + Z.of_nat (length (List.filter
                                (fun entry => CameraStream.isStreaming (snd entry))
                                entries)).
Proof.
  revert count. induction entries as [| e rest IH]; intros count H0 Hb.
  - cbn. lia.
  - cbn [fold_left List.filter]. cbn [length] in Hb.
    destruct (CameraStream.isStreaming (snd e)).
    + rewrite int32_in_range by (apply in_int32_bounds;
        change (2 ^ 31) with 2147483648 in Hb; lia).
      rewrite IH by lia. cbn [length]. lia.
    + apply IH; lia.
Qed.

(** X22. The aggregate queries agree with the queries by camera: [nativeIsStreaming] is
    [true] exactly when [nativeIsCameraStreaming] is for some id; with fewer than
    2^31 streams registered, [nativeGetActiveStreamCount] is the number of
    registered streams that are streaming, and it is 0 exactly when
    [nativeIsStreaming] is [false]. *)
Theorem aggregate_queries_agree_with_per_camera_queries (streams : Streams) :
  (nativeIsStreaming streams = true <->
   exists cameraId, nativeIsCameraStreaming cameraId streams = true) /\
  (Z.of_nat (size streams) < 2 ^ 31 ->
   nativeGetActiveStreamCount streams
   = Z.of_nat (length (List.filter
                         (fun entry => CameraStream.isStreaming (snd entry))
                         (map_to_list streams))) /\
   (nativeGetActiveStreamCount streams = 0 <-> nativeIsStreaming streams = false)).
Proof.
  assert (Hex : nativeIsStreaming streams = true <->
                exists cameraId, nativeIsCameraStreaming cameraId streams = true).
  { unfold nativeIsStreaming, nativeIsCameraStreaming. rewrite existsb_exists. split.
    - intros ([i s] & Hin & St). apply list_elem_of_In, elem_of_map_to_list in Hin.
      exists i. rewrite Hin. exact St.
    - intros (i & H). destruct (streams !! i) as [s |] eqn:E; [| discriminate].
      exists (i, s). split; [| exact H].
      apply list_elem_of_In, elem_of_map_to_list, E. }
  split; [exact Hex |].
  intros Hsize.
  assert (Hc : nativeGetActiveStreamCount streams
               = Z.of_nat (length (List.filter
                                     (fun entry => CameraStream.isStreaming (snd entry))
                                     (map_to_list streams)))).
  { unfold nativeGetActiveStreamCount. rewrite count_fold; [lia | lia |].
    rewrite length_map_to_list. lia. }
  split; [exact Hc |].
  rewrite Hc. unfold nativeIsStreaming. clear Hc Hex Hsize.
  induction (map_to_list streams) as [| e rest IH]; cbn [List.filter existsb length].
  - split; reflexivity.
  - destruct (CameraStream.isStreaming (snd e)); cbn [orb length].
    + split; [lia | discriminate].
    + exact IH.
Qed.

Lemma stopAll_trace (entries : list (string * CameraStream.t)) :
  let stopped := map (fun entry => CameraStream.stopPreview (snd entry)) entries in
  flat_map (fun r => CameraStream.destroy (fst r)) stopped = [] /\
  CameraStream.acquired (flat_map snd stopped) = [] /\
  CameraStream.freed (flat_map snd stopped)
  = flat_map (fun entry =>
                if CameraStream.isStreaming (snd entry)
                then CameraStream.holdings (snd entry) else []) entries.
Proof.
  cbn zeta. induction entries as [| e rest (IHd & IHa & IHf)]; [auto |].
  cbn [map flat_map]. rewrite destroy_after_stop, IHd.
  destruct (stopPreview_trace (snd e)) as [Ha Hf].
  unfold CameraStream.acquired, CameraStream.freed in *. rewrite !flat_map_app.
  rewrite Ha, Hf, IHa, IHf. auto.
Qed.

(** X23. [nativeStopPreview] empties the registry: afterwards no camera is streaming, by
    id or in aggregate, and the active stream count is 0.  The call acquires nothing
    and releases, up to the order of the calls, exactly the handles of the streams
    that were streaming. *)
Theorem nativeStopPreview_stops_every_stream (streams : Streams) (cameraId : string) :
  let stopped := nativeStopPreview streams in
  fst stopped = ∅ /\
  nativeIsCameraStreaming cameraId (fst stopped) = false /\
  nativeIsStreaming (fst stopped) = false /\
  nativeGetActiveStreamCount (fst stopped) = 0 /\
  acquired (snd stopped) = [] /\
  Permutation (freed (snd stopped))
    (flat_map (fun entry =>
                 if CameraStream.isStreaming (snd entry)
                 then CameraStream.holdings (snd entry) else [])
              (map_to_list streams)).
Proof.
  cbn zeta. unfold nativeStopPreview, stopAllCameraStreams. cbn [fst snd].
  split; [reflexivity |].
  split; [unfold nativeIsCameraStreaming; rewrite lookup_empty; reflexivity |].
  split; [unfold nativeIsStreaming; rewrite map_to_list_empty; reflexivity |].
  split; [unfold nativeGetActiveStreamCount; rewrite map_to_list_empty; reflexivity |].
  rewrite acquired_Native, freed_Native.
  destruct (stopAll_trace (map_to_list streams)) as (Hd & Ha & Hf). cbn zeta in *.
  rewrite Hd, app_nil_r, Ha, Hf. split; reflexivity.
Qed.

(** X24. For a camera whose stream is streaming, holds nothing, or does not exist yet,
    [nativeStartPreview] conserves resources on every path: the reference on the
    window obtained from the surface and what the stream acquires, with what the
    stream held before, are as a multiset what is released with what the stream
    holds afterwards.  In particular the bridge's own reference on the window is
    always given back. *)
Theorem nativeStartPreview_balances_window_references
    (manager : CameraManager.t) (svc : CameraStream.CameraService)
    (cameraId : string) (surface window : CameraStream.ptr) (streams : Streams) :
  CameraStream.streaming_ (streamOf cameraId streams) = true \/
  CameraStream.holdings (streamOf cameraId streams) = [] ->
  let r := nativeStartPreview manager svc cameraId surface window streams in
  Permutation
    (acquired (snd r) ++ CameraStream.holdings (streamOf cameraId streams))
    (freed (snd r) ++ CameraStream.holdings (streamOf cameraId (snd (fst r)))).
Proof.
  intros Hs. cbn zeta.
  destruct (CameraStream.is_null surface) eqn:Ns.
  { unfold nativeStartPreview. rewrite Ns. cbn [fst snd]. reflexivity. }
  destruct (CameraStream.is_null window) eqn:Nw.
  { unfold nativeStartPreview. rewrite Ns, Nw. cbn [fst snd].
    unfold acquired, freed. cbn [flat_map acquires releases CameraStream.held].
    rewrite Nw. reflexivity. }
  rewrite (nativeStartPreview_unfold _ _ _ _ _ _ Ns Nw). cbn [fst snd].
  pose proof (startPreview_balance manager cameraId window None svc
                (streamOf cameraId streams) Hs) as Hb.
  assert (Hw : CameraStream.held (CameraStream.Window window) = [CameraStream.Window window])
    by (cbn [CameraStream.held]; rewrite Nw; reflexivity).
  unfold acquired, freed in *. rewrite !flat_map_app.
  fold (acquired (map Native
         (snd (CameraStream.startPreview manager cameraId window None svc
                 (streamOf cameraId streams))))).
  fold (freed (map Native
         (snd (CameraStream.startPreview manager cameraId window None svc
                 (streamOf cameraId streams))))).
  rewrite acquired_Native, freed_Native.
  cbn [flat_map acquires releases CameraStream.releases app]. rewrite Hw.
  match goal with |- context [streamOf cameraId (<[cameraId := ?x]> streams)] =>
    replace (streamOf cameraId (<[cameraId := x]> streams)) with x
      by (unfold streamOf; rewrite lookup_insert_eq; reflexivity)
  end.
  cbn [app]. rewrite <- !app_assoc. cbn [app].
  etransitivity; [apply perm_skip, Hb |]. solve_Permutation.
Qed.

End JniBridgeFacts.

(** *** A concrete registry *)

Section JniBridgeRuns.
Import JniBridge.
Local Open Scope Z_scope.

Lemma nativeStartPreview_on_streaming_camera_witness :
  nativeIsCameraStreaming "0" registry0 = true /\
  nativeStartPreview manager1 service_refusing_request "0" 6%N 8%N registry0
  = (true, registry0,
     [ANativeWindow_fromSurface 6%N 8%N;
      Native (CameraStream.ANativeWindow_release 8%N)]).
Proof.
  assert (S : nativeIsCameraStreaming "0" registry0 = true) by (vm_compute; reflexivity).
  assert (A : 6%N <> CameraStream.nullptr) by discriminate.
  assert (B : 8%N <> CameraStream.nullptr) by discriminate.
  split; [exact S |].
  exact (nativeStartPreview_on_streaming_camera
           [NativeStartPreview manager1 service_ok "0" 5%N 7%N]
           manager1 service_refusing_request "0" 6%N 8%N S A B).
Defined.

Lemma camera_streams_are_independent_witness :
  "1"%string <> "0"%string /\
  nativeIsCameraStreaming "0"
    (snd (fst (nativeStartPreview manager1 service_refusing_request "1" 6%N 8%N registry0)))
  = true /\
  nativeIsCameraStreaming "0" (fst (nativeStopCameraPreview "1" registry0)) = true.
Proof.
  assert (N : "1"%string <> "0"%string) by discriminate.
  pose proof (camera_streams_are_independent manager1 service_refusing_request
                "1" "0" 6%N 8%N Disconnected registry0 N) as (_ & _ & _ & A & B & _).
  split; [exact N |]. rewrite A, B. split; vm_compute; reflexivity.
Defined.

Lemma nativeStopCameraPreview_forgets_the_stream_witness :
  nativeIsCameraStreaming "0" (fst (nativeStopCameraPreview "0" registry0)) = false /\
  registry0 !! "1"%string = None /\
  nativeStopCameraPreview "1" registry0 = (registry0, []).
Proof.
  assert (E : registry0 !! "1"%string = None) by (vm_compute; reflexivity).
  pose proof (nativeStopCameraPreview_forgets_the_stream "0" registry0) as (_ & A & _).
  pose proof (nativeStopCameraPreview_forgets_the_stream "1" registry0)
    as (_ & _ & _ & _ & _ & B).
  split; [exact A | split; [exact E | exact (B E)]].
Defined.

Lemma aggregate_queries_agree_with_per_camera_queries_witness :
  Z.of_nat (size registry0) < 2 ^ 31 /\
  nativeIsStreaming registry0 = true /\
  nativeGetActiveStreamCount registry0 <> 0.
Proof.
  assert (S : Z.of_nat (size registry0) < 2 ^ 31) by (vm_compute; reflexivity).
  assert (A : nativeIsCameraStreaming "0" registry0 = true) by (vm_compute; reflexivity).
  pose proof (aggregate_queries_agree_with_per_camera_queries registry0) as (I & C).
  destruct (C S) as (_ & Z).
  assert (T : nativeIsStreaming registry0 = true).
  { apply I. exists "0"%string. exact A. }
  split; [exact S | split; [exact T |]].
  intros E. apply Z in E. rewrite T in E. discriminate E.
Defined.

Lemma nativeStartPreview_balances_window_references_witness :
  (CameraStream.streaming_ (streamOf "1" registry0) = true \/
   CameraStream.holdings (streamOf "1" registry0) = []) /\
  Permutation
    (acquired (snd (nativeStartPreview manager1 service_refusing_request "1" 6%N 8%N
                      registry0))
     ++ CameraStream.holdings (streamOf "1" registry0))
    (freed (snd (nativeStartPreview manager1 service_refusing_request "1" 6%N 8%N
                   registry0))
     ++ CameraStream.holdings
          (streamOf "1" (snd (fst (nativeStartPreview manager1 service_refusing_request
                                     "1" 6%N 8%N registry0))))).
Proof.
  assert (H : CameraStream.streaming_ (streamOf "1" registry0) = true \/
              CameraStream.holdings (streamOf "1" registry0) = [])
    by (right; vm_compute; reflexivity).
  split; [exact H |].
  exact (nativeStartPreview_balances_window_references manager1 service_refusing_request
           "1" 6%N 8%N registry0 H).
Defined.

End JniBridgeRuns.

(** ** The callback handler *)

Section CallbackHandlerFacts.
Import CallbackHandler.

(** The reference a handler holds. *)
Lemma reset_internal_balance (env : ptr) (h : t) :
  let r := reset_internal env h in
  created (snd r) = [] /\
  deleted (snd r) ++ (if hasCallback (fst r) then [getCallback (fst r)] else [])
  = (if hasCallback h then [getCallback h] else []) /\
  (env = nullptr -> r = (h, [])) /\
  (env <> nullptr -> hasCallback (fst r) = false).
Proof.
  cbn zeta. unfold reset_internal, hasCallback, getCallback.
  destruct (is_null (callback_ h)) eqn:C; cbn [negb andb fst snd].
  - rewrite C. cbn. auto.
  - destruct (is_null env) eqn:E; cbn [negb fst snd].
    + rewrite C. cbn. split; [reflexivity |]. split; [reflexivity |].
      split; [reflexivity |]. intros N. apply N.eqb_eq in E. contradiction.
    + cbn. split; [reflexivity |]. split; [reflexivity |].
      split; [| reflexivity]. intros ->. discriminate.
Qed.

Lemma created_app (a b : list JniCall) : created (a ++ b) = created a ++ created b.
Proof. apply flat_map_app. Qed.

Lemma deleted_app (a b : list JniCall) : deleted (a ++ b) = deleted a ++ deleted b.
Proof. apply flat_map_app. Qed.

Lemma runOps_balance (ops : list Op) (h : t) (tr : list JniCall) (h' : t)
    (tr' : list JniCall) :
  created tr = deleted tr ++ (if hasCallback h then [getCallback h] else []) ->
  runOps ops h tr = Some (h', tr') ->
  created tr' = deleted tr' ++ (if hasCallback h' then [getCallback h'] else []).
Proof.
  revert h tr. induction ops as [| op rest IH]; intros h tr Hb; cbn [runOps].
  - intros [= <- <-]. exact Hb.
  - destruct op as [env callback ref | env].
    + destruct (reset_internal_balance env h) as (Rc & Rd & _ & Rn).
      unfold setCallback.
      destruct (reset_internal env h) as [h1 tr1]. cbn [fst snd] in Rc, Rd, Rn.
      destruct (is_null callback).
      * apply IH. rewrite created_app, deleted_app, Hb, Rc, app_nil_r, <- app_assoc, Rd.
        reflexivity.
      * destruct (is_null env) eqn:E; [discriminate |].
        assert (Hn : hasCallback h1 = false).
        { apply Rn. intros ->. discriminate. }
        rewrite Hn, app_nil_r in Rd.
        apply IH. rewrite !created_app, !deleted_app, Hb, Rc, <- Rd, app_nil_r.
        unfold hasCallback, getCallback. cbn [created deleted flat_map callback_ app].
        destruct (is_null ref); cbn [negb]; rewrite ?app_nil_r, <- ?app_assoc; reflexivity.
    + destruct (reset_internal_balance env h) as (Rc & Rd & _).
      unfold reset.
      destruct (reset_internal env h) as [h1 tr1]. cbn [fst snd] in Rc, Rd.
      apply IH. rewrite created_app, deleted_app, Hb, Rc, app_nil_r, <- app_assoc, Rd.
      reflexivity.
Qed.

(** X25. Along a run of [setCallback] and [reset] calls that never dereferences a null
    environment, the global references created are, in order, those deleted followed
    by the one the handler holds, if any: none leaks, none is deleted twice.
    [invokeCallback] calls its function exactly when a callback is held.  [reset]
    without an environment, which is what the destructor does, deletes nothing and
    keeps the reference; with an environment it deletes the held reference and
    clears the handler. *)
Theorem callback_handler_holds_one_reference
    (ops : list Op) (h : t) (tr : list JniCall) :
  runOps ops init [] = Some (h, tr) ->
  created tr = deleted tr ++ (if hasCallback h then [getCallback h] else []) /\
  (forall env,
     invokeCallback env h = (if hasCallback h then [(env, getCallback h)] else [])) /\
  reset nullptr h = (h, []) /\
  destroy h = [] /\
  forall env, env <> nullptr ->
    hasCallback (fst (reset env h)) = false /\
    deleted (snd (reset env h)) = (if hasCallback h then [getCallback h] else []).
Proof.
  intros Hrun.
  split; [apply (runOps_balance ops init [] h tr); [reflexivity | exact Hrun] |].
  split.
  { intros env. unfold invokeCallback, hasCallback, getCallback.
    destruct (is_null (callback_ h)); reflexivity. }
  destruct (reset_internal_balance nullptr h) as (_ & _ & Hnull & _).
  split; [apply Hnull; reflexivity |].
  split; [unfold destroy, reset; rewrite (Hnull eq_refl); reflexivity |].
  intros env Henv.
  destruct (reset_internal_balance env h) as (_ & Rd & _ & Rn).
  unfold reset. split; [apply Rn, Henv |].
  rewrite (Rn Henv), app_nil_r in Rd. exact Rd.
Qed.

End CallbackHandlerFacts.

Section CallbackHandlerRun.
Import CallbackHandler.

Lemma callback_handler_holds_one_reference_witness :
  runOps [SetCallback 1%N 20%N 21%N; SetCallback 1%N 30%N 31%N; Reset nullptr] init []
  = Some ({| callback_ := 31%N |},
          [NewGlobalRef 20%N 21%N; DeleteGlobalRef 21%N; NewGlobalRef 30%N 31%N]) /\
  created [NewGlobalRef 20%N 21%N; DeleteGlobalRef 21%N; NewGlobalRef 30%N 31%N]
  = deleted [NewGlobalRef 20%N 21%N; DeleteGlobalRef 21%N; NewGlobalRef 30%N 31%N]
    ++ [31%N] /\
  destroy {| callback_ := 31%N |} = [].
Proof.
  assert (R : runOps [SetCallback 1%N 20%N 21%N; SetCallback 1%N 30%N 31%N; Reset nullptr]
                init []
              = Some ({| callback_ := 31%N |},
                      [NewGlobalRef 20%N 21%N; DeleteGlobalRef 21%N;
                       NewGlobalRef 30%N 31%N])) by reflexivity.
  pose proof (callback_handler_holds_one_reference _ _ _ R) as (B & _ & _ & D & _).
  split; [exact R | split; [exact B | exact D]].
Defined.

End CallbackHandlerRun.

(** ** The camera list across the JNI boundary *)

Section CameraListFacts.
Import CameraBridge.
Local Open Scope Z_scope.

(** *** Strings *)

Lemma append_nil_l (s : string) : (EmptyString ++ s)%string = s.
Proof. reflexivity. Qed.

Lemma append_cons (c : ascii) (a b : string) :
  (String c a ++ b)%string = String c (a ++ b)%string.
Proof. reflexivity. Qed.

Lemma append_nil_r (s : string) : (s ++ EmptyString)%string = s.
Proof.
  induction s as [| c s IH]; [reflexivity |]. rewrite append_cons, IH. reflexivity.
Qed.

Lemma append_assoc (a b c : string) : (a ++ b ++ c)%string = ((a ++ b) ++ c)%string.
Proof.
  induction a as [| x a IH]; [reflexivity |]. rewrite !append_cons, IH. reflexivity.
Qed.

Lemma plain_nil : plain EmptyString.
Proof. intros c []. Qed.

Lemma plain_cons (c : ascii) (s : string) :
  plain (String c s)
  <-> (sevenBit c /\ c <> "|"%char /\ isWhitespace c = false) /\ plain s.
Proof.
  unfold plain. cbn [list_ascii_of_string In]. split.
  - intros H. split; [apply H; left; reflexivity | intros d Hd; apply H; right; exact Hd].
  - intros [Hc Hs] d [<- | Hd]; [exact Hc | apply Hs, Hd].
Qed.

Lemma plain_app (a b : string) : plain a -> plain b -> plain (a ++ b).
Proof.
  induction a as [| c a IH]; intros Ha Hb; [exact Hb |].
  apply plain_cons in Ha. destruct Ha as [Hc Ha].
  rewrite append_cons. apply plain_cons. split; [exact Hc | apply IH; assumption].
Qed.

Lemma split_plain (d : ascii) (a : string) :
  (forall c, In c (list_ascii_of_string a) -> c <> d) -> split d a = [a].
Proof.
  induction a as [| c a IH]; intros H; [reflexivity |].
  cbn [split]. destruct (Ascii.eqb_spec c d) as [E | _].
  - exfalso. apply (H c); [left; reflexivity | exact E].
  - rewrite IH; [reflexivity |]. intros x Hx. apply H. right. exact Hx.
Qed.

Lemma split_app (d : ascii) (a rest : string) :
  (forall c, In c (list_ascii_of_string a) -> c <> d) ->
  split d (a ++ String d rest) = a :: split d rest.
Proof.
  induction a as [| c a IH]; intros H; rewrite ?append_nil_l, ?append_cons; cbn [split].
  - rewrite Ascii.eqb_refl. reflexivity.
  - destruct (Ascii.eqb_spec c d) as [E | _].
    + exfalso. apply (H c); [left; reflexivity | exact E].
    + rewrite IH; [reflexivity |]. intros x Hx. apply H. right. exact Hx.
Qed.

Lemma trimEnd_snoc_whitespace (a : string) (c : ascii) :
  isWhitespace c = true -> trimEnd (a ++ String c EmptyString) = trimEnd a.
Proof.
  intros Hc. induction a as [| x a IH]; rewrite ?append_nil_l, ?append_cons; cbn [trimEnd].
  - rewrite Hc. reflexivity.
  - rewrite IH. reflexivity.
Qed.

Lemma trimEnd_fixed (a : string) (c : ascii) :
  lastChar a = Some c -> isWhitespace c = false -> trimEnd a = a.
Proof.
  intros Hl Hc. induction a as [| x a IH]; [reflexivity |].
  cbn [trimEnd]. destruct a as [| y a].
  - cbn in Hl |- *. injection Hl as ->. rewrite Hc. reflexivity.
  - rewrite IH by exact Hl. reflexivity.
Qed.

Lemma lastChar_app (a b : string) (c : ascii) :
  lastChar b = Some c -> lastChar (a ++ b) = Some c.
Proof.
  intros Hb. induction a as [| x a IH]; [exact Hb |].
  rewrite append_cons. destruct (a ++ b)%string eqn:E.
  - destruct a; [rewrite append_nil_l in E; rewrite E in Hb; discriminate
                | rewrite append_cons in E; discriminate].
  - exact IH.
Qed.

Lemma lastChar_plain (b : string) :
  plain b -> exists c, lastChar (String "|" b) = Some c /\ isWhitespace c = false.
Proof.
  intros Hb.
  assert (H : forall x, isWhitespace x = false ->
                exists c, lastChar (String x b) = Some c /\ isWhitespace c = false).
  { induction b as [| y b IH]; intros x Hx.
    - exists x. split; [reflexivity | exact Hx].
    - apply plain_cons in Hb. destruct Hb as [(_ & _ & Hy) Hb].
      destruct (IH Hb y Hy) as (c & Hc & Hw). exists c. split; [exact Hc | exact Hw]. }
  apply H. reflexivity.
Qed.

(** *** Numbers *)

Ltac plain_char := split; [unfold sevenBit; vm_compute; lia | split; [discriminate | reflexivity]].

Lemma string_of_uint_digits (d : Decimal.uint) :
  plain (NilEmpty.string_of_uint d) /\
  forall c, In c (list_ascii_of_string (NilEmpty.string_of_uint d)) ->
            c <> "-"%char /\ c <> "+"%char.
Proof.
  induction d as [| d [IH1 IH2] | d [IH1 IH2] | d [IH1 IH2] | d [IH1 IH2] | d [IH1 IH2]
                  | d [IH1 IH2] | d [IH1 IH2] | d [IH1 IH2] | d [IH1 IH2] | d [IH1 IH2]];
    cbn [NilEmpty.string_of_uint].
  1:{ split; [apply plain_nil | intros c []]. }
  all: split;
    [apply plain_cons; split; [plain_char | exact IH1]
    | intros c [<- | Hc]; [split; discriminate | apply IH2, Hc]].
Qed.

Lemma put_int_plain (z : Z) : plain (JniBridge.put_int z).
Proof.
  unfold JniBridge.put_int. destruct z as [| p | p]; cbn [Z.to_int NilZero.string_of_int].
  - apply plain_cons. split; [plain_char | apply plain_nil].
  - unfold NilZero.string_of_uint.
    destruct (Pos.to_uint p) eqn:E; try (rewrite <- E; apply string_of_uint_digits).
    apply plain_cons. split; [plain_char | apply plain_nil].
  - apply plain_cons. split; [plain_char |].
    unfold NilZero.string_of_uint.
    destruct (Pos.to_uint p) eqn:E; try (rewrite <- E; apply string_of_uint_digits).
    apply plain_cons. split; [plain_char | apply plain_nil].
Qed.

Lemma toInt_digits (d : Decimal.uint) :
  d <> Decimal.Nil -> - 2 ^ 31 <= Z.of_uint d < 2 ^ 31 ->
  toInt (NilEmpty.string_of_uint d) = Some (Z.of_uint d).
Proof.
  intros Hd Hr. unfold toInt.
  destruct (string_of_uint_digits d) as [_ Hsign].
  destruct (NilEmpty.string_of_uint d) as [| c rest] eqn:E.
  { destruct d; try discriminate E. contradiction. }
  assert (Hc : c <> "-"%char /\ c <> "+"%char) by (apply Hsign; left; reflexivity).
  assert (Hm : match String c rest with
               | String "-" rest0 => (true, rest0)
               | String "+" rest0 => (false, rest0)
               | _ => (false, String c rest)
               end = (false, String c rest)).
  { destruct Hc as [H1 H2].
    destruct c as [[|] [|] [|] [|] [|] [|] [|] [|]]; try reflexivity; contradiction. }
  rewrite Hm, <- E, NilEmpty.usu.
  destruct (Z.leb_spec (- 2 ^ 31) (Z.of_uint d)); [| lia].
  destruct (Z.ltb_spec (Z.of_uint d) (2 ^ 31)); [reflexivity | lia].
Qed.

Lemma toInt_put_int (z : Z) : Int.in_int32 z -> toInt (JniBridge.put_int z) = Some z.
Proof.
  intros Hz. unfold Int.in_int32 in Hz. unfold JniBridge.put_int.
  destruct z as [| p | p]; cbn [Z.to_int NilZero.string_of_int].
  - reflexivity.
  - pose proof (DecimalPos.Unsigned.to_uint_nonnil p) as Hn.
    pose proof (DecimalPos.Unsigned.of_to p) as Hp.
    assert (Hv : Z.of_uint (Pos.to_uint p) = Z.pos p)
      by (unfold Z.of_uint; rewrite Hp; reflexivity).
    assert (Hs : NilZero.string_of_uint (Pos.to_uint p)
                 = NilEmpty.string_of_uint (Pos.to_uint p)).
    { unfold NilZero.string_of_uint. destruct (Pos.to_uint p); [contradiction | ..];
        reflexivity. }
    rewrite Hs, toInt_digits; [rewrite Hv; reflexivity | exact Hn | rewrite Hv; lia].
  - pose proof (DecimalPos.Unsigned.to_uint_nonnil p) as Hn.
    pose proof (DecimalPos.Unsigned.of_to p) as Hp.
    assert (Hv : Z.of_uint (Pos.to_uint p) = Z.pos p)
      by (unfold Z.of_uint; rewrite Hp; reflexivity).
    assert (Hs : NilZero.string_of_uint (Pos.to_uint p)
                 = NilEmpty.string_of_uint (Pos.to_uint p)).
    { unfold NilZero.string_of_uint. destruct (Pos.to_uint p); [contradiction | ..];
        reflexivity. }
    rewrite Hs. unfold toInt.
    destruct (NilEmpty.string_of_uint (Pos.to_uint p)) as [| c rest] eqn:E.
    { destruct (Pos.to_uint p); try discriminate E. contradiction. }
    rewrite <- E, NilEmpty.usu, Hv.
    change (- Z.pos p) with (Z.neg p).
    destruct (Z.leb_spec (- 2 ^ 31) (Z.neg p)); [| lia].
    destruct (Z.ltb_spec (Z.neg p) (2 ^ 31)); [reflexivity | lia].
Qed.

Lemma fromValue_value (f : CameraFacing.t) (c : CameraClusterType.t) :
  facingFromValue (JniBridge.facingValue f) = f /\
  clusterFromValue (JniBridge.clusterValue c) = c /\
  Int.in_int32 (JniBridge.facingValue f) /\ Int.in_int32 (JniBridge.clusterValue c).
Proof.
  split; [destruct f; reflexivity |]. split; [destruct c; reflexivity |].
  split; apply in_int32_bounds; [destruct f | destruct c]; cbn; lia.
Qed.

(** *** One line *)

Lemma not_bar (s : string) :
  plain s -> forall c, In c (list_ascii_of_string s) -> c <> "|"%char.
Proof. intros H c Hc. apply H, Hc. Qed.

Lemma parseCameraInfo_cameraLine (cam : CameraInfo) :
  encodable cam -> parseCameraInfo (JniBridge.cameraLine cam) = Some cam.
Proof.
  intros (Hid & Hph & Hw & Hh & Hf).
  destruct (fromValue_value (facing cam) (clusterType cam)) as (Ef & Ec & Rf & Rc).
  unfold parseCameraInfo, JniBridge.cameraLine, JniBridge.bar.
  rewrite !append_cons, !append_nil_l.
  rewrite (split_app "|" (id cam)) by (apply not_bar, Hid).
  rewrite (split_app "|" (JniBridge.put_int _)) by (apply not_bar, put_int_plain).
  rewrite (split_app "|" (JniBridge.put_int _)) by (apply not_bar, put_int_plain).
  rewrite (split_app "|" (JniBridge.put_int _)) by (apply not_bar, put_int_plain).
  rewrite (split_app "|" (JniBridge.put_int _)) by (apply not_bar, put_int_plain).
  rewrite (split_app "|" (JniBridge.put_int _)) by (apply not_bar, put_int_plain).
  rewrite (split_app "|" (JniBridge.put_int _)) by (apply not_bar, put_int_plain).
  rewrite (split_plain "|" (physicalCameraIds cam)) by (apply not_bar, Hph).
  cbn [length Nat.ltb Nat.leb nth].
  rewrite !toInt_put_int by assumption. rewrite Ef, Ec.
  assert (Ep : String.eqb (JniBridge.put_int (if isPhysicalCamera cam then 1 else 0)) "1"
               = isPhysicalCamera cam) by (destruct (isPhysicalCamera cam); reflexivity).
  rewrite Ep. destruct cam; reflexivity.
Qed.


(** *** The whole list *)

Lemma lastChar_cons (x : ascii) (b : string) (c : ascii) :
  lastChar b = Some c -> lastChar (String x b) = Some c.
Proof. intros H. destruct b; [discriminate |]. exact H. Qed.

Lemma no_newline_app (a b : string) :
  (forall c, In c (list_ascii_of_string a) -> c <> "010"%char) ->
  (forall c, In c (list_ascii_of_string b) -> c <> "010"%char) ->
  forall c, In c (list_ascii_of_string (a ++ b)) -> c <> "010"%char.
Proof.
  intros Ha Hb. induction a as [| x a IH]; [exact Hb |].
  rewrite append_cons. intros c [<- | Hc].
  - apply Ha. left. reflexivity.
  - apply IH; [| exact Hc]. intros d Hd. apply Ha. right. exact Hd.
Qed.

Lemma plain_no_newline (s : string) :
  plain s -> forall c, In c (list_ascii_of_string s) -> c <> "010"%char.
Proof. intros H c Hc E. subst c. destruct (H _ Hc) as (_ & _ & W). discriminate W. Qed.

Lemma sevenBit_app (a b : string) :
  (forall c, In c (list_ascii_of_string a) -> sevenBit c) ->
  (forall c, In c (list_ascii_of_string b) -> sevenBit c) ->
  forall c, In c (list_ascii_of_string (a ++ b)) -> sevenBit c.
Proof.
  intros Ha Hb. induction a as [| x a IH]; [exact Hb |].
  rewrite append_cons. intros c [<- | Hc].
  - apply Ha. left. reflexivity.
  - apply IH; [| exact Hc]. intros d Hd. apply Ha. right. exact Hd.
Qed.

Lemma plain_sevenBit (s : string) :
  plain s -> forall c, In c (list_ascii_of_string s) -> sevenBit c.
Proof. intros H c Hc. apply H, Hc. Qed.

Lemma cons_sevenBit (x : ascii) (s : string) :
  sevenBit x ->
  (forall c, In c (list_ascii_of_string s) -> sevenBit c) ->
  forall c, In c (list_ascii_of_string (String x s)) -> sevenBit c.
Proof. intros Hx H c [<- | Hc]; [exact Hx | apply H, Hc]. Qed.

(** A C string of 7-bit characters without NUL is read to its end, and is
    its own decoding. *)
Lemma c_str_sevenBit (s : string) :
  (forall c, In c (list_ascii_of_string s) -> sevenBit c) -> JniBridge.c_str s = s.
Proof.
  induction s as [| x s IH]; intros H; [reflexivity |].
  cbn [JniBridge.c_str].
  destruct (Ascii.eqb_spec x "000") as [E | _].
  - exfalso. assert (Hx : sevenBit x) by (apply H; left; reflexivity).
    subst x. unfold sevenBit in Hx. vm_compute in Hx. lia.
  - rewrite IH; [reflexivity |]. intros c Hc. apply H. right. exact Hc.
Qed.

Lemma NewStringUTF_sevenBit (s : string) :
  (forall c, In c (list_ascii_of_string s) -> sevenBit c) ->
  JniBridge.NewStringUTF s = Some s.
Proof.
  induction s as [| x s IH]; intros H; [reflexivity |].
  cbn [JniBridge.NewStringUTF]. cbv zeta.
  assert (Hx : sevenBit x) by (apply H; left; reflexivity).
  unfold sevenBit in Hx.
  destruct (Nat.ltb_spec (nat_of_ascii x) 128) as [_ | G]; [| lia].
  rewrite IH; [reflexivity |]. intros c Hc. apply H. right. exact Hc.
Qed.

Lemma bar_no_newline (s : string) :
  (forall c, In c (list_ascii_of_string s) -> c <> "010"%char) ->
  forall c, In c (list_ascii_of_string (String "|" s)) -> c <> "010"%char.
Proof. intros H c [<- | Hc]; [discriminate | apply H, Hc]. Qed.

Lemma cameraLine_shape (cam : CameraInfo) :
  encodable cam ->
  (forall c, In c (list_ascii_of_string (JniBridge.cameraLine cam)) -> c <> "010"%char) /\
  (exists c rest, JniBridge.cameraLine cam = String c rest /\ isWhitespace c = false) /\
  (exists c, lastChar (JniBridge.cameraLine cam) = Some c /\ isWhitespace c = false).
Proof.
  intros (Hid & Hph & _).
  unfold JniBridge.cameraLine, JniBridge.bar. rewrite !append_cons, !append_nil_l.
  split; [| split].
  - repeat (apply no_newline_app;
            [first [apply plain_no_newline, Hid | apply plain_no_newline, put_int_plain] |];
            apply bar_no_newline).
    apply plain_no_newline, Hph.
  - destruct (id cam) as [| c rest] eqn:E.
    + rewrite append_nil_l. eexists _, _. split; [reflexivity | reflexivity].
    + rewrite append_cons. apply plain_cons in Hid. destruct Hid as [(_ & _ & W) _].
      eexists _, _. split; [reflexivity | exact W].
  - destruct (lastChar_plain _ Hph) as (c & Hc & W). exists c. split; [| exact W].
    repeat (apply lastChar_app; first [exact Hc | apply lastChar_cons]).
Qed.

Lemma cameraLine_sevenBit (cam : CameraInfo) :
  encodable cam ->
  forall c, In c (list_ascii_of_string (JniBridge.cameraLine cam)) -> sevenBit c.
Proof.
  intros (Hid & Hph & _).
  assert (Hbar : sevenBit "|") by (unfold sevenBit; vm_compute; lia).
  unfold JniBridge.cameraLine, JniBridge.bar. rewrite !append_cons, !append_nil_l.
  repeat (apply sevenBit_app;
          [first [apply plain_sevenBit, Hid | apply plain_sevenBit, put_int_plain] |];
          apply cons_sevenBit; [exact Hbar |]).
  apply plain_sevenBit, Hph.
Qed.

Lemma lines_sevenBit (cameras : list CameraInfo) :
  Forall encodable cameras ->
  forall c,
    In c (list_ascii_of_string
            (fold_right (fun cam rest =>
                           (JniBridge.cameraLine cam ++ JniBridge.newline ++ rest)%string)
                        EmptyString cameras)) ->
    sevenBit c.
Proof.
  induction 1 as [| cam rest Hc _ IH]; cbn [fold_right]; [intros c [] |].
  apply sevenBit_app; [apply cameraLine_sevenBit, Hc |].
  unfold JniBridge.newline. rewrite append_cons, append_nil_l.
  apply cons_sevenBit; [unfold sevenBit; vm_compute; lia | exact IH].
Qed.

Lemma nativeEnumerateCameras_fold (cameras : list CameraInfo) (acc : string) :
  fold_left (fun ss cam => (ss ++ JniBridge.cameraLine cam ++ JniBridge.newline)%string)
            cameras acc
  = (acc ++ fold_right (fun cam rest =>
                          (JniBridge.cameraLine cam ++ JniBridge.newline ++ rest)%string)
                       EmptyString cameras)%string.
Proof.
  revert acc. induction cameras as [| cam rest IH]; intros acc; cbn [fold_left fold_right].
  - rewrite append_nil_r. reflexivity.
  - rewrite IH, <- !append_assoc. reflexivity.
Qed.

Lemma lines_body (cam : CameraInfo) (rest : list CameraInfo) :
  Forall encodable (cam :: rest) ->
  exists body c,
    fold_right (fun cam rest =>
                  (JniBridge.cameraLine cam ++ JniBridge.newline ++ rest)%string)
               EmptyString (cam :: rest)
    = (body ++ JniBridge.newline)%string /\
    lastChar body = Some c /\ isWhitespace c = false /\
    split "010" body = map JniBridge.cameraLine (cam :: rest).
Proof.
  revert cam. induction rest as [| cam' rest IH]; intros cam Hall.
  - apply Forall_cons_1 in Hall. destruct Hall as [Hc _].
    destruct (cameraLine_shape cam Hc) as (Hn & _ & (c & Hl & W)).
    exists (JniBridge.cameraLine cam), c. cbn [fold_right map].
    rewrite append_nil_r.
    split; [reflexivity |]. split; [exact Hl |]. split; [exact W |].
    apply split_plain, Hn.
  - apply Forall_cons_1 in Hall. destruct Hall as [Hc Hrest].
    destruct (IH cam' Hrest) as (body & c & Hb & Hl & W & Hs).
    destruct (cameraLine_shape cam Hc) as (Hn & _).
    exists (JniBridge.cameraLine cam ++ String "010" body)%string, c.
    cbn [fold_right map] in Hb |- *. rewrite Hb. unfold JniBridge.newline at 1.
    rewrite append_cons, append_nil_l.
    split.
    { rewrite <- append_assoc, append_cons. reflexivity. }
    split; [apply lastChar_app, lastChar_cons, Hl |]. split; [exact W |].
    rewrite split_app by exact Hn. rewrite Hs. reflexivity.
Qed.

Lemma omap_parse (cameras : list CameraInfo) :
  Forall encodable cameras ->
  omap parseCameraInfo (map JniBridge.cameraLine cameras) = cameras.
Proof.
  induction 1 as [| cam rest Hc _ IH]; [reflexivity |].
  cbn [map omap list_omap]. rewrite (parseCameraInfo_cameraLine cam Hc).
  cbn [omap] in IH. rewrite IH. reflexivity.
Qed.

(** X26. The camera list survives the JNI boundary.  For camera descriptions whose id
    and physical-id strings consist of 7-bit characters other than NUL, the bar and
    whitespace, and whose width, height and frame rate are 32-bit values,
    [nativeEnumerateCameras] hands Kotlin a string -- the text it wrote, read as a C
    string and decoded by [NewStringUTF] -- from which the Kotlin [enumerateCameras]
    returns the same list in the same order, and each line parses back to its
    camera. *)
Theorem enumerateCameras_reads_back_the_native_list (cameras : list CameraInfo) :
  Forall encodable cameras ->
  option_map enumerateCameras (JniBridge.nativeEnumerateCameras cameras)
  = Some cameras /\
  (forall cam, In cam cameras -> parseCameraInfo (JniBridge.cameraLine cam) = Some cam).
Proof.
  intros Hall. split.
  2:{ intros cam Hin. apply parseCameraInfo_cameraLine.
      rewrite List.Forall_forall in Hall. apply Hall, Hin. }
  unfold JniBridge.nativeEnumerateCameras. cbv zeta.
  rewrite nativeEnumerateCameras_fold, append_nil_l.
  rewrite c_str_sevenBit, NewStringUTF_sevenBit by (apply lines_sevenBit, Hall).
  cbn [option_map]. f_equal.
  destruct cameras as [| cam rest]; [reflexivity |].
  destruct (lines_body cam rest Hall) as (body & c & Hb & Hl & W & Hs).
  pose proof (Forall_cons_1 _ _ _ Hall) as [Hc _].
  destruct (cameraLine_shape cam Hc) as (_ & (c0 & r0 & E0 & W0) & _).
  unfold enumerateCameras.
  assert (Hraw : exists r, fold_right
                   (fun cam rest => (JniBridge.cameraLine cam ++ JniBridge.newline ++ rest)%string)
                   EmptyString (cam :: rest) = String c0 r).
  { cbn [fold_right]. rewrite E0, append_cons. eexists. reflexivity. }
  destruct Hraw as (r & Hraw). rewrite Hraw.
  assert (Ht : trim (String c0 r) = body).
  { unfold trim. cbn [trimStart]. rewrite W0, <- Hraw, Hb.
    unfold JniBridge.newline. rewrite trimEnd_snoc_whitespace by reflexivity.
    apply (trimEnd_fixed body c Hl W). }
  rewrite Ht, Hs. apply omap_parse, Hall.
Qed.

End CameraListFacts.

Section CameraListRun.
Import CameraBridge.
Local Open Scope Z_scope.

Lemma enumerateCameras_reads_back_the_native_list_witness :
  Forall encodable [camera0; camera1] /\
  option_map enumerateCameras (JniBridge.nativeEnumerateCameras [camera0; camera1])
  = Some [camera0; camera1].
Proof.
  assert (P : forall s,
             forallb (fun c => (Nat.ltb 0 (nat_of_ascii c) && Nat.ltb (nat_of_ascii c) 128
                                && negb (Ascii.eqb c "|") && negb (isWhitespace c))%bool)
                     (list_ascii_of_string s) = true -> plain s).
  { intros s H c Hc. rewrite forallb_forall in H. specialize (H c Hc).
    apply andb_true_iff in H. destruct H as [H B].
    apply andb_true_iff in H. destruct H as [H A].
    apply andb_true_iff in H. destruct H as [L U].
    apply Nat.ltb_lt in L, U.
    split; [split; assumption |].
    split; [intros ->; discriminate A | destruct (isWhitespace c); [discriminate B | reflexivity]]. }
  assert (E0 : encodable camera0).
  { split; [apply P; reflexivity |]. split; [apply P; reflexivity |].
    split; [| split]; apply in_int32_bounds; cbn; lia. }
  assert (E1 : encodable camera1).
  { split; [apply P; reflexivity |]. split; [apply P; reflexivity |].
    split; [| split]; apply in_int32_bounds; cbn; lia. }
  assert (E : Forall encodable [camera0; camera1]).
  { constructor; [exact E0 | constructor; [exact E1 | constructor]]. }
  split; [exact E |].
  exact (proj1 (enumerateCameras_reads_back_the_native_list [camera0; camera1] E)).
Defined.

(** Outside these conditions the list is not read back.  A NUL in an id
    ends the C string, so that Kotlin receives the one character before it
    and finds no camera; and the no-break space that the bytes C2 A0 at the
    start of an id encode is whitespace, which [trim] removes from the id
    of the first camera. *)
Example nativeEnumerateCameras_stops_at_NUL :
  JniBridge.nativeEnumerateCameras [camera_nul; camera0] = Some "a"%string /\
  option_map enumerateCameras (JniBridge.nativeEnumerateCameras [camera_nul; camera0])
  = Some [].
Proof. vm_compute. split; reflexivity. Qed.

Example enumerateCameras_trims_no_break_space :
  option_map (map id) (option_map enumerateCameras
                         (JniBridge.nativeEnumerateCameras [camera_nbsp]))
  = Some ["0"%string] /\
  JniBridge.NewStringUTF (id camera_nbsp)
  = Some (String "160" (String "0" EmptyString)).
Proof. vm_compute. split; reflexivity. Qed.

End CameraListRun.
